(** * GeoMindIA backend: a shallow embedding of the query pipeline

    The Python services of [backend/services] and the handlers of
    [backend/main.py] are embedded as Rocq functions, one module for each
    class, followed by the properties proved of them.

    - A Python [str] is a [string]: the bytes of its UTF-8 encoding.
      [lower] lower-cases the ASCII letters and the two code points
      outside ASCII whose lower case holds an ASCII letter (U+0130 and
      U+212A); every other code point keeps its bytes, which no ASCII
      keyword can match, so the keyword tests below agree with Python's.
    - A Python [int] is a [Z].  A Python [float] is the rational it is
      written as ([Q]) and arithmetic on it is exact; [round1] is
      [round(x, 1)], rounding half to even.
    - A [dict] is an association list in insertion order, a [list] a list;
      a change in place is the changed value.  Module [Store] gives the
      keyword fallback once more on a store of objects with addresses,
      where a change in place is seen through every reference.
    - A call that may raise returns a [result]; every exception modelled is
      an instance of Python's [Exception], which is what the [except
      Exception] clauses of the code catch.
    - The outside world (the LLM, the database, the places API, [math]) is
      a record of possible answers handed to each operation; a [try] block
      that only talks to Google Maps is such an answer as a whole, and
      [str.title] and the decoding of an image are functions handed in.
    - [test_api.py] is embedded by what it prints. *)

From Stdlib Require Import ZArith QArith Qround String Ascii List Bool Lia.
From Stdlib Require Import DecimalString Sorted Permutation Lqa.
Import ListNotations.
Close Scope Q_scope.
Open Scope string_scope.

(** ** Python values and exceptions *)

(** [KeyError] carries its key as [repr] prints it. *)
Inductive exn : Type :=
| KeyError (key : string)
| TypeError (msg : string)
| AttributeError (msg : string)
| ValueError (msg : string)
| ZeroDivisionError (msg : string)
| IndexError (msg : string)
| Exception (msg : string)
| LibraryError (msg : string).

(** [str(e)] as the handlers print it. *)
Definition str_of_exn (e : exn) : string :=
  match e with
  | KeyError m | TypeError m | AttributeError m | ValueError m
  | ZeroDivisionError m | IndexError m | Exception m | LibraryError m => m
  end.

Inductive result (A : Type) : Type :=
| Ok (a : A)
| Raise (e : exn).
Arguments Ok {A} a.
Arguments Raise {A} e.

Definition bind {A B : Type} (m : result A) (k : A -> result B) : result B :=
  match m with
  | Ok a => k a
  | Raise e => Raise e
  end.

(** [try: body  except Exception as e: handler e] *)
Definition try_except {A : Type} (body : result A) (handler : exn -> result A)
  : result A :=
  match body with
  | Ok a => Ok a
  | Raise e => handler e
  end.

Declare Scope py_scope.
Delimit Scope py_scope with py.
Notation "x <- m ;; k" := (bind m (fun x => k))
  (at level 61, m at next level, right associativity) : py_scope.
Open Scope py_scope.

Fixpoint mapM {A B : Type} (f : A -> result B) (l : list A) : result (list B) :=
  match l with
  | [] => Ok []
  | a :: l' => b <- f a ;; bs <- mapM f l' ;; Ok (b :: bs)
  end.

#[warnings="-register-all"]
Inductive value : Type :=
| VNone
| VBool (b : bool)
| VInt (n : Z)
| VFloat (x : Q)
| VStr (s : string)
| VList (items : list value)
| VDict (entries : list (string * value)).

Definition dict : Type := list (string * value).

(** ** Strings *)

(** [needle in hay] for two strings *)
Fixpoint str_in (needle hay : string) : bool :=
  if prefix needle hay then true
  else match hay with
       | EmptyString => false
       | String _ hay' => str_in needle hay'
       end.

Definition is_space_byte (c : ascii) : bool :=
  let n := nat_of_ascii c in
  ((9 <=? n)%nat && (n <=? 13)%nat) || ((28 <=? n)%nat && (n <=? 32)%nat).

(** UTF-8 encodings of the white space outside ASCII that [str.strip] removes *)
Definition wide_spaces : list (list nat) :=
  [ [194; 133]; [194; 160]; [225; 154; 128];
    [226; 128; 128]; [226; 128; 129]; [226; 128; 130]; [226; 128; 131];
    [226; 128; 132]; [226; 128; 133]; [226; 128; 134]; [226; 128; 135];
    [226; 128; 136]; [226; 128; 137]; [226; 128; 138];
    [226; 128; 168]; [226; 128; 169]; [226; 128; 175];
    [226; 129; 159]; [227; 128; 128] ].

Fixpoint starts_with (p l : list nat) : option (list nat) :=
  match p, l with
  | [], _ => Some l
  | a :: p', b :: l' => if (a =? b)%nat then starts_with p' l' else None
  | _ :: _, [] => None
  end.

Fixpoint first_some {A B : Type} (f : A -> option B) (l : list A) : option B :=
  match l with
  | [] => None
  | a :: l' => match f a with Some b => Some b | None => first_some f l' end
  end.

(** Drops leading white space; [spaces] lists the multi-byte ones. *)
Fixpoint lstrip_bytes (spaces : list (list nat)) (fuel : nat) (l : list nat)
  : list nat :=
  match fuel with
  | O => l
  | S fuel' =>
      match l with
      | [] => []
      | b :: l' =>
          if is_space_byte (ascii_of_nat b) then lstrip_bytes spaces fuel' l'
          else match first_some (fun p => starts_with p l) spaces with
               | Some rest => lstrip_bytes spaces fuel' rest
               | None => l
               end
      end
  end.

Definition bytes_of (s : string) : list nat :=
  map nat_of_ascii (list_ascii_of_string s).
Definition of_bytes (l : list nat) : string :=
  string_of_list_ascii (map ascii_of_nat l).

(** [s.strip()] *)
Definition strip (s : string) : string :=
  let l := bytes_of s in
  let l1 := lstrip_bytes wide_spaces (List.length l) l in
  let r := lstrip_bytes (map (@rev nat) wide_spaces) (List.length l1) (rev l1) in
  of_bytes (rev r).

(** [s.replace(old, new)] for a non-empty [old]: the occurrences are taken
    from the left and do not overlap; [skip] counts the characters of a
    match still to be dropped. *)
Fixpoint replace_from (old new : string) (skip : nat) (s : string) : string :=
  match s with
  | EmptyString => EmptyString
  | String c s' =>
      match skip with
      | S k => replace_from old new k s'
      | O =>
          if prefix old s
          then new ++ replace_from old new (String.length old - 1) s'
          else String c (replace_from old new 0 s')
      end
  end.

Definition replace (old new s : string) : string := replace_from old new 0 s.

Definition lower_ascii (c : ascii) : ascii :=
  let n := nat_of_ascii c in
  if (65 <=? n)%nat && (n <=? 90)%nat then ascii_of_nat (n + 32) else c.

Fixpoint map_ascii (f : ascii -> ascii) (s : string) : string :=
  match s with
  | EmptyString => EmptyString
  | String c s' => String (f c) (map_ascii f s')
  end.

(** U+0130 lower-cases to [i] and U+0307, U+212A to [k]. *)
Definition capital_i_dot : string := of_bytes [196; 176].
Definition small_i_dot : string := "i" ++ of_bytes [204; 135].
Definition kelvin_sign : string := of_bytes [226; 132; 170].

(** [s.lower()] *)
Definition lower (s : string) : string :=
  map_ascii lower_ascii
    (replace kelvin_sign "k" (replace capital_i_dot small_i_dot s)).

(** [s.split(sep)] for a separator of one character *)
Fixpoint split_on (sep : ascii) (s : string) : list string :=
  match s with
  | EmptyString => [EmptyString]
  | String c s' =>
      if Ascii.eqb c sep then EmptyString :: split_on sep s'
      else match split_on sep s' with
           | line :: lines => String c line :: lines
           | [] => [String c EmptyString]
           end
  end.

(** [sep.join(l)] *)
Fixpoint join (sep : string) (l : list string) : string :=
  match l with
  | [] => EmptyString
  | [s] => s
  | s :: rest => s ++ sep ++ join sep rest
  end.

(** ** Dictionaries and lists *)

(** [d.get(k)] as an option: [None] when the key is absent *)
Fixpoint lookup (k : string) (d : dict) : option value :=
  match d with
  | [] => None
  | (k', v) :: d' => if String.eqb k k' then Some v else lookup k d'
  end.

(** [k in d] *)
Definition has_key (k : string) (d : dict) : bool :=
  match lookup k d with Some _ => true | None => false end.

(** [d[k] = v]: the entry is replaced where it stands, or added at the end *)
Fixpoint dict_set (k : string) (v : value) (d : dict) : dict :=
  match d with
  | [] => [(k, v)]
  | (k', v') :: d' =>
      if String.eqb k k' then (k, v) :: d' else (k', v') :: dict_set k v d'
  end.

(** [type(v).__name__] *)
Definition type_name (v : value) : string :=
  match v with
  | VNone => "NoneType"
  | VBool _ => "bool"
  | VInt _ => "int"
  | VFloat _ => "float"
  | VStr _ => "str"
  | VList _ => "list"
  | VDict _ => "dict"
  end.

Definition no_attribute (v : value) (name : string) : exn :=
  AttributeError ("'" ++ type_name v ++ "' object has no attribute '" ++ name ++ "'").

Definition not_subscriptable (v : value) : exn :=
  TypeError ("'" ++ type_name v ++ "' object is not subscriptable").

(** [d[k]] *)
Definition getitem (v : value) (k : string) : result value :=
  match v with
  | VDict d =>
      match lookup k d with
      | Some x => Ok x
      | None => Raise (KeyError ("'" ++ k ++ "'"))
      end
  | VStr _ => Raise (TypeError "string indices must be integers, not 'str'")
  | VList _ => Raise (TypeError "list indices must be integers or slices, not str")
  | _ => Raise (not_subscriptable v)
  end.

(** [v.get(k, default)] *)
Definition py_get (v : value) (k : string) (default : value) : result value :=
  match v with
  | VDict d =>
      match lookup k d with
      | Some x => Ok x
      | None => Ok default
      end
  | _ => Raise (no_attribute v "get")
  end.

(** Truth value of an object, as [if v:] tests it *)
Definition truthy (v : value) : bool :=
  match v with
  | VNone => false
  | VBool b => b
  | VInt n => negb (n =? 0)%Z
  | VFloat x => negb (Qeq_bool x 0)
  | VStr s => negb (String.eqb s "")
  | VList l => match l with [] => false | _ => true end
  | VDict d => match d with [] => false | _ => true end
  end.

(** [v == s] for a string literal [s] *)
Definition eq_str (v : value) (s : string) : bool :=
  match v with
  | VStr s' => String.eqb s' s
  | _ => false
  end.

(** [v.lower()] *)
Definition py_lower (v : value) : result string :=
  match v with
  | VStr s => Ok (lower s)
  | _ => Raise (no_attribute v "lower")
  end.

(** The items a [for] loop over [v] visits. *)
Definition iter (v : value) : result (list value) :=
  match v with
  | VList l => Ok l
  | VDict d => Ok (map (fun kv => VStr (fst kv)) d)
  | VStr s => Ok (map (fun c => VStr (String c EmptyString)) (list_ascii_of_string s))
  | _ => Raise (TypeError ("'" ++ type_name v ++ "' object is not iterable"))
  end.

(** [v[0]] *)
Definition getitem0 (v : value) : result value :=
  match v with
  | VList (x :: _) => Ok x
  | VList [] => Raise (IndexError "list index out of range")
  | VStr (String c _) => Ok (VStr (String c EmptyString))
  | VStr EmptyString => Raise (IndexError "string index out of range")
  | VDict _ => Raise (KeyError "0")
  | _ => Raise (not_subscriptable v)
  end.

(** [v[:n]] *)
Definition slice_to (n : nat) (v : value) : result value :=
  match v with
  | VList l => Ok (VList (firstn n l))
  | VStr s => Ok (VStr (substring 0 n s))
  | VDict _ => Raise (TypeError "unhashable type: 'slice'")
  | _ => Raise (not_subscriptable v)
  end.

(** [d[k].append(x)] on a dictionary whose key [k] holds a list *)
Fixpoint append_at (k : string) (x : value) (d : dict) : dict :=
  match d with
  | [] => []
  | (k', v) :: d' =>
      if String.eqb k k'
      then (k', match v with VList l => VList (l ++ [x]) | _ => v end) :: d'
      else (k', v) :: append_at k x d'
  end.

(** ** Library functions the code calls but does not define *)

Record Runtime : Type := {
  (** [json.loads] *)
  json_loads : string -> result value;
  (** [json.dumps(v, indent=2)] *)
  json_dumps : value -> string;
  (** [str(v)], as an f-string formats a value that is not a string *)
  repr : value -> string;
  (** the prompt template of [interpret_query] filled in *)
  interpret_prompt : string -> option value -> string;
  (** the prompt template of [generate_sql_query] filled in *)
  sql_prompt : value -> string
}.

(** [f"{v}"] *)
Definition format (rt : Runtime) (v : value) : string :=
  match v with
  | VStr s => s
  | _ => repr rt v
  end.

(** ** services/llm_service.py *)

Module LLMService.

(** [genai.GenerativeModel]: [generate_content(prompt).text], or the
    exception the call raised. *)
Record GenerativeModel : Type := {
  generate_content : string -> result string
}.

Record t : Type := {
  model : option GenerativeModel;
  enabled : bool
}.

(** [api_key] is [os.getenv("GEMINI_API_KEY")]; [gemini] is the model the
    library hands out for a key. *)
Definition __init__ (api_key : option string) (gemini : GenerativeModel) : t :=
  match api_key with
  | Some key =>
      if negb (String.eqb key "")
      then {| model := Some gemini; enabled := true |}
      else {| model := None; enabled := false |}
  | None => {| model := None; enabled := false |}
  end.

Definition check_connection (self : t) : string :=
  if enabled self then "healthy" else "disabled".

Definition call_model (self : t) (prompt : string) : result string :=
  match model self with
  | Some m => generate_content m prompt
  | None => Raise (AttributeError "'LLMService' object has no attribute 'model'")
  end.

Definition buffer_500 : value :=
  VDict [("operation", VStr "buffer");
         ("parameters", VDict [("radius", VStr "500"); ("unit", VStr "meters")])].

Definition cafe_filter : value :=
  VDict [("type", VStr "business");
         ("attribute", VStr "poi_type");
         ("operator", VStr "equals");
         ("value", VStr "cafe");
         ("unit", VStr "category")].

Definition _fallback_interpretation (self : t) (query : string) : value :=
  let query_lower := lower query in
  let interpretation : dict :=
    [("query_type", VStr "polygon");
     ("analysis_type", VStr "proximity");
     ("location",
       VDict [("city", if str_in "porto alegre" query_lower
                       then VStr "Porto Alegre" else VNone)]);
     ("filters", VList []);
     ("spatial_operations", VList []);
     ("output",
       VDict [("fields", VList [VStr "name"; VStr "score"; VStr "geometry"]);
              ("limit", VInt 50)]);
     ("enrich_with_places",
       VBool (str_in "coffee" query_lower || str_in "restaurant" query_lower));
     ("description", VStr ("Analysis query: " ++ query))] in
  let interpretation :=
    if str_in "500" query
       && (str_in "meter" query_lower || str_in "metro" query_lower)
    then append_at "spatial_operations" buffer_500 interpretation
    else interpretation in
  let interpretation :=
    if str_in "coffee" query_lower || str_in "cafeteria" query_lower
    then append_at "filters" cafe_filter interpretation
    else interpretation in
  VDict interpretation.

Definition interpret_query (rt : Runtime) (self : t)
    (query : string) (context : option value) : result value :=
  if negb (enabled self) then Ok (_fallback_interpretation self query)
  else
    let prompt := interpret_prompt rt query context in
    try_except
      (text <- call_model self prompt ;;
       interpretation <- json_loads rt text ;;
       Ok interpretation)
      (fun _ => Ok (_fallback_interpretation self query)).

Definition _fallback_sql_query (rt : Runtime) (self : t) (interpretation : value)
  : result string :=
  location <- py_get interpretation "location" (VDict []) ;;
  city <- py_get location "city" VNone ;;
  let city_filter :=
    if truthy city then "WHERE city = '" ++ format rt city ++ "'" else "" in
  Ok ("
        SELECT 
            d.id,
            d.neighborhood as name,
            d.population,
            d.density,
            ST_AsGeoJSON(d.geom) as geometry,
            COUNT(poi.id) as nearby_pois
        FROM demographics d
        LEFT JOIN points_of_interest poi 
            ON ST_DWithin(d.geom, poi.geom, 500)
        " ++ city_filter ++ "
        GROUP BY d.id, d.neighborhood, d.population, d.density, d.geom
        ORDER BY d.density DESC
        LIMIT 50;
        ").

Definition generate_sql_query (rt : Runtime) (self : t) (interpretation : value)
  : result string :=
  if negb (enabled self) then _fallback_sql_query rt self interpretation
  else
    let prompt := sql_prompt rt interpretation in
    try_except
      (text <- call_model self prompt ;;
       let sql_query := strip text in
       let sql_query := strip (replace "```" "" (replace "```sql" "" sql_query)) in
       Ok sql_query)
      (fun _ => _fallback_sql_query rt self interpretation).

End LLMService.

(** ** Numbers *)

Definition digit_of (c : ascii) : option Z :=
  let n := nat_of_ascii c in
  if (48 <=? n)%nat && (n <=? 57)%nat then Some (Z.of_nat (n - 48)) else None.

(** Decimal digits, single underscores allowed between two digits: the
    number read and how many digits it has. *)
Fixpoint read_digits (prev_digit : bool) (acc : Z) (count : nat) (s : string)
  : option (Z * nat) :=
  match s with
  | EmptyString => if prev_digit then Some (acc, count) else None
  | String c s' =>
      match digit_of c with
      | Some d => read_digits true (acc * 10 + d) (S count) s'
      | None =>
          if Ascii.eqb c "_" && prev_digit then read_digits false acc count s'
          else None
      end
  end.

Definition read_sign (s : string) : bool * string :=
  match s with
  | String "-" s' => (true, s')
  | String "+" s' => (false, s')
  | _ => (false, s)
  end.

Definition signed (neg : bool) (n : Z) : Z := if neg then (- n)%Z else n.

(** [int(s)] for a string in base ten (ASCII digits) *)
Definition int_of_str (s : string) : result Z :=
  let (neg, body) := read_sign (strip s) in
  match read_digits false 0 0 body with
  | Some (n, _) => Ok (signed neg n)
  | None => Raise (ValueError "invalid literal for int() with base 10")
  end.

(** The text before the first character satisfying [p], and the text after
    it when there is one *)
Fixpoint split_at (p : ascii -> bool) (s : string) : string * option string :=
  match s with
  | EmptyString => (EmptyString, None)
  | String c s' =>
      if p c then (EmptyString, Some s')
      else let (a, b) := split_at p s' in (String c a, b)
  end.

(** [float(s)] for a decimal literal (ASCII digits, optional fraction and
    exponent); [inf] and [nan] have no rational and are not read. *)
Definition float_of_str (s : string) : result Q :=
  let bad := Raise (ValueError "could not convert string to float") in
  let (neg, body) := read_sign (strip s) in
  let (mantissa, exponent) :=
    split_at (fun c => Ascii.eqb c "e" || Ascii.eqb c "E") body in
  let (int_part, frac_part) := split_at (fun c => Ascii.eqb c ".") mantissa in
  let digits (t : string) : option (Z * nat) :=
    if String.eqb t "" then Some (0%Z, 0) else read_digits false 0 0 t in
  let frac := match frac_part with Some t => t | None => "" end in
  if String.eqb int_part "" && String.eqb frac "" then bad
  else
    match digits int_part, digits frac with
    | Some (i, _), Some (f, nf) =>
        let m := (inject_Z (signed neg (i * 10 ^ Z.of_nat nf + f))
                  / inject_Z (10 ^ Z.of_nat nf))%Q in
        match exponent with
        | None => Ok m
        | Some t =>
            let (eneg, ebody) := read_sign t in
            match read_digits false 0 0 ebody with
            | Some (e, _) =>
                Ok (if eneg then m / inject_Z (10 ^ e) else m * inject_Z (10 ^ e))%Q
            | None => bad
            end
        end
    | _, _ => bad
    end.

(** [str(n)] for an [int] *)
Definition str_of_Z (n : Z) : string :=
  DecimalString.NilZero.string_of_int (Z.to_int n).

(** Nearest integer, ties to the even one *)
Definition round_half_even (x : Q) : Z :=
  let f := Qfloor x in
  match (x - inject_Z f ?= 1 # 2)%Q with
  | Lt => f
  | Gt => (f + 1)%Z
  | Eq => if Z.even f then f else (f + 1)%Z
  end.

(** [round(x, 1)] for a [float] *)
Definition round1 (x : Q) : Q := round_half_even (x * 10) # 10.

(** [min(a, b)]: Python keeps [a] unless [b < a] *)
Definition py_min (a b : Q) : Q :=
  match (b ?= a)%Q with Lt => b | _ => a end.

(** [max(a, b)]: Python keeps [a] unless [b > a] *)
Definition py_max (a b : Q) : Q :=
  match (b ?= a)%Q with Gt => b | _ => a end.

(** A value used as a number in arithmetic or in an ordering *)
Definition as_number (v : value) : result Q :=
  match v with
  | VInt n => Ok (inject_Z n)
  | VFloat x => Ok x
  | VBool b => Ok (if b then 1 else 0)%Q
  | _ => Raise (TypeError "unsupported operand type(s)")
  end.

(** [range(n)] *)
Definition range (n : nat) : list Z := map Z.of_nat (seq 0 n).


(** [l[i]] for a list: a negative [i] counts from the end *)
Definition list_index {A : Type} (l : list A) (i : Z) : result A :=
  let n := Z.of_nat (List.length l) in
  let j := if (i <? 0)%Z then (n + i)%Z else i in
  if (j <? 0)%Z then Raise (IndexError "list index out of range")
  else match nth_error l (Z.to_nat j) with
       | Some x => Ok x
       | None => Raise (IndexError "list index out of range")
       end.

(** ** services/geospatial_service.py *)

Module GeospatialService.

Definition Pool : Type := nat.
Definition Conn : Type := nat.

Record db_config_t : Type := {
  host : string;
  port : Z;
  database : string;
  user : string;
  password : string
}.

(** asyncpg as this service uses it: what each call answers. *)
Record Database : Type := {
  create_pool : db_config_t -> result Pool;
  acquire : Pool -> result Conn;
  release : Conn -> result unit;
  fetch : Conn -> string -> result (list dict);
  fetchval : Conn -> string -> result value;
  execute : Conn -> string -> result unit
}.

Record t : Type := {
  db_config : db_config_t;
  pool : option Pool
}.

(** [getenv] is [os.getenv]. *)
Definition __init__ (getenv : string -> option string) : result t :=
  let env (k default : string) :=
    match getenv k with Some v => v | None => default end in
  port <- int_of_str (env "DB_PORT" "5432") ;;
  Ok {| db_config :=
          {| host := env "DB_HOST" "localhost";
             port := port;
             database := env "DB_NAME" "geospatial_ai";
             user := env "DB_USER" "postgres";
             password := env "DB_PASSWORD" "postgres" |};
        pool := None |}.

(** Calls of [asyncpg.create_pool], in the order they are made *)
Inductive event : Type :=
| PoolCreated (p : Pool)
| PoolCreationFailed (e : exn).


(** An operation of the service: its value, the service afterwards and
    the calls of [create_pool] it made. *)
Definition op (A : Type) : Type := t -> A * t * list event.

(** [async with pool.acquire() as conn: body] *)
Definition with_connection {A : Type} (db : Database) (p : Pool)
    (body : Conn -> result A) : result A :=
  conn <- acquire db p ;;
  match body conn with
  | Ok a => _ <- release db conn ;; Ok a
  | Raise e =>
      match release db conn with
      | Ok _ => Raise e
      | Raise e' => Raise e'
      end
  end.

Definition get_pool (db : Database) : op (option Pool) :=
  fun self =>
    match pool self with
    | None =>
        match create_pool db (db_config self) with
        | Ok p => (Some p, {| db_config := db_config self; pool := Some p |},
                   [PoolCreated p])
        | Raise e => (None, self, [PoolCreationFailed e])
        end
    | Some p => (Some p, self, [])
    end.

Definition check_connection (db : Database) : op string :=
  fun self =>
    let '(pool, self, log) := get_pool db self in
    match pool with
    | Some p =>
        (match with_connection db p (fun conn => fetchval db conn "SELECT 1") with
         | Ok _ => "healthy"
         | Raise e => "unhealthy: " ++ str_of_exn e
         end, self, log)
    | None => ("unhealthy", self, log)
    end.

Definition mock_row (i : Z) : dict :=
  let base_lat := (-300346 # 10000)%Q in
  let base_lng := (-512177 # 10000)%Q in
  let lat_offset := (inject_Z (i mod 5 - 2) * (1 # 100))%Q in
  let lng_offset := (inject_Z (i / 5 - 1) * (1 # 100))%Q in
  let lat := (base_lat + lat_offset)%Q in
  let lng := (base_lng + lng_offset)%Q in
  let d := (5 # 1000)%Q in
  let point (x y : Q) := VList [VFloat x; VFloat y] in
  let polygon_coords :=
    VList [point (lng - d) (lat - d); point (lng + d) (lat - d);
           point (lng + d) (lat + d); point (lng - d) (lat + d);
           point (lng - d) (lat - d)]%Q in
  [("id", VInt (i + 1));
   ("name", VStr ("Area " ++ str_of_Z (i + 1)));
   ("score", VFloat (round1 (85 - inject_Z i * (35 # 10))));
   ("population", VInt (5000 + i * 500));
   ("density", VInt (120 - i * 5));
   ("young_population_pct", VInt (35 + i * 2));
   ("competitor_count", VInt (i mod 3));
   ("business_centers_nearby", VInt (2 + i mod 4));
   ("avg_walk_time", VFloat (round1 (5 + inject_Z i * (8 # 10))));
   ("geometry",
     VDict [("type", VStr "Polygon"); ("coordinates", VList [polygon_coords])]);
   ("center", VDict [("lat", VFloat lat); ("lng", VFloat lng)])].

(** Puts [x] in front of the first entry whose key is not above its own:
    entries of equal key keep the order they came in. *)
Fixpoint insert_desc (x : Q * dict) (l : list (Q * dict)) : list (Q * dict) :=
  match l with
  | [] => [x]
  | y :: l' =>
      match (fst y ?= fst x)%Q with
      | Gt => y :: insert_desc x l'
      | _ => x :: l
      end
  end.

(** [rows.sort(key=lambda x: x["score"], reverse=True)]: the keys are
    read first, then the rows are ordered; the sort is stable. *)
Definition sort_by_score_desc (rows : list dict) : result (list dict) :=
  keys <- mapM (fun row => s <- getitem (VDict row) "score" ;; as_number s) rows ;;
  Ok (map snd (fold_right insert_desc [] (combine keys rows))).

Definition _get_mock_data (self : t) (interpretation : value)
  : result (list dict) :=
  let mock_results := map mock_row (range 10) in
  sort_by_score_desc mock_results.

(** One row of [conn.fetch], as [dict(row)] with its geometry parsed *)
Definition convert_row (rt : Runtime) (row : dict) : dict :=
  match lookup "geometry" row with
  | Some (VStr s) =>
      match json_loads rt s with
      | Ok g => dict_set "geometry" g row
      | Raise _ => row
      end
  | _ => row
  end.

Definition execute_query (rt : Runtime) (db : Database)
    (sql_query : string) (interpretation : value) : op (result (list dict)) :=
  fun self =>
    let '(pool, self, log) := get_pool db self in
    match pool with
    | None => (_get_mock_data self interpretation, self, log)
    | Some p =>
        (try_except
           (with_connection db p (fun conn =>
              rows <- fetch db conn sql_query ;;
              Ok (map (convert_row rt) rows)))
           (fun _ => _get_mock_data self interpretation),
         self, log)
    end.

(** The statements [initialize_database] sends, in order *)
Definition schema_statements : list string :=
    ["CREATE EXTENSION IF NOT EXISTS postgis;";
     "
                CREATE TABLE IF NOT EXISTS demographics (
                    id SERIAL PRIMARY KEY,
                    geom GEOMETRY(Polygon, 4326),
                    city VARCHAR(100),
                    neighborhood VARCHAR(100),
                    population INTEGER,
                    age_group VARCHAR(50),
                    income_level VARCHAR(50),
                    density FLOAT,
                    created_at TIMESTAMP DEFAULT CURRENT_TIMESTAMP
                );
            ";
     "
                CREATE TABLE IF NOT EXISTS points_of_interest (
                    id SERIAL PRIMARY KEY,
                    geom GEOMETRY(Point, 4326),
                    name VARCHAR(200),
                    type VARCHAR(100),
                    category VARCHAR(100),
                    rating FLOAT,
                    review_count INTEGER,
                    created_at TIMESTAMP DEFAULT CURRENT_TIMESTAMP
                );
            ";
     "
                CREATE TABLE IF NOT EXISTS business_zones (
                    id SERIAL PRIMARY KEY,
                    geom GEOMETRY(Polygon, 4326),
                    name VARCHAR(200),
                    zone_type VARCHAR(100),
                    avg_foot_traffic INTEGER,
                    created_at TIMESTAMP DEFAULT CURRENT_TIMESTAMP
                );
            ";
     "CREATE INDEX IF NOT EXISTS idx_demographics_geom ON demographics USING GIST(geom);";
     "CREATE INDEX IF NOT EXISTS idx_poi_geom ON points_of_interest USING GIST(geom);";
     "CREATE INDEX IF NOT EXISTS idx_business_geom ON business_zones USING GIST(geom);"].

Fixpoint execute_all (db : Database) (conn : Conn) (stmts : list string)
  : result unit :=
  match stmts with
  | [] => Ok tt
  | stmt :: rest => _ <- execute db conn stmt ;; execute_all db conn rest
  end.

Definition initialize_database (db : Database) : op (result unit) :=
  fun self =>
    let '(pool, self, log) := get_pool db self in
    match pool with
    | None => (Raise (Exception "Cannot connect to database"), self, log)
    | Some p =>
        (with_connection db p (fun conn =>
           execute_all db conn schema_statements),
         self, log)
    end.





End GeospatialService.

(** ** The [googlemaps] client, as the services call it *)

Module googlemaps.

Record Client : Type := {
  (** [places_nearby(location=(lat, lng), radius=r, type=t)] *)
  places_nearby : value * value -> Z -> string -> result value;
  geocode : string -> result value;
  reverse_geocode : Q * Q -> result value
}.

End googlemaps.

(** ** services/maps_service.py *)

Module MapsService.

Record t : Type := {
  client : option googlemaps.Client;
  enabled : bool
}.

(** [api_key] is [os.getenv("GOOGLE_MAPS_API_KEY")]. *)
Definition __init__ (api_key : option string) (gmaps : googlemaps.Client) : t :=
  match api_key with
  | Some key =>
      if negb (String.eqb key "")
      then {| client := Some gmaps; enabled := true |}
      else {| client := None; enabled := false |}
  | None => {| client := None; enabled := false |}
  end.

Definition check_connection (self : t) : string :=
  if enabled self then "healthy" else "disabled".

Definition call_places_nearby (self : t) (location : value * value)
    (radius : Z) (type : string) : result value :=
  match client self with
  | Some c => googlemaps.places_nearby c location radius type
  | None => Raise (AttributeError "'NoneType' object has no attribute 'places_nearby'")
  end.

Definition type_mapping : list (string * string) :=
  [("cafe", "cafe"); ("coffee", "cafe"); ("restaurant", "restaurant");
   ("gym", "gym"); ("school", "school"); ("bank", "bank");
   ("hospital", "hospital"); ("pharmacy", "pharmacy"); ("park", "park")].

Fixpoint assoc (k : string) (m : list (string * string)) : option string :=
  match m with
  | [] => None
  | (k', v) :: m' => if String.eqb k k' then Some v else assoc k m'
  end.

(** The body of the loop of [_extract_place_types] for one filter *)
Definition extract_step (place_types : list string) (filter_item : value)
  : result (list string) :=
  type <- py_get filter_item "type" VNone ;;
  if eq_str type "business" then
    raw <- py_get filter_item "value" (VStr "") ;;
    value <- py_lower raw ;;
    match assoc value type_mapping with
    | Some place_type => Ok (place_types ++ [place_type])%list
    | None => Ok place_types
    end
  else Ok place_types.

Fixpoint extract_loop (place_types : list string) (filters : list value)
  : result (list string) :=
  match filters with
  | [] => Ok place_types
  | filter_item :: rest =>
      place_types <- extract_step place_types filter_item ;;
      extract_loop place_types rest
  end.

Definition _extract_place_types (self : t) (interpretation : value)
  : result (list string) :=
  filters <- py_get interpretation "filters" (VList []) ;;
  items <- iter filters ;;
  place_types <- extract_loop [] items ;;
  Ok (match place_types with [] => ["cafe"] | _ => place_types end).

(** One entry of the [nearby_places] comprehension *)
Definition place_entry (place : value) : result value :=
  name <- py_get place "name" VNone ;;
  types <- py_get place "types" VNone ;;
  type <- (if truthy types
           then (ts <- py_get place "types" (VList []) ;; getitem0 ts)
           else Ok (VStr "unknown")) ;;
  rating <- py_get place "rating" VNone ;;
  geometry <- py_get place "geometry" (VDict []) ;;
  location <- py_get geometry "location" VNone ;;
  Ok (VDict [("name", name); ("type", type);
             ("rating", rating); ("location", location)]).

(** The [try] block of [enrich_with_places] for one row: the list to
    store under [nearby_places] *)
Definition nearby_places (self : t) (location : value * value)
    (place_types : list string) : result value :=
  let type := match place_types with ty :: _ => ty | [] => "cafe" end in
  places_result <- call_places_nearby self location 500 type ;;
  found <- py_get places_result "results" (VList []) ;;
  top <- slice_to 5 found ;;
  places <- iter top ;;
  entries <- mapM place_entry places ;;
  Ok (VList entries).

(** The body of the loop of [enrich_with_places] for one row *)
Definition enrich_row (self : t) (place_types : list string) (row : dict)
  : result dict :=
  if has_key "center" row then
    center <- getitem (VDict row) "center" ;;
    lat <- getitem center "lat" ;;
    center <- getitem (VDict row) "center" ;;
    lng <- getitem center "lng" ;;
    let location := (lat, lng) in
    match nearby_places self location place_types with
    | Ok places => Ok (dict_set "nearby_places" places row)
    | Raise _ => Ok (dict_set "nearby_places" (VList []) row)
    end
  else Ok row.

Definition enrich_with_places (self : t) (results : list dict)
    (interpretation : value) : result (list dict) :=
  if negb (enabled self) then Ok results
  else
    place_types <- _extract_place_types self interpretation ;;
    mapM (enrich_row self place_types) results.

(** [geocode_result[0]['geometry']['location']] as a [lat]/[lng] mapping *)
Definition first_location (geocode_result : value) : result value :=
  first <- getitem0 geocode_result ;;
  geometry <- getitem first "geometry" ;;
  location <- getitem geometry "location" ;;
  lat <- getitem location "lat" ;;
  lng <- getitem location "lng" ;;
  Ok (VDict [("lat", lat); ("lng", lng)]).

Definition geocode_address (self : t) (address : string) : value :=
  if negb (enabled self) then VNone
  else
    match
      (geocode_result <-
         match client self with
         | Some c => googlemaps.geocode c address
         | None => Raise (AttributeError "'NoneType' object has no attribute 'geocode'")
         end ;;
       if truthy geocode_result
       then found <- first_location geocode_result ;; Ok (Some found)
       else Ok None)
    with
    | Ok (Some found) => found
    | Ok None | Raise _ => VNone
    end.

Definition reverse_geocode (self : t) (lat lng : Q) : value :=
  if negb (enabled self) then VNone
  else
    match
      (reverse_result <-
         match client self with
         | Some c => googlemaps.reverse_geocode c (lat, lng)
         | None => Raise (AttributeError "'NoneType' object has no attribute 'reverse_geocode'")
         end ;;
       if truthy reverse_result
       then first <- getitem0 reverse_result ;;
            address <- getitem first "formatted_address" ;;
            Ok (Some address)
       else Ok None)
    with
    | Ok (Some address) => address
    | Ok None | Raise _ => VNone
    end.


End MapsService.

(** ** services/vision_service.py *)

Module VisionService.

Record t : Type := {
  vision_model : option LLMService.GenerativeModel;
  enabled : bool
}.

(** [api_key] is [os.getenv("GEMINI_API_KEY")]. *)
Definition __init__ (api_key : option string)
    (gemini : LLMService.GenerativeModel) : t :=
  match api_key with
  | Some key =>
      if negb (String.eqb key "")
      then {| vision_model := Some gemini; enabled := true |}
      else {| vision_model := None; enabled := false |}
  | None => {| vision_model := None; enabled := false |}
  end.

Definition check_connection (self : t) : string :=
  if enabled self then "healthy" else "disabled".

(** Fetching an image and asking the model about it: [_download_image],
    the prompt of the analysis and [generate_content], as the text of the
    reply or the exception raised on the way.  The arguments are the URL
    of the image and what the prompt is made of. *)
Record Eyes : Type := {
  satellite_reply : string -> value -> value -> value -> result string;
  street_view_reply : string -> value -> result string
}.

(** [os.getenv("GOOGLE_MAPS_API_KEY", "")] *)
Definition maps_key (getenv : string -> option string) : string :=
  match getenv "GOOGLE_MAPS_API_KEY" with
  | Some key => key
  | None => ""
  end.

Definition _get_satellite_image_url (rt : Runtime)
    (getenv : string -> option string) (self : t) (lat lng zoom : value)
  : string :=
  let api_key := maps_key getenv in
  "https://maps.googleapis.com/maps/api/staticmap?center=" ++ format rt lat
  ++ "," ++ format rt lng ++ "&zoom=" ++ format rt zoom
  ++ "&size=640x640&maptype=satellite&key=" ++ api_key.


Definition _mock_satellite_analysis (rt : Runtime) (self : t)
    (lat lng analysis_type : value) : value :=
  VDict
    [("location", VDict [("lat", lat); ("lng", lng)]);
     ("analysis_type", analysis_type);
     ("insights", VStr ("
            Mock Satellite Analysis for (" ++ format rt lat ++ ", " ++ format rt lng ++ "):
            
            Commercial Potential Score: 7.5/10
            
            Key Observations:
            - High building density with mixed commercial-residential use
            - Good street accessibility with main road access
            - Moderate parking availability
            - Active commercial zone with visible businesses
            - Well-maintained infrastructure
            
            Recommendations:
            - Suitable for retail or food service business
            - Consider corner location for maximum visibility
            - Peak activity likely during business hours
            
            Note: Enable Gemini API for AI-powered analysis
            "));
     ("image_url",
       VStr ("https://via.placeholder.com/640x640.png?text=Satellite+View+"
             ++ format rt lat ++ "," ++ format rt lng));
     ("success", VBool true);
     ("mock", VBool true)].


Definition analyze_satellite_image (rt : Runtime)
    (getenv : string -> option string) (world : Eyes) (self : t)
    (lat lng zoom analysis_type : value) : value :=
  if negb (enabled self)
  then _mock_satellite_analysis rt self lat lng analysis_type
  else
    let image_url := _get_satellite_image_url rt getenv self lat lng zoom in
    match satellite_reply world image_url analysis_type lat lng with
    | Ok text =>
        VDict [("location", VDict [("lat", lat); ("lng", lng)]);
               ("analysis_type", analysis_type);
               ("insights", VStr text);
               ("image_url", VStr image_url);
               ("success", VBool true)]
    | Raise _ => _mock_satellite_analysis rt self lat lng analysis_type
    end.


(** [f"Location {i+1}: {insight}"] for the insights from index [i] on *)
Fixpoint insight_lines (rt : Runtime) (i : nat) (insights : list value)
  : list string :=
  match insights with
  | [] => []
  | insight :: rest =>
      ("Location " ++ str_of_Z (Z.of_nat i + 1) ++ ": " ++ format rt insight)
      :: insight_lines rt (S i) rest
  end.

Definition _generate_comparative_summary (rt : Runtime) (self : t)
    (results : list value) : string :=
  if negb (enabled self)
  then "Comparative summary available with Gemini API enabled"
  else
    match
      (insights <- mapM (fun r => analysis <- getitem r "analysis" ;;
                                  getitem analysis "insights") results ;;
       let prompt := "
            Compare these " ++ str_of_Z (Z.of_nat (List.length results)) ++ " location analyses and provide:
            1. Best location and why
            2. Key differences between locations
            3. Top recommendation
            
            Analyses:
            " ++ join (String (ascii_of_nat 10) EmptyString)
                   (insight_lines rt 0 insights) ++ "
            " in
       match vision_model self with
       | Some m => LLMService.generate_content m prompt
       | None =>
           Raise (AttributeError
                    "'VisionService' object has no attribute 'vision_model'")
       end)
    with
    | Ok text => text
    | Raise _ => "Comparative analysis in progress..."
    end.

(** The loop of [analyze_multiple_locations] *)
Fixpoint analyze_each (rt : Runtime) (getenv : string -> option string)
    (world : Eyes) (self : t) (locations : list dict) : result (list value) :=
  match locations with
  | [] => Ok []
  | loc :: rest =>
      lat <- getitem (VDict loc) "lat" ;;
      lng <- getitem (VDict loc) "lng" ;;
      let satellite_analysis :=
        analyze_satellite_image rt getenv world self lat lng (VInt 18)
          (VStr "commercial_potential") in
      results <- analyze_each rt getenv world self rest ;;
      Ok (VDict [("location", VDict loc); ("analysis", satellite_analysis)]
          :: results)
  end.

Definition analyze_multiple_locations (rt : Runtime)
    (getenv : string -> option string) (world : Eyes) (self : t)
    (locations : list dict) (analysis_type : value) : result value :=
  results <- analyze_each rt getenv world self (firstn 5 locations) ;;
  if enabled self && (1 <? List.length results)%nat then
    let summary := _generate_comparative_summary rt self results in
    Ok (VDict [("individual_analyses", VList results);
               ("comparative_summary", VStr summary);
               ("success", VBool true)])
  else
    Ok (VDict [("individual_analyses", VList results);
               ("comparative_summary",
                 VStr "Comparative analysis available with Gemini API");
               ("success", VBool true)]).

End VisionService.

(** ** The [math] module, as the routing service calls it *)

Module math.

Record t : Type := {
  pi : Q;
  cos : Q -> Q;
  sin : Q -> Q
}.

End math.

(** ** services/routing_service.py *)

Module RoutingService.

(** A request mapping of type [Dict[str, float]] *)
Definition coords : Type := list (string * Q).

Definition coords_value (loc : coords) : value :=
  VDict (map (fun kv => (fst kv, VFloat (snd kv))) loc).

(** The Google Maps side of the service.  [search_meeting_point] is the
    [try] block of [find_optimal_meeting_point]: its outcome depends on
    what the Places and Directions APIs answer. *)
Record Client : Type := {
  search_meeting_point : list coords -> value -> result value
}.

Record t : Type := {
  client : option Client;
  enabled : bool
}.

(** [api_key] is [os.getenv("GOOGLE_MAPS_API_KEY")]. *)
Definition __init__ (api_key : option string) (gmaps : Client) : t :=
  match api_key with
  | Some key =>
      if negb (String.eqb key "")
      then {| client := Some gmaps; enabled := true |}
      else {| client := None; enabled := false |}
  | None => {| client := None; enabled := false |}
  end.

Definition check_connection (self : t) : string :=
  if enabled self then "healthy" else "disabled".

(** [loc[k]] *)
Fixpoint coord (k : string) (loc : coords) : result Q :=
  match loc with
  | [] => Raise (KeyError ("'" ++ k ++ "'"))
  | (k', x) :: loc' => if String.eqb k k' then Ok x else coord k loc'
  end.


(** [a / n] for a number of items [n] *)
Definition div_len (a : Q) (n : nat) : result Q :=
  match n with
  | O => Raise (ZeroDivisionError "division by zero")
  | S _ => Ok (a / inject_Z (Z.of_nat n))%Q
  end.



(** The [try] blocks of [calculate_isochrone] and [analyze_accessibility]:
    how each ends depends on what the Places, Directions and Distance
    Matrix APIs answer. *)
Record Live : Type := {
  isochrone_live : coords -> Z -> value -> list Z -> result value;
  accessibility_live : coords -> list string -> option Z -> result value
}.

Definition _get_isochrone_color (self : t) (interval max_interval : Z)
  : result string :=
  if (max_interval =? 0)%Z then Raise (ZeroDivisionError "division by zero")
  else
    let ratio := (inject_Z interval / inject_Z max_interval)%Q in
    if Qle_bool ratio (33 # 100) then Ok "#10b981"
    else if Qle_bool ratio (66 # 100) then Ok "#f59e0b"
    else Ok "#ef4444".

(** [max(l)] for a list of [int]; the text of the exception for an empty
    list is that of Python 3.11 *)
Definition max_of (l : list Z) : result Z :=
  match l with
  | [] => Raise (ValueError "max() arg is an empty sequence")
  | x :: rest => Ok (fold_left Z.max rest x)
  end.

(** One corner of the polygon of [_mock_isochrone] *)
Definition circle_point (m : math.t) (center : coords) (radius_deg : Q) (i : Z)
  : result value :=
  let angle := ((2 * math.pi m / 16) * inject_Z i)%Q in
  lat0 <- coord "lat" center ;;
  let lat := (lat0 + radius_deg * math.cos m angle)%Q in
  lng0 <- coord "lng" center ;;
  let lng := (lng0 + radius_deg * math.sin m angle)%Q in
  Ok (VList [VFloat lng; VFloat lat]).

(** The body of the loop of [_mock_isochrone] for one interval *)
Definition isochrone_band (self : t) (m : math.t) (center : coords)
    (intervals : list Z) (interval : Z) : result value :=
  let radius_deg := ((inject_Z interval / 60) * (1 # 100))%Q in
  polygon <- mapM (circle_point m center radius_deg) (range 16) ;;
  first <- list_index polygon 0 ;;
  let polygon := (polygon ++ [first])%list in
  largest <- max_of intervals ;;
  color <- _get_isochrone_color self interval largest ;;
  Ok (VDict [("duration_minutes", VInt interval);
             ("polygon", VList polygon);
             ("points_count", VInt 16);
             ("color", VStr color)]).

Definition _mock_isochrone (self : t) (m : math.t) (center : coords)
    (duration : Z) (mode : value) (intervals : list Z) : result value :=
  polygons <- mapM (isochrone_band self m center intervals) intervals ;;
  Ok (VDict
    [("center", coords_value center);
     ("mode", mode);
     ("max_duration_minutes", VInt duration);
     ("isochrones", VList polygons);
     ("success", VBool true);
     ("mock", VBool true);
     ("note", VStr "Enable Google Maps API for accurate isochrone calculations")]).

Definition calculate_isochrone (self : t) (m : math.t) (live : Live)
    (center : coords) (duration_minutes : Z) (mode : value)
    (intervals : option (list Z)) : result value :=
  let intervals :=
    match intervals with
    | Some intervals => intervals
    | None =>
        [duration_minutes / 3; duration_minutes * 2 / 3; duration_minutes]%Z
    end in
  if negb (enabled self)
  then _mock_isochrone self m center duration_minutes mode intervals
  else
    try_except
      (isochrone_live live center duration_minutes mode intervals)
      (fun _ => _mock_isochrone self m center duration_minutes mode intervals).

Definition poi_names : list (string * string) :=
  [("transit_station", "Metro Station");
   ("hospital", "General Hospital");
   ("school", "Public School");
   ("supermarket", "Supermarket");
   ("pharmacy", "Pharmacy")].

(** [a / b] for an [int] and what an [Optional[int]] holds *)
Definition true_div (a : Z) (b : option Z) : result Q :=
  match b with
  | None =>
      Raise (TypeError "unsupported operand type(s) for /: 'int' and 'NoneType'")
  | Some b =>
      if (b =? 0)%Z then Raise (ZeroDivisionError "division by zero")
      else Ok (inject_Z a / inject_Z b)%Q
  end.

(** [a <= b] for an [int] and what an [Optional[int]] holds *)
Definition le_optional (a : Z) (b : option Z) : result bool :=
  match b with
  | None =>
      Raise (TypeError
        "'<=' not supported between instances of 'int' and 'NoneType'")
  | Some b => Ok (a <=? b)%Z
  end.

(** The entry of [_mock_accessibility_analysis] for the [i]-th type;
    [title] is [str.title]. *)
Definition mock_poi_entry (title : string -> string) (location : coords)
    (max_duration : option Z) (i : nat) (poi_type : string) : result value :=
  let duration := (5 + Z.of_nat i * 3)%Z in
  let name :=
    match MapsService.assoc poi_type poi_names with
    | Some name => name
    | None => title poi_type
    end in
  ratio <- true_div duration max_duration ;;
  let score := (10 - ratio * 10)%Q in
  lat <- coord "lat" location ;;
  lng <- coord "lng" location ;;
  accessible <- le_optional duration max_duration ;;
  Ok (VDict
    [("name", VStr name);
     ("duration_minutes", VInt duration);
     ("distance_meters", VInt (duration * 80));
     ("score", if Qle_bool score 0 then VInt 0 else VFloat score);
     ("location",
       VDict [("lat", VFloat (lat + (5 # 1000))); ("lng", VFloat (lng + (5 # 1000)))]);
     ("accessible", VBool accessible)]).

(** The loop of [_mock_accessibility_analysis], from index [i] on *)
Fixpoint mock_scores (title : string -> string) (location : coords)
    (max_duration : option Z) (i : nat) (poi_types : list string) (scores : dict)
  : result dict :=
  match poi_types with
  | [] => Ok scores
  | poi_type :: rest =>
      entry <- mock_poi_entry title location max_duration i poi_type ;;
      mock_scores title location max_duration (S i) rest
        (dict_set poi_type entry scores)
  end.

(** [sum(s['score'] for s in scores.values())] *)
Fixpoint sum_scores (acc : Q) (scores : dict) : result Q :=
  match scores with
  | [] => Ok acc
  | (_, s) :: rest =>
      score <- getitem s "score" ;;
      x <- as_number score ;;
      sum_scores (acc + x)%Q rest
  end.

Definition optional_int (n : option Z) : value :=
  match n with
  | Some n => VInt n
  | None => VNone
  end.

Definition _mock_accessibility_analysis (self : t) (title : string -> string)
    (location : coords) (poi_types : list string) (max_duration : option Z)
  : result value :=
  scores <- mock_scores title location max_duration 0 poi_types [] ;;
  total <- sum_scores 0 scores ;;
  overall <- div_len total (List.length scores) ;;
  Ok (VDict
    [("location", coords_value location);
     ("accessibility_scores", VDict scores);
     ("overall_score", VFloat (round1 overall));
     ("max_duration_minutes", optional_int max_duration);
     ("success", VBool true);
     ("mock", VBool true);
     ("note", VStr "Enable Google Maps API for real accessibility analysis")]).

Definition analyze_accessibility (self : t) (title : string -> string)
    (live : Live) (location : coords) (poi_types : option (list string))
    (max_duration_minutes : option Z) : result value :=
  let poi_types :=
    match poi_types with
    | Some poi_types => poi_types
    | None => ["transit_station"; "hospital"; "school"; "supermarket"; "pharmacy"]
    end in
  if negb (enabled self)
  then _mock_accessibility_analysis self title location poi_types
         max_duration_minutes
  else
    try_except
      (accessibility_live live location poi_types max_duration_minutes)
      (fun _ => _mock_accessibility_analysis self title location poi_types
                  max_duration_minutes).

End RoutingService.

(** ** services/advanced_features_service.py *)

Module PhotoAnalysisService.

Record t : Type := {
  model : option LLMService.GenerativeModel;
  enabled : bool
}.

Definition certainty_words : list string :=
  ["clearly"; "definitely"; "obviously"; "certainly"].
Definition uncertainty_words : list string :=
  ["possibly"; "might"; "perhaps"; "unclear"].

Definition _calculate_confidence (self : t) (text : string) : Q :=
  let text_lower := lower text in
  let confidence := (5 # 10)%Q in
  let confidence :=
    fold_left
      (fun confidence word =>
         if str_in word text_lower then (confidence + (1 # 10))%Q else confidence)
      certainty_words confidence in
  let confidence :=
    fold_left
      (fun confidence word =>
         if str_in word text_lower then (confidence - (1 # 10))%Q else confidence)
      uncertainty_words confidence in
  py_max 0 (py_min 1 confidence).

(** [api_key] is [os.getenv("GEMINI_API_KEY")]. *)
Definition __init__ (api_key : option string)
    (gemini : LLMService.GenerativeModel) : t :=
  match api_key with
  | Some key =>
      if negb (String.eqb key "")
      then {| model := Some gemini; enabled := true |}
      else {| model := None; enabled := false |}
  | None => {| model := None; enabled := false |}
  end.

Definition prompts : list (string * string) :=
  [
("location",
    "
                Analyze this photo and identify:
                1. What city and neighborhood this appears to be (if identifiable)
                2. Type of area (commercial, residential, industrial, mixed)
                3. Notable landmarks or characteristics
                4. Street type and urban density
                5. Economic level indicators (low/medium/high income area)
                6. Estimated property value range (if buildings visible)
                7. Similar neighborhoods in Brazil
                
                Provide detailed analysis with confidence level for location identification.
            ");
   ("property_value",
    "
                Analyze this property image and estimate:
                1. Type of property (house, apartment, commercial)
                2. Condition and maintenance level
                3. Approximate size and features visible
                4. Neighborhood quality indicators
                5. Estimated market value range (in R$)
                6. Factors affecting value (positive and negative)
                7. Investment potential score (0-10)
                
                Be specific about what you observe in the image.
            ");
   ("similar_places",
    "
                Analyze this location and suggest:
                1. What type of place this is
                2. Key characteristics
                3. 5 similar places in other Brazilian cities
                4. Why these places are similar
                5. Comparison of advantages/disadvantages
                
                Focus on urban characteristics and atmosphere.
            ");
   ("urban_features",
    "
                Analyze urban features in this image:
                1. Infrastructure quality (roads, sidewalks, lighting)
                2. Green spaces and trees
                3. Commercial activity level
                4. Public transportation visible
                5. Pedestrian-friendliness score (0-10)
                6. Overall urban planning quality
                7. Recommendations for improvement
            ")].


Definition _get_photo_analysis_prompt (self : t) (analysis_type : string)
  : string :=
  match MapsService.assoc analysis_type prompts with
  | Some prompt => prompt
  | None =>
      match MapsService.assoc "location" prompts with
      | Some prompt => prompt
      | None => ""
      end
  end.

Definition line_feed : ascii := ascii_of_nat 10.

Definition _extract_location (self : t) (text : string) : value :=
  if str_in "appears to be" (lower text) then
    match
      find (fun line => str_in "appears to be" (lower line)
                        || str_in "likely" (lower line))
           (split_on line_feed text)
    with
    | Some line => VStr (strip line)
    | None => VNone
    end
  else VNone.

Definition cities : list string :=
  ["S칚o Paulo"; "Rio de Janeiro"; "Porto Alegre"; "Curitiba";
   "Belo Horizonte"; "Bras칤lia"; "Salvador"; "Fortaleza"].

Definition _extract_city (self : t) (text : string) : value :=
  let text_lower := lower text in
  match find (fun city => str_in (lower city) text_lower) cities with
  | Some city => VStr city
  | None => VNone
  end.

Definition _extract_neighborhood (self : t) (text : string) : value :=
  if str_in "neighborhood" (lower text) || str_in "bairro" (lower text)
  then VStr "Identified in analysis"
  else VNone.

Definition keywords : list string :=
  ["commercial"; "residential"; "high-end"; "middle-class";
   "busy"; "quiet"; "modern"; "historic"].

Definition _extract_characteristics (self : t) (text : string) : list string :=
  let text_lower := lower text in
  let characteristics :=
    fold_left
      (fun characteristics keyword =>
         if str_in keyword text_lower
         then (characteristics ++ [keyword])%list
         else characteristics)
      keywords [] in
  firstn 5 characteristics.

Definition _extract_value (self : t) (text : string) : value :=
  if str_in "R$" text || str_in "value" (lower text)
  then VStr "Estimate available in analysis"
  else VNone.

Definition _extract_similar_places (self : t) (text : string) : list string :=
  [].

Definition _mock_photo_analysis (self : t) (analysis_type : string) : value :=
  VDict
    [("identified_location", VStr "Appears to be Avenida Paulista, S칚o Paulo");
     ("city", VStr "S칚o Paulo");
     ("neighborhood", VStr "Bela Vista / Jardins region");
     ("characteristics", VList [VStr "commercial"; VStr "high-end"; VStr "busy"; VStr "modern"; VStr "well-maintained"]);
     ("property_value_estimate", VStr "R$ 8,000 - R$ 12,000 per m");
     ("similar_locations", VList [VStr "Rua Oscar Freire, S칚o Paulo"; VStr "Avenida Atl칙ntica, Rio de Janeiro"; VStr "Rua XV de Novembro, Curitiba"]);
     ("confidence_score", VFloat (3 # 4));
     ("full_analysis", VStr "
            Mock Photo Analysis:
            
            This appears to be Avenida Paulista in S칚o Paulo, one of the city's most iconic streets.
            
            Characteristics:
            - High-end commercial area
            - Excellent infrastructure
            - Heavy pedestrian and vehicle traffic
            - Mix of office buildings, retail, and cultural institutions
            - Well-maintained streets and sidewalks
            
            Property Value Estimate: R$ 8,000 - R$ 12,000 per m
            
            Economic Indicators: High income area, premium location
            
            Similar Locations:
            1. Rua Oscar Freire (S칚o Paulo) - Luxury shopping district
            2. Av. Atl칙ntica (Rio de Janeiro) - Beachfront commercial area
            3. Rua XV de Novembro (Curitiba) - Historic commercial center
            
            Note: Enable Gemini API for real AI-powered photo analysis
            ");
     ("success", VBool true);
     ("mock", VBool true)].

(** [ask image_data prompt] stands for decoding the image and asking the
    model about it: the text of the reply, or the exception raised on the
    way. *)
Definition analyze_uploaded_photo (self : t)
    (ask : string -> string -> result string)
    (image_data : string) (analysis_type : string) : value :=
  if negb (enabled self) then _mock_photo_analysis self analysis_type
  else
    match ask image_data (_get_photo_analysis_prompt self analysis_type) with
    | Ok analysis_text =>
        VDict
          [("identified_location", _extract_location self analysis_text);
           ("city", _extract_city self analysis_text);
           ("neighborhood", _extract_neighborhood self analysis_text);
           ("characteristics",
             VList (map VStr (_extract_characteristics self analysis_text)));
           ("property_value_estimate", _extract_value self analysis_text);
           ("similar_locations",
             VList (map VStr (_extract_similar_places self analysis_text)));
           ("confidence_score",
             VFloat (_calculate_confidence self analysis_text));
           ("full_analysis", VStr analysis_text);
           ("success", VBool true)]
    | Raise _ => _mock_photo_analysis self analysis_type
    end.

End PhotoAnalysisService.

Module TimeTravelService.

Record t : Type := { enabled : bool }.

(** [api_key] is [os.getenv("GOOGLE_MAPS_API_KEY")]. *)
Definition __init__ (api_key : option string) : t :=
  {| enabled := match api_key with
                | Some key => negb (String.eqb key "")
                | None => false
                end |}.






End TimeTravelService.

Module MultiCityComparisonService.

Record t : Type := { enabled : bool }.

Definition __init__ : t := {| enabled := true |}.

Definition _get_city_database (self : t) : dict :=
  [
    ("S칚o Paulo",
     VDict
      [("population", VStr "12.3M");
       ("avg_income", VStr "R$ 4,200");
       ("gdp_per_capita", VStr "R$ 58,000");
       ("competition", VStr "high");
       ("saturation", VStr "65%");
       ("growth_rate", VStr "1.8%");
       ("top_neighborhoods", VList [VStr "Jardins"; VStr "Pinheiros"; VStr "Vila Mariana"; VStr "Mooca"]);
       ("strengths", VList [VStr "Largest market"; VStr "High income"; VStr "Diverse population"]);
       ("challenges", VList [VStr "High competition"; VStr "High costs"; VStr "Traffic"])]);
    ("Rio de Janeiro",
     VDict
      [("population", VStr "6.7M");
       ("avg_income", VStr "R$ 3,800");
       ("gdp_per_capita", VStr "R$ 52,000");
       ("competition", VStr "medium-high");
       ("saturation", VStr "55%");
       ("growth_rate", VStr "1.2%");
       ("top_neighborhoods", VList [VStr "Ipanema"; VStr "Leblon"; VStr "Barra da Tijuca"; VStr "Botafogo"]);
       ("strengths", VList [VStr "Tourism"; VStr "Beach lifestyle"; VStr "Culture"]);
       ("challenges", VList [VStr "Security"; VStr "Economic volatility"])]);
    ("Porto Alegre",
     VDict
      [("population", VStr "1.4M");
       ("avg_income", VStr "R$ 3,400");
       ("gdp_per_capita", VStr "R$ 48,000");
       ("competition", VStr "medium");
       ("saturation", VStr "45%");
       ("growth_rate", VStr "2.2%");
       ("top_neighborhoods", VList [VStr "Moinhos de Vento"; VStr "Bom Fim"; VStr "Petr칩polis"]);
       ("strengths", VList [VStr "Lower competition"; VStr "Quality of life"; VStr "Growing market"]);
       ("challenges", VList [VStr "Smaller market"; VStr "Seasonal economy"])]);
    ("Curitiba",
     VDict
      [("population", VStr "1.9M");
       ("avg_income", VStr "R$ 3,600");
       ("gdp_per_capita", VStr "R$ 50,000");
       ("competition", VStr "medium");
       ("saturation", VStr "48%");
       ("growth_rate", VStr "2.5%");
       ("top_neighborhoods", VList [VStr "Batel"; VStr "츼gua Verde"; VStr "Centro C칤vico"]);
       ("strengths", VList [VStr "Urban planning"; VStr "Quality of life"; VStr "Technology hub"]);
       ("challenges", VList [VStr "Weather"; VStr "Conservative market"])]);
    ("Belo Horizonte",
     VDict
      [("population", VStr "2.5M");
       ("avg_income", VStr "R$ 3,300");
       ("gdp_per_capita", VStr "R$ 46,000");
       ("competition", VStr "medium");
       ("saturation", VStr "50%");
       ("growth_rate", VStr "2.0%");
       ("top_neighborhoods", VList [VStr "Savassi"; VStr "Lourdes"; VStr "Funcion치rios"]);
       ("strengths", VList [VStr "Strategic location"; VStr "Food culture"; VStr "Universities"]);
       ("challenges", VList [VStr "Infrastructure"; VStr "Public transport"])])
  ].

(** [comp_map.get(competition, 12)] *)
Definition comp_map_get (competition : value) : result Z :=
  match competition with
  | VStr "low" => Ok 20%Z
  | VStr "medium" => Ok 12%Z
  | VStr "medium-high" => Ok 8%Z
  | VStr "high" => Ok 5%Z
  | VList _ => Raise (TypeError "unhashable type: 'list'")
  | VDict _ => Raise (TypeError "unhashable type: 'dict'")
  | _ => Ok 12%Z
  end.

(** [v.replace(old, new)] *)
Definition py_replace (v : value) (old new : string) : result string :=
  match v with
  | VStr s => Ok (replace old new s)
  | _ => Raise (no_attribute v "replace")
  end.

(** The arithmetic of [_calculate_city_score] on the parsed fields *)
Definition weighted_score (pop_value : Q) (income : Z) (comp_score : Z)
    (growth : Q) : Q :=
  let base_score := 50%Q in
  let pop_score := py_min (pop_value * 3) 20 in
  let income_score := py_min (inject_Z income / 200) 15 in
  let growth_score := (growth * 3)%Q in
  let total :=
    (base_score + pop_score + income_score + inject_Z comp_score + growth_score)%Q in
  round1 (py_min total 100).

Definition _calculate_city_score (self : t) (data criteria : value)
    (business_type : string) : result Q :=
  population <- getitem data "population" ;;
  pop_text <- py_replace population "M" "" ;;
  pop_value <- float_of_str pop_text ;;
  avg_income <- getitem data "avg_income" ;;
  income_text <- py_replace avg_income "R$ " "" ;;
  income <- int_of_str (replace "," "" income_text) ;;
  competition <- py_get data "competition" (VStr "medium") ;;
  comp_score <- comp_map_get competition ;;
  growth_rate <- py_get data "growth_rate" (VStr "2%") ;;
  growth_text <- py_replace growth_rate "%" "" ;;
  growth <- float_of_str growth_text ;;
  Ok (weighted_score pop_value income comp_score growth).

Definition _generate_recommendation (self : t) (city : string) (score : Q)
    (business_type : string) : string :=
  if Qle_bool 85 score
  then "Excellent choice for " ++ business_type ++ ". High potential, act quickly."
  else if Qle_bool 70 score
  then "Good opportunity for " ++ business_type ++ ". Balanced risk-reward."
  else if Qle_bool 60 score
  then "Moderate potential. Consider if you have local advantage."
  else "Challenging market. Requires strong differentiation.".

Definition _generate_summary (rt : Runtime) (self : t) (results : list dict)
    (business_type : string) : result string :=
  match results with
  | [] => Ok "No cities to compare"
  | first :: _ =>
      top <- getitem (VDict first) "city" ;;
      top_score <- getitem (VDict first) "score" ;;
      recommendation <- py_get (VDict first) "recommendation" (VStr "") ;;
      Ok ("
        Multi-City Analysis Summary for " ++ business_type ++ ":
        
        Top Choice: " ++ format rt top ++ " (Score: " ++ format rt top_score ++ "/100)
        - Best balance of market size, income, and opportunity
        - " ++ format rt recommendation ++ "
        
        All " ++ str_of_Z (Z.of_nat (List.length results)) ++ " cities analyzed offer viable opportunities, 
        but differ significantly in competition level and market maturity.
        
        Consider: Market entry strategy, local partnerships, and timing.
        ")
  end.

(** The entry [compare_cities] appends for a city of the table.  The
    scores of the table stay below 100, where [round(min(total, 100), 1)]
    is a [float]. *)
Definition city_result (self : t) (city : string) (data criteria : value)
    (business_type : string) : result dict :=
  score <- _calculate_city_score self data criteria business_type ;;
  population <- getitem data "population" ;;
  avg_income <- getitem data "avg_income" ;;
  gdp_per_capita <- getitem data "gdp_per_capita" ;;
  competition_level <- py_get data "competition" (VStr "medium") ;;
  market_saturation <- py_get data "saturation" (VStr "50%") ;;
  growth_rate <- py_get data "growth_rate" (VStr "2.5%") ;;
  opportunity_areas <- py_get data "top_neighborhoods" (VList []) ;;
  strengths <- py_get data "strengths" (VList []) ;;
  challenges <- py_get data "challenges" (VList []) ;;
  Ok [("city", VStr city);
      ("score", VFloat score);
      ("population", population);
      ("avg_income", avg_income);
      ("gdp_per_capita", gdp_per_capita);
      ("competition_level", competition_level);
      ("market_saturation", market_saturation);
      ("growth_rate", growth_rate);
      ("opportunity_areas", opportunity_areas);
      ("strengths", strengths);
      ("challenges", challenges);
      ("recommendation",
        VStr (_generate_recommendation self city score business_type))].

(** The loop of [compare_cities] over the cities asked for *)
Fixpoint collect_results (self : t) (city_data : dict) (criteria : value)
    (business_type : string) (cities : list string) (results : list dict)
  : result (list dict) :=
  match cities with
  | [] => Ok results
  | city :: rest =>
      if has_key city city_data then
        data <- getitem (VDict city_data) city ;;
        entry <- city_result self city data criteria business_type ;;
        collect_results self city_data criteria business_type rest
          (results ++ [entry])%list
      else collect_results self city_data criteria business_type rest results
  end.

Definition medal (i : nat) : string :=
  match i with
  | 0 => "游볞"
  | 1 => "游볟"
  | 2 => "游볠"
  | _ => ""
  end.

(** [for i, result in enumerate(results)], from index [i] on *)
Fixpoint add_rankings (i : nat) (results : list dict) : list dict :=
  match results with
  | [] => []
  | entry :: rest =>
      dict_set "medal" (VStr (medal i))
        (dict_set "rank" (VInt (Z.of_nat i + 1)) entry)
      :: add_rankings (S i) rest
  end.

Definition compare_cities (rt : Runtime) (self : t) (cities : list string)
    (criteria : value) (business_type : string) : result value :=
  let city_data := _get_city_database self in
  results <- collect_results self city_data criteria business_type
               (firstn 10 cities) [] ;;
  results <- GeospatialService.sort_by_score_desc results ;;
  let results := add_rankings 0 results in
  summary <- _generate_summary rt self results business_type ;;
  Ok (VDict [("comparison_type", VStr business_type);
             ("cities_analyzed", VInt (Z.of_nat (List.length results)));
             ("criteria", criteria);
             ("results", VList (map VDict results));
             ("summary", VStr summary);
             ("success", VBool true)]).

End MultiCityComparisonService.

(** ** main.py *)

Module QueryRequest.
Record t : Type := {
  query : string;
  context : option value
}.
End QueryRequest.

Module QueryResponse.
Record t : Type := {
  query : string;
  interpretation : string;
  sql_query : string;
  results : list dict;
  visualization_type : string;
  success : bool;
  error : option string
}.
End QueryResponse.

Module MeetingPointRequest.
Record t : Type := {
  locations : list RoutingService.coords;
  mode : option string
}.
End MeetingPointRequest.

Module MultiLocationVisionRequest.
Record t : Type := {
  locations : list dict;
  analysis_type : option string
}.
End MultiLocationVisionRequest.

Module IsochroneRequest.
Record t : Type := {
  center : RoutingService.coords;
  duration_minutes : Z;
  mode : option string;
  intervals : option (list Z)
}.
End IsochroneRequest.

Module AccessibilityRequest.
Record t : Type := {
  location : RoutingService.coords;
  poi_types : option (list string);
  max_duration_minutes : option Z
}.
End AccessibilityRequest.

Module TimeTravelRequest.
Record t : Type := {
  lat : Q;
  lng : Q;
  years : option (list Z)
}.
End TimeTravelRequest.

Module main.

(** The service objects the module creates when it is loaded *)
Record Services : Type := {
  llm_service : LLMService.t;
  geospatial_service : GeospatialService.t;
  maps_service : MapsService.t;
  vision_service : VisionService.t;
  routing_service : RoutingService.t
}.

Definition with_geospatial (app : Services) (geo : GeospatialService.t)
  : Services :=
  {| llm_service := llm_service app;
     geospatial_service := geo;
     maps_service := maps_service app;
     vision_service := vision_service app;
     routing_service := routing_service app |}.

(** What a handler hands back to the framework: the body of an HTTP 200
    answer, or the [HTTPException] it raised. *)
Inductive response (A : Type) : Type :=
| Returned (body : A)
| HTTPException (status_code : Z) (detail : string).
Arguments Returned {A} body.
Arguments HTTPException {A} status_code detail.

Definition determine_visualization_type (interpretation : value)
    (results : list dict) : result string :=
  match results with
  | [] => Ok "none"
  | _ :: _ =>
      raw_type <- py_get interpretation "query_type" (VStr "") ;;
      query_type <- py_lower raw_type ;;
      if str_in "heatmap" query_type then Ok "heatmap"
      else
        raw_analysis <- py_get interpretation "analysis_type" (VStr "") ;;
        analysis_type <- py_lower raw_analysis ;;
        if str_in "density" analysis_type then Ok "heatmap"
        else if str_in "polygon" query_type || str_in "area" query_type
        then Ok "polygon"
        else if str_in "route" query_type || str_in "path" query_type
        then Ok "polyline"
        else Ok "markers"
  end.

(** The [try] block of [process_query] *)
Definition run_query (rt : Runtime) (db : GeospatialService.Database)
    (app : Services) (request : QueryRequest.t)
  : result QueryResponse.t * Services :=
  match LLMService.interpret_query rt (llm_service app)
          (QueryRequest.query request) (QueryRequest.context request) with
  | Raise e => (Raise e, app)
  | Ok interpretation =>
      match LLMService.generate_sql_query rt (llm_service app) interpretation with
      | Raise e => (Raise e, app)
      | Ok sql_query =>
          let '(fetched, geo, _) :=
            GeospatialService.execute_query rt db sql_query interpretation
              (geospatial_service app) in
          (results <- fetched ;;
           enrich <- py_get interpretation "enrich_with_places" VNone ;;
           results <-
             (if truthy enrich
              then MapsService.enrich_with_places (maps_service app)
                     results interpretation
              else Ok results) ;;
           viz_type <- determine_visualization_type interpretation results ;;
           Ok {| QueryResponse.query := QueryRequest.query request;
                 QueryResponse.interpretation := json_dumps rt interpretation;
                 QueryResponse.sql_query := sql_query;
                 QueryResponse.results := results;
                 QueryResponse.visualization_type := viz_type;
                 QueryResponse.success := true;
                 QueryResponse.error := None |},
           with_geospatial app geo)
      end
  end.

Definition process_query (rt : Runtime) (db : GeospatialService.Database)
    (app : Services) (request : QueryRequest.t)
  : response QueryResponse.t * Services :=
  let (outcome, app') := run_query rt db app request in
  match outcome with
  | Ok answer => (Returned answer, app')
  | Raise e =>
      (Returned
         {| QueryResponse.query := QueryRequest.query request;
            QueryResponse.interpretation := "";
            QueryResponse.sql_query := "";
            QueryResponse.results := [];
            QueryResponse.visualization_type := "error";
            QueryResponse.success := false;
            QueryResponse.error := Some (str_of_exn e) |},
       app')
  end.




Definition optional_str (s : option string) : value :=
  match s with
  | Some s => VStr s
  | None => VNone
  end.

Definition compare_locations_visually (rt : Runtime)
    (getenv : string -> option string) (world : VisionService.Eyes)
    (app : Services) (request : MultiLocationVisionRequest.t)
  : response value :=
  match VisionService.analyze_multiple_locations rt getenv world
          (vision_service app)
          (MultiLocationVisionRequest.locations request)
          (optional_str (MultiLocationVisionRequest.analysis_type request)) with
  | Ok result => Returned result
  | Raise e => HTTPException 500 (str_of_exn e)
  end.

Definition calculate_isochrone_map (m : math.t) (live : RoutingService.Live)
    (app : Services) (request : IsochroneRequest.t) : response value :=
  match RoutingService.calculate_isochrone (routing_service app) m live
          (IsochroneRequest.center request)
          (IsochroneRequest.duration_minutes request)
          (optional_str (IsochroneRequest.mode request))
          (IsochroneRequest.intervals request) with
  | Ok result => Returned result
  | Raise e => HTTPException 500 (str_of_exn e)
  end.

Definition analyze_location_accessibility (title : string -> string)
    (live : RoutingService.Live) (app : Services)
    (request : AccessibilityRequest.t) : response value :=
  match RoutingService.analyze_accessibility (routing_service app) title live
          (AccessibilityRequest.location request)
          (AccessibilityRequest.poi_types request)
          (AccessibilityRequest.max_duration_minutes request) with
  | Ok result => Returned result
  | Raise e => HTTPException 500 (str_of_exn e)
  end.


End main.

(** ** test_api.py *)

Module test_api.

(** The test of the database service in [test_services]: what it prints,
    one entry for each [print], the service afterwards, and the exception
    that ended it when one did. *)
Definition test_database (rt : Runtime) (db : GeospatialService.Database)
    (geo_service : GeospatialService.t) (db_status : string)
  : list string * option exn :=
  if str_in "healthy" db_status then
    let out := ["   ✅ PostGIS connection successful";
                "
   Testing query execution..."] in
    let interpretation :=
      VDict [("query_type", VStr "polygon");
             ("location", VDict [("city", VStr "Porto Alegre")])] in
    let '(fetched, _, _) :=
      GeospatialService.execute_query rt db "" interpretation geo_service in
    match fetched with
    | Ok results =>
        ((out ++
          [("   Retrieved " ++ str_of_Z (Z.of_nat (List.length results))
              ++ " mock results")%string;
           "   ✅ Query execution working"])%list,
         None)
    | Raise e => (out, Some e)
    end
  else (["   ⚠️  Database not connected (will use mock data)"], None).

(** The tests of the LLM service and of the maps service, the summary and
    the notes *)
Definition test_others (rt : Runtime) (getenv : string -> option string)
    (gemini : LLMService.GenerativeModel) (gmaps : googlemaps.Client)
    (db_status : string) : list string * option exn :=
  let llm_service := LLMService.__init__ (getenv "GEMINI_API_KEY") gemini in
  let llm_status := LLMService.check_connection llm_service in
  let out :=
    ["
2. Testing LLM Service (Gemini)...";
     "   LLM connection: " ++ llm_status;
     if String.eqb llm_status "healthy"
     then "   ✅ Gemini API configured"
     else "   ⚠️  Gemini API not configured (will use fallback)";
     "
   Testing query interpretation..."] in
  let test_query := "Show me areas with high potential for coffee shops" in
  match
    (interpretation <- LLMService.interpret_query rt llm_service test_query None ;;
     query_type <- py_get interpretation "query_type" VNone ;;
     analysis_type <- py_get interpretation "analysis_type" VNone ;;
     Ok (query_type, analysis_type))
  with
  | Raise e => (out, Some e)
  | Ok (query_type, analysis_type) =>
      let maps_service :=
        MapsService.__init__ (getenv "GOOGLE_MAPS_API_KEY") gmaps in
      let maps_status := MapsService.check_connection maps_service in
      ((out ++
        [("   Query type: " ++ format rt query_type)%string;
         ("   Analysis type: " ++ format rt analysis_type)%string;
         "   ✅ Query interpretation working";
         "
3. Testing Maps Service (Google Maps)...";
         ("   Maps connection: " ++ maps_status)%string;
         if String.eqb maps_status "healthy"
         then "   ✅ Google Maps API configured"
         else "   ⚠️  Google Maps API not configured";
         "
==================================================";
         "
📊 Test Summary:";
         ("   Database: "
          ++ (if str_in "healthy" db_status then "✅" else "⚠️ "))%string;
         ("   LLM:      "
          ++ (if String.eqb llm_status "healthy" then "✅" else "⚠️ "))%string;
         ("   Maps:     "
          ++ (if String.eqb maps_status "healthy" then "✅" else "⚠️ "))%string;
         "
💡 Notes:"] ++
        (if negb (str_in "healthy" db_status)
         then ["   - Install and configure PostgreSQL with PostGIS"] else []) ++
        (if negb (String.eqb llm_status "healthy")
         then ["   - Add GEMINI_API_KEY to .env file"] else []) ++
        (if negb (String.eqb maps_status "healthy")
         then ["   - Add GOOGLE_MAPS_API_KEY to .env file"] else []) ++
        ["
🚀 The platform can run with mock data for testing!";
         "   Start the server with: python main.py"])%list,
       None)
  end.

Definition test_services (rt : Runtime) (db : GeospatialService.Database)
    (getenv : string -> option string) (gemini : LLMService.GenerativeModel)
    (gmaps : googlemaps.Client) : list string * option exn :=
  let out :=
    ["🧪 Testing GeoMindIA Services
";
     "==================================================";
     "
1. Testing Geospatial Service (PostGIS)..."] in
  match GeospatialService.__init__ getenv with
  | Raise e => (out, Some e)
  | Ok geo_service =>
      let '(db_status, geo_service, _) :=
        GeospatialService.check_connection db geo_service in
      let out :=
        (out ++ [("   Database connection: " ++ db_status)%string])%list in
      match test_database rt db geo_service db_status with
      | (printed, Some e) => ((out ++ printed)%list, Some e)
      | (printed, None) =>
          let (rest, failure) := test_others rt getenv gemini gmaps db_status in
          ((out ++ printed ++ rest)%list, failure)
      end
  end.

End test_api.

(** ** The keyword fallback on a store of objects

    The fallback builds its answer by changing lists in place.  Here the
    lists and dictionaries live in a store and are referred to by address,
    so that what one run does to the objects of another can be told. *)

Module Store.

(** What an entry of a dictionary or an item of a list holds: an immutable
    value, or the address of a list or dictionary. *)
Inductive slot : Type :=
| Atom (v : value)
| Ref (address : nat).

Inductive object : Type :=
| ListObject (items : list slot)
| DictObject (entries : list (string * slot)).

(** The objects allocated so far, the newest first, each with its
    address, and the next free address *)
Record store : Type := {
  next : nat;
  objects : list (nat * object)
}.

Fixpoint find (a : nat) (l : list (nat * object)) : option object :=
  match l with
  | [] => None
  | (x, o) :: rest => if (x =? a)%nat then Some o else find a rest
  end.

Definition at_address (h : store) (a : nat) : option object :=
  find a (objects h).

Definition alloc (o : object) (h : store) : nat * store :=
  (next h, {| next := S (next h); objects := (next h, o) :: objects h |}).

(** Replaces the object at address [a], the first one found, by [f] of it *)
Fixpoint modify (a : nat) (f : object -> object) (l : list (nat * object))
  : list (nat * object) :=
  match l with
  | [] => []
  | (x, o) :: rest =>
      if (x =? a)%nat then (x, f o) :: rest else (x, o) :: modify a f rest
  end.

Definition update (a : nat) (f : object -> object) (h : store) : store :=
  {| next := next h; objects := modify a f (objects h) |}.

Fixpoint slot_of (k : string) (entries : list (string * slot)) : option slot :=
  match entries with
  | [] => None
  | (k', s) :: rest => if String.eqb k k' then Some s else slot_of k rest
  end.

(** [d[k].append(x)]: the list that entry [k] of the dictionary at [d]
    refers to grows in place. *)
Definition append_entry (d : nat) (k : string) (x : slot) (h : store) : store :=
  match at_address h d with
  | Some (DictObject entries) =>
      match slot_of k entries with
      | Some (Ref l) =>
          update l (fun o => match o with
                             | ListObject items => ListObject (items ++ [x])
                             | DictObject _ => o
                             end) h
      | _ => h
      end
  | _ => h
  end.

Fixpoint all_some {A : Type} (l : list (option A)) : option (list A) :=
  match l with
  | [] => Some []
  | Some a :: rest => option_map (cons a) (all_some rest)
  | None :: _ => None
  end.

(** The value a slot stands for, following references at most [depth] deep *)
Fixpoint read (depth : nat) (h : store) (s : slot) : option value :=
  match s with
  | Atom v => Some v
  | Ref a =>
      match depth with
      | O => None
      | S depth' =>
          match at_address h a with
          | Some (ListObject items) =>
              option_map VList (all_some (map (read depth' h) items))
          | Some (DictObject entries) =>
              option_map VDict
                (all_some (map (fun kv => option_map (pair (fst kv))
                                            (read depth' h (snd kv))) entries))
          | None => None
          end
      end
  end.

(** [LLMService._fallback_interpretation] on the store: every dictionary
    and list display allocates a new object, [append] changes a list where
    it lies.  The address of the dictionary returned and the store left. *)
Definition _fallback_interpretation (self : LLMService.t) (query : string)
    (h : store) : nat * store :=
  let query_lower := lower query in
  let (location, h) :=
    alloc (DictObject [("city", Atom (if str_in "porto alegre" query_lower
                                      then VStr "Porto Alegre" else VNone))]) h in
  let (filters, h) := alloc (ListObject []) h in
  let (spatial_operations, h) := alloc (ListObject []) h in
  let (fields, h) :=
    alloc (ListObject [Atom (VStr "name"); Atom (VStr "score");
                       Atom (VStr "geometry")]) h in
  let (output, h) :=
    alloc (DictObject [("fields", Ref fields); ("limit", Atom (VInt 50))]) h in
  let (interpretation, h) :=
    alloc (DictObject
      [("query_type", Atom (VStr "polygon"));
       ("analysis_type", Atom (VStr "proximity"));
       ("location", Ref location);
       ("filters", Ref filters);
       ("spatial_operations", Ref spatial_operations);
       ("output", Ref output);
       ("enrich_with_places",
         Atom (VBool (str_in "coffee" query_lower
                      || str_in "restaurant" query_lower)));
       ("description", Atom (VStr ("Analysis query: " ++ query)))]) h in
  let h :=
    if str_in "500" query
       && (str_in "meter" query_lower || str_in "metro" query_lower)
    then
      let (parameters, h) :=
        alloc (DictObject [("radius", Atom (VStr "500"));
                           ("unit", Atom (VStr "meters"))]) h in
      let (operation, h) :=
        alloc (DictObject [("operation", Atom (VStr "buffer"));
                           ("parameters", Ref parameters)]) h in
      append_entry interpretation "spatial_operations" (Ref operation) h
    else h in
  let h :=
    if str_in "coffee" query_lower || str_in "cafeteria" query_lower
    then
      let (filter, h) :=
        alloc (DictObject [("type", Atom (VStr "business"));
                           ("attribute", Atom (VStr "poi_type"));
                           ("operator", Atom (VStr "equals"));
                           ("value", Atom (VStr "cafe"));
                           ("unit", Atom (VStr "category"))]) h in
      append_entry interpretation "filters" (Ref filter) h
    else h in
  (interpretation, h).

End Store.

(** ** A machine with no credentials and no reachable database *)

Module Offline.

(** [os.getenv] when nothing is set *)
Definition getenv (name : string) : option string := None.

Definition gemini : LLMService.GenerativeModel :=
  {| LLMService.generate_content :=
       fun _ => Raise (LibraryError "API key not valid") |}.

Definition gmaps : googlemaps.Client :=
  {| googlemaps.places_nearby := fun _ _ _ => Raise (LibraryError "REQUEST_DENIED");
     googlemaps.geocode := fun _ => Raise (LibraryError "REQUEST_DENIED");
     googlemaps.reverse_geocode := fun _ => Raise (LibraryError "REQUEST_DENIED") |}.

Definition routing_client : RoutingService.Client :=
  {| RoutingService.search_meeting_point :=
       fun _ _ => Raise (LibraryError "REQUEST_DENIED") |}.

Definition refused {A : Type} : result A :=
  Raise (LibraryError "connection refused").

Definition database : GeospatialService.Database :=
  {| GeospatialService.create_pool := fun _ => refused;
     GeospatialService.acquire := fun _ => refused;
     GeospatialService.release := fun _ => refused;
     GeospatialService.fetch := fun _ _ => refused;
     GeospatialService.fetchval := fun _ _ => refused;
     GeospatialService.execute := fun _ _ => refused |}.

(** A runtime that parses no JSON and prints every value as [?] *)
Definition runtime : Runtime :=
  {| json_loads := fun _ => Raise (ValueError "Expecting value");
     json_dumps := fun _ => "?";
     repr := fun _ => "?";
     interpret_prompt := fun query _ => query;
     sql_prompt := fun _ => "" |}.

Definition db_config : GeospatialService.db_config_t :=
  {| GeospatialService.host := "localhost";
     GeospatialService.port := 5432;
     GeospatialService.database := "geospatial_ai";
     GeospatialService.user := "postgres";
     GeospatialService.password := "postgres" |}.

(** The services [main] creates on this machine *)
Definition services : main.Services :=
  {| main.llm_service := LLMService.__init__ (getenv "GEMINI_API_KEY") gemini;
     main.geospatial_service :=
       {| GeospatialService.db_config := db_config;
          GeospatialService.pool := None |};
     main.maps_service := MapsService.__init__ (getenv "GOOGLE_MAPS_API_KEY") gmaps;
     main.vision_service := VisionService.__init__ (getenv "GEMINI_API_KEY") gemini;
     main.routing_service :=
       RoutingService.__init__ (getenv "GOOGLE_MAPS_API_KEY") routing_client |}.

End Offline.

(** ** A machine whose database answers *)

Module Online.

(** One pool, one connection, one row of one column *)
Definition database : GeospatialService.Database :=
  {| GeospatialService.create_pool := fun _ => Ok 7;
     GeospatialService.acquire := fun _ => Ok 1;
     GeospatialService.release := fun _ => Ok tt;
     GeospatialService.fetch := fun _ _ => Ok [[("id", VInt 1)]];
     GeospatialService.fetchval := fun _ _ => Ok (VInt 1);
     GeospatialService.execute := fun _ _ => Ok tt |}.

(** A Places API that knows one café near every point *)
Definition gmaps : googlemaps.Client :=
  {| googlemaps.places_nearby := fun _ _ _ =>
       Ok (VDict [("results",
                   VList [VDict [("name", VStr "Café do Mercado");
                                 ("types", VList [VStr "cafe"]);
                                 ("rating", VFloat (46 # 10))]])]);
     googlemaps.geocode := fun _ => Ok (VList []);
     googlemaps.reverse_geocode := fun _ => Ok (VList []) |}.

Definition maps_service : MapsService.t :=
  MapsService.__init__ (Some "maps-key") gmaps.

(** A model that wraps its reply in a code fence *)
Definition gemini : LLMService.GenerativeModel :=
  {| LLMService.generate_content := fun _ =>
       Ok "```sql
SELECT id, name FROM demographics LIMIT 5;
```
" |}.

Definition llm_service : LLMService.t :=
  LLMService.__init__ (Some "gemini-key") gemini.

End Online.

(** * The vocabulary of the properties *)

(** The scores of the rows, in order *)
Definition scores_of (rows : list dict) : list (option value) :=
  map (lookup "score") rows.

Section ExecutorTerms.

Import GeospatialService.



(** How serving a query from the database can fail: no pool can be
    created, the pool gives no connection, the query raises, or handing the
    connection back raises. *)
Inductive query_fails (db : Database) (self : t) (sql_query : string) : Prop :=
| no_pool (e : exn) :
    pool self = None ->
    create_pool db (db_config self) = Raise e ->
    query_fails db self sql_query
| no_connection (p : Pool) (e : exn) :
    fst (fst (get_pool db self)) = Some p ->
    acquire db p = Raise e ->
    query_fails db self sql_query
| fetch_raises (p : Pool) (conn : Conn) (e : exn) :
    fst (fst (get_pool db self)) = Some p ->
    acquire db p = Ok conn ->
    fetch db conn sql_query = Raise e ->
    query_fails db self sql_query
| release_raises (p : Pool) (conn : Conn) (e : exn) :
    fst (fst (get_pool db self)) = Some p ->
    acquire db p = Ok conn ->
    release db conn = Raise e ->
    query_fails db self sql_query.

End ExecutorTerms.

Section CityScoreTerms.

Import MultiCityComparisonService.




End CityScoreTerms.

Section EnrichmentTerms.

Import MapsService.

(** A filter the place-type extraction can read: a mapping whose value,
    when its type is "business", is a string or absent *)
Definition readable_filter (f : value) : bool :=
  match f with
  | VDict d =>
      match lookup "type" d with
      | Some type =>
          if eq_str type "business"
          then match lookup "value" d with
               | Some (VStr _) | None => true
               | Some _ => false
               end
          else true
      | None => true
      end
  | _ => false
  end.

(** An interpretation whose filters, when present, are a list of readable
    filters *)
Definition readable_interpretation (interpretation : value) : bool :=
  match interpretation with
  | VDict d =>
      match lookup "filters" d with
      | None => true
      | Some (VList fs) => forallb readable_filter fs
      | Some _ => false
      end
  | _ => false
  end.

(** A row whose centre, when present, is a mapping with both coordinates *)
Definition has_coordinates (row : dict) : bool :=
  match lookup "center" row with
  | None => true
  | Some (VDict c) => has_key "lat" c && has_key "lng" c
  | Some _ => false
  end.

(** What the enrichment makes of one row: a row without centre is left
    alone; a row with one gets the places found near it, or the empty list
    when the lookup fails. *)
Definition enriched (self : t) (place_types : list string) (row row' : dict)
  : Prop :=
  match lookup "center" row with
  | None => row' = row
  | Some c =>
      exists lat lng,
        getitem c "lat" = Ok lat /\ getitem c "lng" = Ok lng /\
        row' = dict_set "nearby_places"
                 (match nearby_places self (lat, lng) place_types with
                  | Ok places => places
                  | Raise _ => VList []
                  end) row
  end.

End EnrichmentTerms.

Section EndpointsTerms.

Import GeospatialService main.

(** A database that refuses every pool and every connection *)
Definition unreachable (db : Database) : Prop :=
  (forall cfg, exists e, create_pool db cfg = Raise e) /\
  (forall p, exists e, acquire db p = Raise e).



End EndpointsTerms.

Section DatabaseTerms.

(** What [execute_query] makes of one fetched row: the columns and their
    order stay, every column but [geometry] keeps its value, and a
    [geometry] that is a text is replaced by what [json.loads] reads in it,
    or kept when that fails. *)
Definition converted (rt : Runtime) (row row' : dict) : Prop :=
  map fst row' = map fst row /\
  (forall k, String.eqb k "geometry" = false -> lookup k row' = lookup k row) /\
  lookup "geometry" row' =
    match lookup "geometry" row with
    | Some (VStr s) =>
        Some (match json_loads rt s with Ok g => g | Raise _ => VStr s end)
    | other => other
    end.

End DatabaseTerms.

Section PlacesTerms.

(** An entry of [nearby_places]: the four fields kept of a place *)
Definition place_shape (entry : value) : Prop :=
  exists name type rating location,
    entry = VDict [("name", name); ("type", type);
                   ("rating", rating); ("location", location)].

(** A row that carries at most five places *)
Definition few_places (row : dict) : Prop :=
  exists entries,
    lookup "nearby_places" row = Some (VList entries) /\
    List.length entries <= 5 /\
    Forall place_shape entries.

(** The place types the Places API is asked for *)
Definition searched_types : list string :=
  ["cafe"; "restaurant"; "gym"; "school"; "bank"; "hospital"; "pharmacy";
   "park"].

End PlacesTerms.

Section AnswerTerms.

(** The names [determine_visualization_type] can give *)
Definition visualization_types : list string :=
  ["none"; "heatmap"; "polygon"; "polyline"; "markers"].

End AnswerTerms.

Section ScoreTerms.




End ScoreTerms.

Section ComparisonTerms.

Import MultiCityComparisonService.

(** The cities of the table among the first ten asked for, in the order
    they were asked for *)
Definition known_cities (self : t) (cities : list string) : list string :=
  filter (fun city => has_key city (_get_city_database self)) (firstn 10 cities).

(** The answer of [compare_cities] for the given entries and summary *)
Definition comparison (business_type : string) (criteria : value)
    (results : list dict) (summary : string) : value :=
  VDict [("comparison_type", VStr business_type);
         ("cities_analyzed", VInt (Z.of_nat (List.length results)));
         ("criteria", criteria);
         ("results", VList (map VDict results));
         ("summary", VStr summary);
         ("success", VBool true)].

(** An entry with a city name and a float score *)
Definition scored (entry : dict) : Prop :=
  exists city score,
    lookup "city" entry = Some (VStr city) /\
    lookup "score" entry = Some (VFloat score).

(** The score an entry is sorted by *)
Definition score_key (entry : dict) : Q :=
  match lookup "score" entry with
  | Some (VFloat x) => x
  | _ => 0%Q
  end.

End ComparisonTerms.

Section TimeTravelTerms.



End TimeTravelTerms.

Section RoutingTerms.

Import RoutingService.

(** The value under [key] of every entry of a list of mappings *)
Definition column (key : string) (entries : list value) : list (result value) :=
  map (fun entry => getitem entry key) entries.

(** A mapping of scores in which every score is a number from 0 to 10 *)
Definition scores_in_range (scores : dict) : Prop :=
  Forall (fun entry =>
            exists score x,
              getitem (snd entry) "score" = Ok score /\
              as_number score = Ok x /\ (0 <= x <= 10)%Q)
         scores.

End RoutingTerms.

Section VisionTerms.

(** A location that carries both coordinates *)
Definition carries_coordinates (loc : dict) : bool :=
  has_key "lat" loc && has_key "lng" loc.

End VisionTerms.

(** * Properties *)

(** ** The keyword fallback of the interpreter *)

Section Fallback.

Variable self : LLMService.t.

Lemma fallback_buffer (query : string) :
  str_in "500" query = true ->
  str_in "meter" (lower query) || str_in "metro" (lower query) = true ->
  exists d ops,
    LLMService._fallback_interpretation self query = VDict d /\
    lookup "spatial_operations" d = Some (VList ops) /\
    In LLMService.buffer_500 ops.
Proof.
  intros H500 Hm. unfold LLMService._fallback_interpretation.
  rewrite H500, Hm. cbn [andb].
  destruct (str_in "coffee" (lower query) || str_in "cafeteria" (lower query));
    eexists; eexists; (split; [reflexivity|]); (split; [reflexivity|]);
    left; reflexivity.
Qed.

Lemma fallback_cafe (query : string) :
  str_in "coffee" (lower query) || str_in "cafeteria" (lower query) = true ->
  exists d fs,
    LLMService._fallback_interpretation self query = VDict d /\
    lookup "filters" d = Some (VList fs) /\
    In LLMService.cafe_filter fs.
Proof.
  intros Hc. unfold LLMService._fallback_interpretation. rewrite Hc.
  destruct (str_in "500" query
            && (str_in "meter" (lower query) || str_in "metro" (lower query)));
    eexists; eexists; (split; [reflexivity|]); (split; [reflexivity|]);
    left; reflexivity.
Qed.

End Fallback.

(** C5.  With no credentials configured, the query text "Show me areas with
    high potential for coffee shops" is interpreted with
    [enrich_with_places] true and a category filter of value "cafe" among
    the filters. *)
Theorem coffee_shop_query_interpretation
    (rt : Runtime) (self : LLMService.t) (context : option value) :
  LLMService.enabled self = false ->
  exists d fs f,
    LLMService.interpret_query rt self
      "Show me areas with high potential for coffee shops" context
    = Ok (VDict d) /\
    lookup "enrich_with_places" d = Some (VBool true) /\
    lookup "filters" d = Some (VList fs) /\
    In (VDict f) fs /\
    lookup "unit" f = Some (VStr "category") /\
    lookup "value" f = Some (VStr "cafe").
Proof.
  intros Hoff. unfold LLMService.interpret_query. rewrite Hoff. cbn [negb].
  do 3 eexists.
  split; [vm_compute; reflexivity|].
  split; [reflexivity|].
  split; [reflexivity|].
  split; [left; reflexivity|].
  split; reflexivity.
Qed.

Lemma coffee_shop_query_interpretation_witness :
  exists d fs f,
    LLMService.interpret_query Offline.runtime
      (LLMService.__init__ None Offline.gemini)
      "Show me areas with high potential for coffee shops" None
    = Ok (VDict d) /\
    lookup "enrich_with_places" d = Some (VBool true) /\
    lookup "filters" d = Some (VList fs) /\
    In (VDict f) fs /\
    lookup "unit" f = Some (VStr "category") /\
    lookup "value" f = Some (VStr "cafe").
Proof.
  apply (coffee_shop_query_interpretation Offline.runtime
           (LLMService.__init__ None Offline.gemini) None).
  reflexivity.
Defined.

(** C7.  A query whose text contains "500" and whose lower-cased text
    contains "meter" gets a buffer operation of radius "500" and unit
    "meters" among its spatial operations; a query whose lower-cased text
    contains "coffee" gets a category filter among its filters. *)
Theorem fallback_keyword_scan (self : LLMService.t) (query : string) :
  (str_in "500" query = true ->
   str_in "meter" (lower query) = true ->
   exists d ops op params,
     LLMService._fallback_interpretation self query = VDict d /\
     lookup "spatial_operations" d = Some (VList ops) /\
     In (VDict op) ops /\
     lookup "operation" op = Some (VStr "buffer") /\
     lookup "parameters" op = Some (VDict params) /\
     lookup "radius" params = Some (VStr "500") /\
     lookup "unit" params = Some (VStr "meters"))
  /\
  (str_in "coffee" (lower query) = true ->
   exists d fs f,
     LLMService._fallback_interpretation self query = VDict d /\
     lookup "filters" d = Some (VList fs) /\
     In (VDict f) fs /\
     lookup "type" f = Some (VStr "business") /\
     lookup "unit" f = Some (VStr "category")).
Proof.
  split.
  - intros H500 Hmeter.
    destruct (fallback_buffer self query H500) as (d & ops & Hd & Hops & Hin).
    { rewrite Hmeter. reflexivity. }
    exists d, ops. do 2 eexists.
    repeat split; try eassumption; reflexivity.
  - intros Hcoffee.
    destruct (fallback_cafe self query) as (d & fs & Hd & Hfs & Hin).
    { rewrite Hcoffee. reflexivity. }
    exists d, fs. eexists.
    repeat split; try eassumption; reflexivity.
Qed.

Lemma fallback_keyword_scan_witness :
  let self := LLMService.__init__ None Offline.gemini in
  let query := "Coffee shops with no competitor within 500 METERS" in
  (exists d ops op params,
     LLMService._fallback_interpretation self query = VDict d /\
     lookup "spatial_operations" d = Some (VList ops) /\
     In (VDict op) ops /\
     lookup "operation" op = Some (VStr "buffer") /\
     lookup "parameters" op = Some (VDict params) /\
     lookup "radius" params = Some (VStr "500") /\
     lookup "unit" params = Some (VStr "meters"))
  /\
  (exists d fs f,
     LLMService._fallback_interpretation self query = VDict d /\
     lookup "filters" d = Some (VList fs) /\
     In (VDict f) fs /\
     lookup "type" f = Some (VStr "business") /\
     lookup "unit" f = Some (VStr "category")).
Proof.
  intros self query.
  destruct (fallback_keyword_scan self query) as [Hbuffer Hfilter].
  split.
  - apply Hbuffer; reflexivity.
  - apply Hfilter; reflexivity.
Defined.

(** ** The confidence heuristic of the photo analysis *)

Lemma py_min_upper (a b : Q) : (py_min a b <= a)%Q.
Proof.
  unfold py_min. destruct (b ?= a)%Q eqn:E; try apply Qle_refl.
  apply Qlt_le_weak. apply Qlt_alt. exact E.
Qed.

Lemma py_max_lower (a b : Q) : (a <= py_max a b)%Q.
Proof.
  unfold py_max. destruct (b ?= a)%Q eqn:E; try apply Qle_refl.
  apply Qlt_le_weak. apply Qgt_alt. exact E.
Qed.

Lemma py_max_upper (a b c : Q) : (a <= c)%Q -> (b <= c)%Q -> (py_max a b <= c)%Q.
Proof. intros Ha Hb. unfold py_max. destruct (b ?= a)%Q; assumption. Qed.

(** C10.  The confidence computed from any analysis text lies between 0.0
    and 1.0. *)
Theorem confidence_within_unit_interval
    (self : PhotoAnalysisService.t) (text : string) :
  (0 <= PhotoAnalysisService._calculate_confidence self text)%Q /\
  (PhotoAnalysisService._calculate_confidence self text <= 1)%Q.
Proof.
  unfold PhotoAnalysisService._calculate_confidence. split.
  - apply py_max_lower.
  - apply py_max_upper.
    + discriminate.
    + apply py_min_upper.
Qed.

(** Before the final clamp the value already lies between 0.1 and 0.9: four
    words can raise it and four can lower it, by a tenth each. *)
Lemma confidence_four_tenths_around_half
    (self : PhotoAnalysisService.t) (text : string) :
  exists c : Q,
    PhotoAnalysisService._calculate_confidence self text = py_max 0 (py_min 1 c) /\
    (1 # 10 <= c)%Q /\ (c <= 9 # 10)%Q.
Proof.
  unfold PhotoAnalysisService._calculate_confidence,
    PhotoAnalysisService.certainty_words, PhotoAnalysisService.uncertainty_words.
  cbn [fold_left].
  eexists. split; [reflexivity|].
  repeat match goal with
         | |- context [if ?c then _ else _] => destruct c
         end; split; discriminate.
Qed.

(** ** The mock result set *)

(** C4.  For every interpretation the mock generator returns exactly ten
    rows, ordered by strictly descending score (hence also weakly). *)
Theorem mock_data_ten_rows_descending
    (self : GeospatialService.t) (interpretation : value) :
  exists rows scores,
    GeospatialService._get_mock_data self interpretation = Ok rows /\
    List.length rows = 10 /\
    scores_of rows = map (fun x => Some (VFloat x)) scores /\
    StronglySorted (fun a b => (b < a)%Q) scores /\
    StronglySorted (fun a b => (b <= a)%Q) scores.
Proof.
  eexists.
  exists [850 # 10; 815 # 10; 780 # 10; 745 # 10; 710 # 10;
          675 # 10; 640 # 10; 605 # 10; 570 # 10; 535 # 10]%Q.
  split; [vm_compute; reflexivity|].
  split; [reflexivity|].
  split; [vm_compute; reflexivity|].
  split; repeat (constructor; try discriminate; try reflexivity).
Qed.


(** ** The executor and its connection pool *)

Section Executor.

Import GeospatialService.

(** The mock rows come out in the order they are generated: the sort finds
    them already ordered. *)
Lemma mock_data_value (self : t) (interpretation : value) :
  _get_mock_data self interpretation = Ok (map mock_row (range 10)).
Proof. vm_compute. reflexivity. Qed.


Lemma execute_query_unfold (rt : Runtime) (db : Database)
    (sql_query : string) (interpretation : value) (self : t) :
  fst (fst (execute_query rt db sql_query interpretation self)) =
  match fst (fst (get_pool db self)) with
  | None => _get_mock_data self interpretation
  | Some p =>
      try_except
        (with_connection db p (fun conn =>
           rows <- fetch db conn sql_query ;; Ok (map (convert_row rt) rows)))
        (fun _ => _get_mock_data self interpretation)
  end.
Proof.
  unfold execute_query.
  destruct (get_pool db self) as [[pl self'] log]. cbn [fst].
  destruct pl; [|apply mock_data_value].
  cbn [fst]. rewrite !mock_data_value. reflexivity.
Qed.











End Executor.

(** ** The score of the multi-city comparison *)


Lemma round_half_even_cases (x : Q) :
  (round_half_even x = Qfloor x \/ round_half_even x = Qfloor x + 1)%Z.
Proof.
  unfold round_half_even.
  destruct (x - inject_Z (Qfloor x) ?= 1 # 2)%Q; auto.
  destruct (Z.even (Qfloor x)); auto.
Qed.

Lemma round_half_even_mono (x y : Q) :
  (x <= y)%Q -> (round_half_even x <= round_half_even y)%Z.
Proof.
  intros Hxy.
  pose proof (Qfloor_resp_le x y Hxy) as Hfl.
  destruct (Z.eq_dec (Qfloor x) (Qfloor y)) as [Heq | Hne].
  - unfold round_half_even. rewrite <- Heq.
    destruct (Qcompare_spec (x - inject_Z (Qfloor x)) (1 # 2));
      destruct (Qcompare_spec (y - inject_Z (Qfloor x)) (1 # 2));
      try lia; try lra; destruct (Z.even (Qfloor x)); lia.
  - destruct (round_half_even_cases x), (round_half_even_cases y); lia.
Qed.

Lemma round1_mono (x y : Q) : (x <= y)%Q -> (round1 x <= round1 y)%Q.
Proof.
  intros Hxy. unfold round1, Qle. cbn [Qnum Qden].
  apply Z.mul_le_mono_nonneg_r; [lia|].
  apply round_half_even_mono. lra.
Qed.

Section CityScore.

Import MultiCityComparisonService.


Lemma lookup_dict_set_same (k : string) (v : value) (d : dict) :
  lookup k (dict_set k v d) = Some v.
Proof.
  induction d as [|[k0 v0] d IH]; cbn [dict_set lookup].
  - rewrite String.eqb_refl. reflexivity.
  - destruct (String.eqb k k0) eqn:E; cbn [lookup].
    + rewrite String.eqb_refl. reflexivity.
    + rewrite E. exact IH.
Qed.

Lemma lookup_dict_set_other (k k' : string) (v : value) (d : dict) :
  String.eqb k' k = false ->
  lookup k' (dict_set k v d) = lookup k' d.
Proof.
  intros Hk. induction d as [|[k0 v0] d IH]; cbn [dict_set lookup].
  - rewrite Hk. reflexivity.
  - destruct (String.eqb k k0) eqn:E; cbn [lookup].
    + apply String.eqb_eq in E. subst k0. rewrite Hk. reflexivity.
    + rewrite IH. reflexivity.
Qed.






End CityScore.

(** ** Enrichment with nearby places *)

Section Enrichment.

Import MapsService.

Lemma extract_step_readable (place_types : list string) (f : value) :
  readable_filter f = true ->
  exists place_types', extract_step place_types f = Ok place_types'.
Proof.
  destruct f as [| | | | |?|d]; try discriminate. cbn [readable_filter].
  unfold extract_step. cbn [py_get].
  destruct (lookup "type" d) as [type|]; cbn [bind].
  - destruct (eq_str type "business"); [|eexists; reflexivity].
    destruct (lookup "value" d) as [[| | | |s| |]|]; try discriminate;
      intros _; cbn [bind py_lower];
      match goal with
      | |- context [assoc ?k type_mapping] => destruct (assoc k type_mapping)
      end; eexists; reflexivity.
  - intros _. eexists. reflexivity.
Qed.

Lemma extract_loop_readable (fs : list value) :
  forallb readable_filter fs = true ->
  forall place_types, exists place_types', extract_loop place_types fs = Ok place_types'.
Proof.
  induction fs as [|f fs IH]; cbn [forallb extract_loop]; intros Hfs place_types.
  - eexists. reflexivity.
  - apply andb_prop in Hfs as [Hf Hfs].
    destruct (extract_step_readable place_types f Hf) as [pts Hstep].
    rewrite Hstep. cbn [bind]. apply IH. exact Hfs.
Qed.

Lemma extract_place_types_readable (self : t) (interpretation : value) :
  readable_interpretation interpretation = true ->
  exists place_types, _extract_place_types self interpretation = Ok place_types.
Proof.
  destruct interpretation as [| | | | |?|d]; try discriminate.
  cbn [readable_interpretation]. unfold _extract_place_types. cbn [py_get].
  destruct (lookup "filters" d) as [[| | | | |fs|]|]; try discriminate;
    intros Hfs; cbn [bind iter].
  - destruct (extract_loop_readable fs Hfs []) as [pts Hloop].
    rewrite Hloop. cbn [bind]. eexists. reflexivity.
  - eexists. reflexivity.
Qed.

Lemma enrich_row_with_coordinates (self : t) (place_types : list string)
    (row : dict) :
  has_coordinates row = true ->
  exists row', enrich_row self place_types row = Ok row' /\
               enriched self place_types row row'.
Proof.
  unfold has_coordinates, enrich_row, enriched, has_key. cbn [getitem].
  destruct (lookup "center" row) as [[| | | | | |c]|]; try discriminate.
  - intros Hc. apply andb_prop in Hc as [Hlat Hlng]. unfold has_key in *.
    cbn [bind getitem].
    destruct (lookup "lat" c) as [lat|]; [|discriminate].
    destruct (lookup "lng" c) as [lng|]; [|discriminate].
    cbn [bind].
    destruct (nearby_places self (lat, lng) place_types) eqn:Hnear;
      eexists; (split; [reflexivity|]); exists lat, lng;
      rewrite Hnear; repeat split.
  - intros _. eexists. split; reflexivity.
Qed.

Lemma enrich_rows_with_coordinates (self : t) (place_types : list string)
    (results : list dict) :
  forallb has_coordinates results = true ->
  exists out, mapM (enrich_row self place_types) results = Ok out /\
              Forall2 (enriched self place_types) results out.
Proof.
  induction results as [|row rest IH]; cbn [forallb mapM]; intros H.
  - exists []. split; [reflexivity | constructor].
  - apply andb_prop in H as [Hrow Hrest].
    destruct (enrich_row_with_coordinates self place_types row Hrow)
      as (row' & Hrun & Hrow').
    destruct (IH Hrest) as (out & Hout & Hall).
    rewrite Hrun. cbn [bind]. rewrite Hout. cbn [bind].
    exists (row' :: out). split; [reflexivity | constructor; assumption].
Qed.

(** C2, as the code has it.  [enrich_with_places] returns a result list,
    one row for each row given, whenever the service is disabled, or the
    interpretation is readable and every row that has a centre has both
    coordinates; a disabled service returns the rows as they are, and an
    enabled one gives every row with a centre its nearby places, which is
    the empty list whenever the lookup for that row fails. *)
Theorem enrich_with_places_returns_on_readable_input
    (self : t) (results : list dict) (interpretation : value) :
  negb (enabled self) || readable_interpretation interpretation = true ->
  negb (enabled self) || forallb has_coordinates results = true ->
  exists out,
    enrich_with_places self results interpretation = Ok out /\
    List.length out = List.length results /\
    (enabled self = false -> out = results) /\
    (enabled self = true ->
     exists place_types,
       _extract_place_types self interpretation = Ok place_types /\
       Forall2 (enriched self place_types) results out).
Proof.
  unfold enrich_with_places.
  destruct (enabled self); cbn [negb orb]; intros Hread Hrows.
  - destruct (extract_place_types_readable self interpretation Hread)
      as [place_types Hpts].
    destruct (enrich_rows_with_coordinates self place_types results Hrows)
      as (out & Hout & Hall).
    rewrite Hpts. cbn [bind]. exists out.
    split; [exact Hout|]. split; [|split].
    + symmetry. apply (Forall2_length Hall).
    + discriminate.
    + intros _. exists place_types. split; [reflexivity | assumption].
  - exists results. repeat split; try reflexivity. discriminate.
Qed.

Lemma enrich_with_places_returns_on_readable_input_witness :
  exists out,
    enrich_with_places Online.maps_service
      [GeospatialService.mock_row 0; [("name", VStr "no centre")]]
      (LLMService._fallback_interpretation
         (LLMService.__init__ None Offline.gemini) "coffee near the station")
    = Ok out /\
    List.length out = 2.
Proof.
  destruct (enrich_with_places_returns_on_readable_input Online.maps_service
              [GeospatialService.mock_row 0; [("name", VStr "no centre")]]
              (LLMService._fallback_interpretation
                 (LLMService.__init__ None Offline.gemini)
                 "coffee near the station"))
    as (out & Hout & Hlen & _); [reflexivity | reflexivity |].
  exists out. split; assumption.
Defined.

(** The claim as stated fails: with the service enabled, a row whose
    centre has no latitude makes the call raise, and so does a business
    filter whose value is a number. *)
Lemma enrich_with_places_raises :
  enrich_with_places Online.maps_service
    [[("name", VStr "Area 1"); ("center", VDict [("lng", VFloat (-512177 # 10000))])]]
    (VDict [])
  = Raise (KeyError "'lat'") /\
  enrich_with_places Online.maps_service
    [GeospatialService.mock_row 0]
    (VDict [("filters",
             VList [VDict [("type", VStr "business");
                           ("attribute", VStr "rating");
                           ("operator", VStr "greater_than");
                           ("value", VInt 4)]])])
  = Raise (AttributeError "'int' object has no attribute 'lower'").
Proof. split; reflexivity. Qed.

End Enrichment.

(** ** The endpoints with nothing configured *)

Section Endpoints.

Import GeospatialService main.

Lemma fallback_fields (self : LLMService.t) (query : string) :
  exists d,
    LLMService._fallback_interpretation self query = VDict d /\
    lookup "query_type" d = Some (VStr "polygon") /\
    lookup "analysis_type" d = Some (VStr "proximity") /\
    lookup "location" d =
      Some (VDict [("city", if str_in "porto alegre" (lower query)
                            then VStr "Porto Alegre" else VNone)]) /\
    lookup "enrich_with_places" d =
      Some (VBool (str_in "coffee" (lower query)
                   || str_in "restaurant" (lower query))).
Proof.
  unfold LLMService._fallback_interpretation.
  destruct (str_in "500" query
            && (str_in "meter" (lower query) || str_in "metro" (lower query)));
    destruct (str_in "coffee" (lower query) || str_in "cafeteria" (lower query));
    eexists; repeat split; reflexivity.
Qed.

Lemma fallback_sql_of_fallback (rt : Runtime) (self : LLMService.t)
    (query : string) :
  exists sql,
    LLMService._fallback_sql_query rt self
      (LLMService._fallback_interpretation self query) = Ok sql.
Proof.
  destruct (fallback_fields self query) as (d & Hd & _ & _ & Hloc & _).
  rewrite Hd. unfold LLMService._fallback_sql_query. cbn [py_get].
  rewrite Hloc. cbn [bind py_get lookup String.eqb Ascii.eqb Bool.eqb].
  eexists. reflexivity.
Qed.

Lemma execute_query_unreachable (rt : Runtime) (db : Database)
    (sql_query : string) (interpretation : value) (self : t) :
  unreachable db ->
  exists log,
    execute_query rt db sql_query interpretation self =
    (Ok (map mock_row (range 10)), self, log).
Proof.
  intros [Hcreate Hacquire]. unfold execute_query, get_pool.
  destruct (pool self) as [p|] eqn:Hpool.
  - destruct (Hacquire p) as [e He]. unfold with_connection. rewrite He.
    cbn [bind try_except]. rewrite mock_data_value. eexists. reflexivity.
  - destruct (Hcreate (db_config self)) as [e He]. rewrite He.
    rewrite mock_data_value. eexists. reflexivity.
Qed.

Lemma visualization_of_fallback (self : LLMService.t) (query : string)
    (row : dict) (rows : list dict) :
  determine_visualization_type
    (LLMService._fallback_interpretation self query) (row :: rows)
  = Ok "polygon".
Proof.
  destruct (fallback_fields self query) as (d & Hd & Hqt & Hat & _ & _).
  rewrite Hd. unfold determine_visualization_type. cbn [py_get].
  rewrite Hqt, Hat. reflexivity.
Qed.

Lemma with_geospatial_same (app : Services) :
  with_geospatial app (geospatial_service app) = app.
Proof. destruct app. reflexivity. Qed.






End Endpoints.

(** ** Two runs of the keyword fallback *)

Section Idempotence.

Import Store.

Lemma read_atom (depth : nat) (h : store) (v : value) :
  read depth h (Atom v) = Some v.
Proof. destruct depth; reflexivity. Qed.

Lemma read_ref (depth : nat) (h : store) (a : nat) :
  read (S depth) h (Ref a) =
  match at_address h a with
  | Some (ListObject items) =>
      option_map VList (all_some (map (read depth h) items))
  | Some (DictObject entries) =>
      option_map VDict
        (all_some (map (fun kv => option_map (pair (fst kv))
                                    (read depth h (snd kv))) entries))
  | None => None
  end.
Proof. reflexivity. Qed.

Lemma apart (i j n : nat) : i <> j -> Nat.eqb (i + n) (j + n) = false.
Proof. intros H. apply Nat.eqb_neq. lia. Qed.

(** The base an address is counted from, and how far above it it is *)
Ltac base_of t :=
  lazymatch t with
  | S ?t' => base_of t'
  | _ => t
  end.

Ltac offset t :=
  lazymatch t with
  | S ?t' => let k := offset t' in constr:(S k)
  | _ => constr:(O)
  end.

Ltac step_store :=
  lazy beta iota zeta
    delta [alloc append_entry update at_address next objects find modify slot_of
           String.eqb Ascii.eqb Bool.eqb fst snd app].

(** Settles one comparison of two addresses counted from the same base:
    the equal ones first, which discards the branches behind them. *)
Ltac decide_address :=
  first
    [ rewrite Nat.eqb_refl
    | match goal with
      | |- context [Nat.eqb ?a ?b] =>
          let n := base_of a in
          let i := offset a in
          let j := offset b in
          replace (Nat.eqb a b) with false
            by (symmetry; exact (apart i j n ltac:(discriminate)))
      end ].

(** One run on the store, stated as an equation in the goal *)
Ltac run_store := step_store; repeat (decide_address; step_store).

(** Looks an address up in the store [h], a local definition. *)
Ltac lookup_store h :=
  match goal with
  | |- context [at_address h ?a] =>
      let E := fresh "E" in
      eassert (E : at_address h a = Some _)
        by (unfold h; run_store; reflexivity);
      rewrite E; clear E
  end.

Ltac read_store h :=
  repeat (progress
            (rewrite ?read_atom, ?read_ref;
             repeat lookup_store h;
             cbn [map all_some option_map fst snd])).

(** C8.  Two runs of the keyword fallback on the same text, one after the
    other and whatever the store held before, return two different
    objects with equal contents: both read as the interpretation the text
    determines, the second run leaving the result of the first as it
    was. *)
Theorem fallback_runs_agree (self : LLMService.t) (query : string) (h : store) :
  let (first, h1) := _fallback_interpretation self query h in
  let (second, h2) := _fallback_interpretation self query h1 in
  first <> second /\
  read 4 h2 (Ref first) = Some (LLMService._fallback_interpretation self query) /\
  read 4 h2 (Ref second) = Some (LLMService._fallback_interpretation self query).
Proof.
  destruct (_fallback_interpretation self query h) as [first h1] eqn:E1.
  destruct h1 as [n1 m1].
  destruct (_fallback_interpretation self query {| next := n1; objects := m1 |})
    as [second h2] eqn:E2.
  unfold _fallback_interpretation in E1, E2.
  unfold LLMService._fallback_interpretation,
    LLMService.buffer_500, LLMService.cafe_filter.
  revert E1 E2.
  generalize (str_in "porto alegre" (lower query)); intros city.
  generalize (str_in "coffee" (lower query) || str_in "restaurant" (lower query));
    intros enrich.
  generalize (str_in "500" query
              && (str_in "meter" (lower query) || str_in "metro" (lower query)));
    intros buffer.
  generalize (str_in "coffee" (lower query) || str_in "cafeteria" (lower query));
    intros cafe.
  generalize ("Analysis query: " ++ query); intros description.
  destruct h as [n m].
  destruct buffer, cafe; intros E1 E2;
    (revert E2; run_store; intros E2);
    (revert E1; run_store; intros E1);
    injection E1 as <- <- <-; injection E2 as <- E2;
    set (h2' := {| next := _; objects := _ |}) in E2; subst h2;
    (split; [clear; lia|]);
    split; read_store h2'; reflexivity.
Qed.

End Idempotence.

(** * Further properties of the services *)

(** ** The database service *)

Section Database.

Import GeospatialService.

Lemma with_connection_ok {A : Type} (db : Database) (p : Pool)
    (body : Conn -> result A) (a : A) :
  with_connection db p body = Ok a <->
  exists conn, acquire db p = Ok conn /\ body conn = Ok a /\
               release db conn = Ok tt.
Proof.
  unfold with_connection. split.
  - destruct (acquire db p) as [conn|e]; cbn [bind]; [|discriminate].
    destruct (body conn) as [a'|e] eqn:Hbody; cbn [bind].
    + destruct (release db conn) as [[]|e] eqn:Hrel; cbn [bind]; [|discriminate].
      intros [= <-]. exists conn. auto.
    + destruct (release db conn); discriminate.
  - intros (conn & -> & Hbody & Hrel). cbn [bind]. rewrite Hbody, Hrel.
    reflexivity.
Qed.

Lemma check_connection_unfold (db : Database) (self : t) :
  fst (fst (check_connection db self)) =
  match fst (fst (get_pool db self)) with
  | Some p =>
      match with_connection db p (fun conn => fetchval db conn "SELECT 1") with
      | Ok _ => "healthy"
      | Raise e => "unhealthy: " ++ str_of_exn e
      end
  | None => "unhealthy"
  end.
Proof.
  unfold check_connection.
  destruct (get_pool db self) as [[pl self'] log]. destruct pl; reflexivity.
Qed.

(** X1.  [check_connection] answers "healthy" exactly when a pool is at
    hand, it hands out a connection, [SELECT 1] runs on it and the
    connection is handed back without an exception. *)
Theorem check_connection_healthy_iff (db : Database) (self : t) :
  fst (fst (check_connection db self)) = "healthy" <->
  exists p conn v,
    fst (fst (get_pool db self)) = Some p /\
    acquire db p = Ok conn /\
    fetchval db conn "SELECT 1" = Ok v /\
    release db conn = Ok tt.
Proof.
  rewrite check_connection_unfold. split.
  - destruct (fst (fst (get_pool db self))) as [p|]; [|discriminate].
    destruct (with_connection db p _) as [v|e] eqn:Hrun; [|discriminate].
    intros _. apply with_connection_ok in Hrun.
    destruct Hrun as (conn & Hacq & Hval & Hrel).
    exists p, conn, v. auto.
  - intros (p & conn & v & -> & Hacq & Hval & Hrel).
    assert (Hrun : with_connection db p (fun c => fetchval db c "SELECT 1") = Ok v)
      by (apply with_connection_ok; exists conn; auto).
    rewrite Hrun. reflexivity.
Qed.

Lemma check_connection_healthy_iff_witness :
  fst (fst (check_connection Online.database
              (main.geospatial_service Offline.services))) = "healthy".
Proof.
  apply (proj2 (check_connection_healthy_iff Online.database
                  (main.geospatial_service Offline.services))).
  exists 7, 1, (VInt 1). repeat split.
Defined.

Lemma map_fst_dict_set (k : string) (v v0 : value) (d : dict) :
  lookup k d = Some v0 -> map fst (dict_set k v d) = map fst d.
Proof.
  induction d as [|[k' v'] d IH]; cbn [lookup dict_set]; [discriminate|].
  destruct (String.eqb k k') eqn:Hk; intros H; cbn [map fst].
  - apply String.eqb_eq in Hk. subst. reflexivity.
  - rewrite (IH H). reflexivity.
Qed.

Lemma convert_row_converted (rt : Runtime) (row : dict) :
  converted rt row (convert_row rt row).
Proof.
  unfold converted, convert_row.
  destruct (lookup "geometry" row) as [g|] eqn:Hg; [|auto].
  destruct g; try (rewrite Hg; auto).
  destruct (json_loads rt s) as [g|e].
  - split; [exact (map_fst_dict_set _ _ _ _ Hg)|]. split.
    + intros k Hk. apply lookup_dict_set_other. exact Hk.
    + apply lookup_dict_set_same.
  - rewrite Hg. auto.
Qed.

(** X2.  When the database answers (a pool, a connection, the rows, the
    connection handed back), [execute_query] returns the fetched rows, one
    for one and in order, each converted; in particular an empty answer
    stays empty and is not replaced by the mock rows. *)
Theorem execute_query_returns_fetched_rows
    (rt : Runtime) (db : Database) (sql_query : string)
    (interpretation : value) (self : t)
    (p : Pool) (conn : Conn) (rows : list dict) :
  fst (fst (get_pool db self)) = Some p ->
  acquire db p = Ok conn ->
  fetch db conn sql_query = Ok rows ->
  release db conn = Ok tt ->
  exists out,
    fst (fst (execute_query rt db sql_query interpretation self)) = Ok out /\
    Forall2 (converted rt) rows out /\
    (rows = [] -> out = []).
Proof.
  intros Hp Hacq Hfetch Hrel.
  exists (map (convert_row rt) rows). split; [|split].
  - rewrite execute_query_unfold, Hp. unfold with_connection.
    rewrite Hacq. cbn [bind]. rewrite Hfetch. cbn [bind]. rewrite Hrel.
    reflexivity.
  - clear. induction rows; constructor; auto using convert_row_converted.
  - intros ->. reflexivity.
Qed.

Lemma execute_query_returns_fetched_rows_witness :
  exists out,
    fst (fst (execute_query Offline.runtime Online.database "SELECT 1" VNone
                (main.geospatial_service Offline.services))) = Ok out /\
    Forall2 (converted Offline.runtime) [[("id", VInt 1)]] out /\
    ([[("id", VInt 1)]] = [] -> out = []).
Proof.
  apply (execute_query_returns_fetched_rows Offline.runtime Online.database
           "SELECT 1" VNone (main.geospatial_service Offline.services) 7 1);
    reflexivity.
Defined.

Lemma execute_all_ok (db : Database) (conn : Conn) (stmts : list string) :
  execute_all db conn stmts = Ok tt <->
  Forall (fun stmt => execute db conn stmt = Ok tt) stmts.
Proof.
  induction stmts as [|stmt rest IH]; cbn [execute_all].
  - split; auto.
  - destruct (execute db conn stmt) as [[]|e] eqn:Hstmt; cbn [bind].
    + rewrite IH. split; [auto|]. intros H. inversion H. assumption.
    + split; [discriminate|]. intros H. inversion H. congruence.
Qed.

(** X3.  [initialize_database] succeeds exactly when a pool is at hand, it
    hands out a connection, each of the seven schema statements runs and
    the connection is handed back; with no pool it raises "Cannot connect
    to database". *)
Theorem initialize_database_succeeds_iff (db : Database) (self : t) :
  (fst (fst (initialize_database db self)) = Ok tt <->
   exists p conn,
     fst (fst (get_pool db self)) = Some p /\
     acquire db p = Ok conn /\
     Forall (fun stmt => execute db conn stmt = Ok tt) schema_statements /\
     release db conn = Ok tt) /\
  (fst (fst (get_pool db self)) = None ->
   fst (fst (initialize_database db self)) =
   Raise (Exception "Cannot connect to database")) /\
  List.length schema_statements = 7.
Proof.
  unfold initialize_database.
  destruct (get_pool db self) as [[pl self'] log]. cbn [fst].
  split; [|split; [|reflexivity]].
  - destruct pl as [p|]; cbn [fst].
    + rewrite with_connection_ok. split.
      * intros (conn & Hacq & Hall & Hrel). apply execute_all_ok in Hall.
        exists p, conn. auto.
      * intros (p' & conn & [= <-] & Hacq & Hall & Hrel).
        exists conn. rewrite execute_all_ok. auto.
    + split; [discriminate|]. intros (p & conn & Hp & _). discriminate.
  - intros ->. reflexivity.
Qed.

Lemma initialize_database_succeeds_iff_witness :
  fst (fst (initialize_database Online.database
              (main.geospatial_service Offline.services))) = Ok tt.
Proof.
  apply (proj1 (initialize_database_succeeds_iff Online.database
                  (main.geospatial_service Offline.services))).
  exists 7, 1. repeat split. repeat constructor.
Defined.

End Database.

(** ** The places looked up for a row *)

(** From [(x <- m ;; k) = Ok r]: [m] returned. *)
Ltac bind_ok H :=
  match type of H with
  | bind ?m _ = Ok _ =>
      let x := fresh "x" in
      let E := fresh "E" in
      destruct m as [x|?] eqn:E; cbn [bind] in H; [|discriminate H]
  end.

Lemma mapM_Forall2 {A B : Type} (f : A -> result B) (l : list A) (out : list B) :
  mapM f l = Ok out -> Forall2 (fun a b => f a = Ok b) l out.
Proof.
  revert out. induction l as [|a l IH]; intros out H; cbn [mapM] in H.
  - injection H as <-. constructor.
  - bind_ok H. bind_ok H. injection H as <-. constructor; auto.
Qed.

Section Places.

Import MapsService.

Lemma assoc_type_mapping (value place_type : string) :
  assoc value type_mapping = Some place_type -> In place_type searched_types.
Proof.
  unfold type_mapping. cbn [assoc].
  repeat match goal with
         | |- context [String.eqb ?a ?b] => destruct (String.eqb a b)
         end;
    intros [= <-]; cbn; tauto.
Qed.

Lemma extract_step_known (place_types place_types' : list string) (f : value) :
  extract_step place_types f = Ok place_types' ->
  Forall (fun ty => In ty searched_types) place_types ->
  Forall (fun ty => In ty searched_types) place_types'.
Proof.
  unfold extract_step. intros H Hall. bind_ok H.
  destruct (eq_str x "business"); [|injection H as <-; exact Hall].
  bind_ok H. bind_ok H.
  destruct (assoc x1 type_mapping) as [place_type|] eqn:Hty;
    injection H as <-; [|exact Hall].
  apply Forall_app. split; [exact Hall|].
  constructor; [|constructor]. exact (assoc_type_mapping _ _ Hty).
Qed.

Lemma extract_loop_known (fs : list value) :
  forall place_types place_types',
    extract_loop place_types fs = Ok place_types' ->
    Forall (fun ty => In ty searched_types) place_types ->
    Forall (fun ty => In ty searched_types) place_types'.
Proof.
  induction fs as [|f fs IH]; intros place_types place_types' H Hall;
    cbn [extract_loop] in H.
  - injection H as <-. exact Hall.
  - bind_ok H. eapply IH; [exact H|]. eapply extract_step_known; eassumption.
Qed.

(** X4.  Whenever [_extract_place_types] returns, its list is not empty
    and holds only types of the mapping: cafe, restaurant, gym, school,
    bank, hospital, pharmacy, park. *)
Theorem extract_place_types_nonempty_known
    (self : t) (interpretation : value) (place_types : list string) :
  _extract_place_types self interpretation = Ok place_types ->
  place_types <> [] /\ Forall (fun ty => In ty searched_types) place_types.
Proof.
  unfold _extract_place_types. intros H. bind_ok H. bind_ok H. bind_ok H.
  injection H as <-.
  apply extract_loop_known in E1; [|constructor].
  destruct x1; [|split; [discriminate|exact E1]].
  split; [discriminate|]. repeat constructor.
Qed.

Lemma extract_place_types_nonempty_known_witness :
  ["restaurant"; "cafe"] <> [] /\
  Forall (fun ty => In ty searched_types) ["restaurant"; "cafe"].
Proof.
  apply (extract_place_types_nonempty_known Online.maps_service
           (VDict [("filters",
              VList [VDict [("type", VStr "business"); ("value", VStr "Restaurant")];
                     VDict [("type", VStr "demographic"); ("value", VInt 30)];
                     VDict [("type", VStr "business"); ("value", VStr "COFFEE")];
                     VDict [("type", VStr "business"); ("value", VStr "bakery")]])])).
  vm_compute. reflexivity.
Defined.

Lemma place_entry_shape (place entry : value) :
  place_entry place = Ok entry -> place_shape entry.
Proof.
  unfold place_entry. intros H. bind_ok H. bind_ok H. bind_ok H. bind_ok H.
  bind_ok H. bind_ok H. injection H as <-. unfold place_shape. eauto.
Qed.

Lemma nearby_places_few (self : t) (location : value * value)
    (place_types : list string) (places : value) :
  nearby_places self location place_types = Ok places ->
  exists entries, places = VList entries /\ List.length entries <= 5 /\
                  Forall place_shape entries.
Proof.
  unfold nearby_places. intros H. bind_ok H. bind_ok H. bind_ok H. bind_ok H.
  bind_ok H. injection H as <-. exists x3. split; [reflexivity|].
  pose proof (mapM_Forall2 _ _ _ E3) as Hall. split.
  - rewrite <- (Forall2_length Hall).
    destruct x0; try discriminate; cbn [slice_to] in E1; injection E1 as <-;
      cbn [iter] in E2; injection E2 as <-.
    + destruct (list_ascii_of_string (substring 0 5 s)) as [|c cs];
        [cbn; lia|discriminate].
    + exact (firstn_le_length 5 items).
  - clear - Hall. induction Hall; constructor; eauto using place_entry_shape.
Qed.

Lemma enrich_row_few (self : t) (place_types : list string) (row row' : dict) :
  enrich_row self place_types row = Ok row' ->
  if has_key "center" row then few_places row' else row' = row.
Proof.
  unfold enrich_row. destruct (has_key "center" row); [|congruence].
  intros H. bind_ok H. bind_ok H. bind_ok H.
  destruct (nearby_places self (x0, x1) place_types) as [places|e] eqn:Hnear;
    injection H as <-; unfold few_places; rewrite lookup_dict_set_same.
  - destruct (nearby_places_few _ _ _ _ Hnear) as (entries & -> & Hlen & Hall).
    eauto.
  - exists []. split; [reflexivity|]. split; [cbn; lia|constructor].
Qed.

(** X5.  What an enabled [enrich_with_places] returns has, for every row
    with a centre, a [nearby_places] list of at most five entries, each
    with exactly the fields name, type, rating and location; a row without
    a centre comes back as it was. *)
Theorem enrich_with_places_at_most_five
    (self : t) (results out : list dict) (interpretation : value) :
  enabled self = true ->
  enrich_with_places self results interpretation = Ok out ->
  Forall2 (fun row row' =>
             if has_key "center" row then few_places row' else row' = row)
          results out.
Proof.
  unfold enrich_with_places. intros -> H. cbn [negb] in H. bind_ok H.
  apply mapM_Forall2 in H.
  induction H as [|row row' rows rows' Hrow _ IH]; constructor;
    [exact (enrich_row_few _ _ _ _ Hrow) | exact IH].
Qed.

Lemma enrich_with_places_at_most_five_witness :
  Forall2 (fun row row' =>
             if has_key "center" row then few_places row' else row' = row)
          [GeospatialService.mock_row 0; [("name", VStr "no centre")]]
          [dict_set "nearby_places"
             (VList [VDict [("name", VStr "Café do Mercado");
                            ("type", VStr "cafe");
                            ("rating", VFloat (46 # 10));
                            ("location", VNone)]])
             (GeospatialService.mock_row 0);
           [("name", VStr "no centre")]].
Proof.
  apply (enrich_with_places_at_most_five Online.maps_service _ _ (VDict []));
    vm_compute; reflexivity.
Defined.

End Places.

(** ** The answers of [/query] *)

Section Answers.

Import GeospatialService main.

Lemma execute_query_ok
    (rt : Runtime) (db : Database) (sql_query : string)
    (interpretation : value) (self : t) :
  exists out,
    fst (fst (execute_query rt db sql_query interpretation self)) = Ok out.
Proof.
  rewrite execute_query_unfold.
  destruct (fst (fst (get_pool db self))) as [p|];
    [|rewrite mock_data_value; eauto].
  destruct (with_connection db p _) as [out|e]; cbn [try_except];
    [|rewrite mock_data_value]; eauto.
Qed.

Lemma visualization_names (interpretation : value) (results : list dict)
    (viz : string) :
  determine_visualization_type interpretation results = Ok viz ->
  In viz visualization_types /\ (viz = "none" <-> results = []).
Proof.
  intros H. unfold determine_visualization_type in H.
  destruct results as [|row rows].
  - injection H as <-. cbn. tauto.
  - assert (Hsome : forall v, In v ["heatmap"; "polygon"; "polyline"; "markers"] ->
              In v visualization_types /\ (v = "none" <-> row :: rows = []))
      by (intros v Hv; cbn in Hv; cbn;
          repeat destruct Hv as [<-|Hv]; try contradiction;
          (split; [tauto | split; discriminate])).
    apply Hsome. bind_ok H. bind_ok H.
    destruct (str_in "heatmap" x0); [injection H as <-; cbn; tauto|].
    bind_ok H. bind_ok H.
    repeat match type of H with
           | (if ?c then _ else _) = _ => destruct c
           end; injection H as <-; cbn; tauto.
Qed.

(** X6.  [execute_query] never raises.  What it returns is the converted
    rows of the database, when a connection was had, the query ran and the
    connection was handed back, and the ten mock rows otherwise. *)
Theorem execute_query_never_raises
    (rt : Runtime) (db : Database) (sql_query : string)
    (interpretation : value) (self : t) :
  exists out,
    fst (fst (execute_query rt db sql_query interpretation self)) = Ok out /\
    ((exists p conn rows,
        fst (fst (get_pool db self)) = Some p /\
        acquire db p = Ok conn /\
        fetch db conn sql_query = Ok rows /\
        release db conn = Ok tt /\
        out = map (convert_row rt) rows) \/
     (query_fails db self sql_query /\ out = map mock_row (range 10))).
Proof.
  rewrite execute_query_unfold.
  destruct (fst (fst (get_pool db self))) as [p|] eqn:Hp.
  - unfold with_connection.
    destruct (acquire db p) as [conn|e] eqn:Hacq; cbn [bind try_except].
    + destruct (fetch db conn sql_query) as [rows|e] eqn:Hfetch; cbn [bind].
      * destruct (release db conn) as [[]|e] eqn:Hrel; cbn [bind try_except].
        -- exists (map (convert_row rt) rows). split; [reflexivity|].
           left. exists p, conn, rows. auto.
        -- exists (map mock_row (range 10)). split; [apply mock_data_value|].
           right. split; [|reflexivity].
           exact (release_raises db self sql_query p conn e Hp Hacq Hrel).
      * exists (map mock_row (range 10)). split.
        -- destruct (release db conn); apply mock_data_value.
        -- right. split; [|reflexivity].
           exact (fetch_raises db self sql_query p conn e Hp Hacq Hfetch).
    + exists (map mock_row (range 10)). split; [apply mock_data_value|].
      right. split; [|reflexivity].
      exact (no_connection db self sql_query p e Hp Hacq).
  - exists (map mock_row (range 10)). split; [apply mock_data_value|].
    right. split; [|reflexivity].
    unfold get_pool in Hp. destruct (pool self) eqn:Hpool; [discriminate|].
    destruct (create_pool db (db_config self)) as [p|e] eqn:Hcreate;
      [discriminate|].
    exact (no_pool db self sql_query e Hpool Hcreate).
Qed.

(** X7.  [determine_visualization_type] answers "none" exactly for an
    empty result list; for any other list it answers, when it returns,
    one of heatmap, polygon, polyline and markers; and a query type that
    mentions a heat map gives "heatmap" whatever else the interpretation
    holds. *)
Theorem visualization_type_range (interpretation : value) (results : list dict) :
  (forall viz,
     determine_visualization_type interpretation results = Ok viz ->
     In viz visualization_types /\ (viz = "none" <-> results = [])) /\
  (forall d query_type,
     results <> [] ->
     interpretation = VDict d ->
     lookup "query_type" d = Some (VStr query_type) ->
     str_in "heatmap" (lower query_type) = true ->
     determine_visualization_type interpretation results = Ok "heatmap").
Proof.
  split.
  - intros viz. apply visualization_names.
  - intros d query_type Hrows -> Hqt Hheat.
    destruct results as [|row rows]; [contradiction|].
    unfold determine_visualization_type. cbn [py_get]. rewrite Hqt.
    cbn [bind py_lower]. rewrite Hheat. reflexivity.
Qed.

Lemma visualization_type_range_witness :
  determine_visualization_type
    (VDict [("query_type", VStr "Polygon HeatMap"); ("analysis_type", VInt 3)])
    [mock_row 0]
  = Ok "heatmap".
Proof.
  apply (proj2 (visualization_type_range
                  (VDict [("query_type", VStr "Polygon HeatMap");
                          ("analysis_type", VInt 3)])
                  [mock_row 0])
           [("query_type", VStr "Polygon HeatMap"); ("analysis_type", VInt 3)]
           "Polygon HeatMap");
    [discriminate | reflexivity | reflexivity | vm_compute; reflexivity].
Defined.

(** X8.  With neither an LLM key nor a maps key, [/query] succeeds for
    every request whatever the database does: the answer carries the
    fallback interpretation, the template SQL and the rows
    [execute_query] returned, drawn as polygons, or as nothing when there
    are no rows; of the services only the database service may have
    changed, by the pool it now holds. *)
Theorem query_without_keys_succeeds
    (rt : Runtime) (db : Database) (app : Services) (request : QueryRequest.t) :
  LLMService.enabled (llm_service app) = false ->
  MapsService.enabled (maps_service app) = false ->
  let interpretation :=
    LLMService._fallback_interpretation (llm_service app)
      (QueryRequest.query request) in
  exists sql rows,
    LLMService._fallback_sql_query rt (llm_service app) interpretation = Ok sql /\
    fst (fst (execute_query rt db sql interpretation (geospatial_service app)))
    = Ok rows /\
    process_query rt db app request =
    (Returned
       {| QueryResponse.query := QueryRequest.query request;
          QueryResponse.interpretation := json_dumps rt interpretation;
          QueryResponse.sql_query := sql;
          QueryResponse.results := rows;
          QueryResponse.visualization_type :=
            match rows with [] => "none" | _ :: _ => "polygon" end;
          QueryResponse.success := true;
          QueryResponse.error := None |},
     with_geospatial app
       (snd (fst (get_pool db (geospatial_service app))))).
Proof.
  intros Hllm Hmaps interpretation. subst interpretation.
  destruct (fallback_sql_of_fallback rt (llm_service app)
              (QueryRequest.query request)) as [sql Hsql].
  set (interpretation := LLMService._fallback_interpretation _ _) in *.
  destruct (execute_query_ok rt db sql interpretation
              (geospatial_service app)) as (rows & Hrows).
  exists sql, rows. split; [exact Hsql|]. split; [exact Hrows|].
  unfold process_query, run_query, LLMService.interpret_query,
    LLMService.generate_sql_query.
  rewrite Hllm. cbn [negb]. fold interpretation. rewrite Hsql.
  revert Hrows. unfold execute_query.
  destruct (get_pool db (geospatial_service app)) as [[pl geo] log].
  cbn [fst snd].
  assert (Hgo : forall fetched : result (list dict),
            fetched = Ok rows ->
            (let (outcome, app') :=
               (results <- fetched ;;
                enrich <- py_get interpretation "enrich_with_places" VNone ;;
                results <-
                  (if truthy enrich
                   then MapsService.enrich_with_places (maps_service app)
                          results interpretation
                   else Ok results) ;;
                viz_type <- determine_visualization_type interpretation results ;;
                Ok {| QueryResponse.query := QueryRequest.query request;
                      QueryResponse.interpretation := json_dumps rt interpretation;
                      QueryResponse.sql_query := sql;
                      QueryResponse.results := results;
                      QueryResponse.visualization_type := viz_type;
                      QueryResponse.success := true;
                      QueryResponse.error := None |},
                with_geospatial app geo) in
             match outcome with
             | Ok answer => (Returned answer, app')
             | Raise e =>
                 (Returned
                    {| QueryResponse.query := QueryRequest.query request;
                       QueryResponse.interpretation := "";
                       QueryResponse.sql_query := "";
                       QueryResponse.results := [];
                       QueryResponse.visualization_type := "error";
                       QueryResponse.success := false;
                       QueryResponse.error := Some (str_of_exn e) |},
                  app')
             end) =
            (Returned
               {| QueryResponse.query := QueryRequest.query request;
                  QueryResponse.interpretation := json_dumps rt interpretation;
                  QueryResponse.sql_query := sql;
                  QueryResponse.results := rows;
                  QueryResponse.visualization_type :=
                    match rows with [] => "none" | _ :: _ => "polygon" end;
                  QueryResponse.success := true;
                  QueryResponse.error := None |},
             with_geospatial app geo)).
  { intros fetched ->. cbn [bind].
    destruct (fallback_fields (llm_service app) (QueryRequest.query request))
      as (d & Hd & _ & _ & _ & Henrich).
    fold interpretation in Hd.
    assert (Hviz : determine_visualization_type interpretation rows =
                   Ok match rows with [] => "none" | _ :: _ => "polygon" end).
    { destruct rows; [reflexivity|]. apply visualization_of_fallback. }
    rewrite Hd in *. cbn [py_get]. rewrite Henrich. cbn [bind truthy].
    unfold MapsService.enrich_with_places. rewrite Hmaps. cbn [negb].
    destruct (str_in "coffee" _ || str_in "restaurant" _); cbn [bind];
      rewrite Hviz; reflexivity. }
  destruct pl; cbn [fst]; intros Hrows; apply Hgo; exact Hrows.
Qed.

Lemma query_without_keys_succeeds_witness :
  exists sql rows,
    process_query Offline.runtime Online.database Offline.services
      {| QueryRequest.query := "bakeries in Porto Alegre";
         QueryRequest.context := None |} =
    (Returned
       {| QueryResponse.query := "bakeries in Porto Alegre";
          QueryResponse.interpretation := "?";
          QueryResponse.sql_query := sql;
          QueryResponse.results := rows;
          QueryResponse.visualization_type := "polygon";
          QueryResponse.success := true;
          QueryResponse.error := None |},
     with_geospatial Offline.services
       {| db_config := Offline.db_config; pool := Some 7 |}) /\
    rows = [[("id", VInt 1)]].
Proof.
  destruct (query_without_keys_succeeds Offline.runtime Online.database
              Offline.services
              {| QueryRequest.query := "bakeries in Porto Alegre";
                 QueryRequest.context := None |} eq_refl eq_refl)
    as (sql & rows & Hsql & Hrows & Hanswer).
  exists sql, rows.
  assert (Heq : rows = [[("id", VInt 1)]]).
  { vm_compute in Hsql. injection Hsql as <-.
    vm_compute in Hrows. injection Hrows as <-. reflexivity. }
  split; [|exact Heq]. rewrite Hanswer. subst rows. reflexivity.
Defined.

End Answers.

Section AnswerShape.

Import GeospatialService main.

Lemma execute_query_service (rt : Runtime) (db : Database) (sql_query : string)
    (interpretation : value) (self : t) :
  snd (fst (execute_query rt db sql_query interpretation self)) =
  snd (fst (get_pool db self)).
Proof.
  unfold execute_query. destruct (get_pool db self) as [[pl self'] log].
  destruct pl; reflexivity.
Qed.

(** [interpret_query] never raises.  Its answer is what the reply of the
    model parses to, taken as it is, when the service is enabled, the model
    replies and the reply is JSON; in every other case it is the keyword
    fallback. *)
Lemma interpret_query_never_raises
    (rt : Runtime) (self : LLMService.t) (query : string)
    (context : option value) :
  exists interpretation,
    LLMService.interpret_query rt self query context = Ok interpretation /\
    ((exists text,
        LLMService.enabled self = true /\
        LLMService.call_model self (interpret_prompt rt query context) = Ok text /\
        json_loads rt text = Ok interpretation) \/
     interpretation = LLMService._fallback_interpretation self query).
Proof.
  unfold LLMService.interpret_query.
  destruct (LLMService.enabled self); cbn [negb]; [|eauto].
  destruct (LLMService.call_model self _) as [text|e] eqn:Hcall;
    cbn [bind try_except]; [|eauto].
  destruct (json_loads rt text) as [v|e] eqn:Hjson; cbn [bind try_except];
    [|eauto].
  exists v. split; [reflexivity|]. left. exists text. auto.
Qed.

(** X9.  [/query] answers every request with a [QueryResponse] that
    echoes the query.  One that reports success has no error text and a
    visualization type among none, heatmap, polygon, polyline and markers.
    One that reports failure has no rows, an empty interpretation and SQL
    text, the visualization type "error" and the text of the exception.
    Of the services only the database service may have changed, by the
    pool it now holds. *)
Theorem query_answer_shape
    (rt : Runtime) (db : Database) (app : Services) (request : QueryRequest.t) :
  exists answer geo,
    process_query rt db app request = (Returned answer, with_geospatial app geo) /\
    (geo = geospatial_service app \/
     geo = snd (fst (get_pool db (geospatial_service app)))) /\
    QueryResponse.query answer = QueryRequest.query request /\
    if QueryResponse.success answer
    then QueryResponse.error answer = None /\
         In (QueryResponse.visualization_type answer) visualization_types
    else QueryResponse.interpretation answer = "" /\
         QueryResponse.sql_query answer = "" /\
         QueryResponse.results answer = [] /\
         QueryResponse.visualization_type answer = "error" /\
         exists e, QueryResponse.error answer = Some (str_of_exn e).
Proof.
  unfold process_query, run_query.
  destruct (interpret_query_never_raises rt (llm_service app)
              (QueryRequest.query request) (QueryRequest.context request))
    as (interpretation & -> & _).
  destruct (LLMService.generate_sql_query rt (llm_service app) interpretation)
    as [sql|e].
  - pose proof (execute_query_service rt db sql interpretation
                  (geospatial_service app)) as Hgeo.
    destruct (execute_query rt db sql interpretation (geospatial_service app))
      as [[fetched geo] log]. cbn [fst snd] in Hgeo.
    match goal with
    | |- context [match ?o with Ok _ => _ | Raise _ => _ end] =>
        destruct o as [answer|e] eqn:Hrun
    end.
    + exists answer, geo. split; [reflexivity|]. split; [right; exact Hgeo|].
      bind_ok Hrun. bind_ok Hrun. bind_ok Hrun. bind_ok Hrun.
      injection Hrun as <-. cbn. split; [reflexivity|]. split; [reflexivity|].
      match goal with
      | H : determine_visualization_type _ _ = Ok _ |- _ =>
          exact (proj1 (visualization_names _ _ _ H))
      end.
    + eexists _, geo. split; [reflexivity|]. split; [right; exact Hgeo|].
      cbn. repeat split. exists e. reflexivity.
  - eexists _, (geospatial_service app).
    split; [rewrite with_geospatial_same; reflexivity|].
    split; [left; reflexivity|]. cbn. repeat split. exists e. reflexivity.
Qed.

End AnswerShape.

(** ** The SQL text *)

Lemma prefix_app_l (n m b : string) :
  prefix n m = true -> prefix n (m ++ b) = true.
Proof.
  revert m. induction n as [|a n IH]; intros m H;
    [destruct (m ++ b); reflexivity|].
  destruct m as [|c m]; [discriminate|]. cbn [prefix append] in *.
  destruct (ascii_dec a c); [apply IH; exact H | discriminate].
Qed.

Lemma str_in_app_l (n m b : string) :
  str_in n m = true -> str_in n (m ++ b) = true.
Proof.
  induction m as [|c m IH]; cbn [str_in append]; intros H.
  - destruct (prefix n "") eqn:Hp; [|discriminate].
    destruct n; [|discriminate]. destruct b; reflexivity.
  - destruct (prefix n (String c m)) eqn:Hp.
    + change (String c (m ++ b)) with (String c m ++ b).
      rewrite (prefix_app_l _ _ b Hp). reflexivity.
    + rewrite (IH H). destruct (prefix n (String c (m ++ b))); reflexivity.
Qed.

Lemma str_in_app_r (n a m : string) :
  str_in n m = true -> str_in n (a ++ m) = true.
Proof.
  intros H. induction a as [|c a IH]; cbn [append]; [exact H|].
  cbn [str_in]. rewrite IH. destruct (prefix n (String c (a ++ m))); reflexivity.
Qed.

Lemma str_in_prefix (n m : string) : prefix n m = true -> str_in n m = true.
Proof. intros H. destruct m; cbn [str_in]; rewrite H; reflexivity. Qed.

Lemma prefix_self_app (n b : string) : prefix n (n ++ b) = true.
Proof.
  induction n as [|a n IH]; [destruct b; reflexivity|]. cbn [prefix append].
  destruct (ascii_dec a a); [exact IH | congruence].
Qed.

(** A text holds what stands in its middle. *)
Lemma str_in_middle (a n b : string) : str_in n (a ++ n ++ b) = true.
Proof. apply str_in_app_r, str_in_prefix, prefix_self_app. Qed.

Section Sql.

Import LLMService.

(** X10.  The template SQL copies the city of the interpretation into its
    [WHERE] clause as it is, between single quotes and with no escaping;
    with no city, or an empty one, the text has no [WHERE] clause. *)
Theorem fallback_sql_city_filter
    (rt : Runtime) (self : t) (d loc : dict) :
  lookup "location" d = Some (VDict loc) ->
  (forall city,
     lookup "city" loc = Some (VStr city) -> city <> "" ->
     exists sql,
       _fallback_sql_query rt self (VDict d) = Ok sql /\
       str_in ("WHERE city = '" ++ city ++ "'") sql = true) /\
  (lookup "city" loc = None \/ lookup "city" loc = Some VNone \/
   lookup "city" loc = Some (VStr "") ->
   exists sql,
     _fallback_sql_query rt self (VDict d) = Ok sql /\
     str_in "WHERE" sql = false).
Proof.
  intros Hloc. unfold _fallback_sql_query. cbn [py_get]. rewrite Hloc.
  cbn [bind py_get]. split.
  - intros city Hcity Hne. rewrite Hcity. cbn [bind truthy format].
    destruct (String.eqb city "") eqn:Hempty;
      [apply String.eqb_eq in Hempty; contradiction|].
    cbn [negb]. eexists. split; [reflexivity|].
    apply str_in_middle.
  - intros [Hcity | [Hcity | Hcity]]; rewrite Hcity; cbn [bind truthy];
      eexists; (split; [reflexivity|]); vm_compute; reflexivity.
Qed.

Lemma fallback_sql_city_filter_witness :
  exists sql,
    _fallback_sql_query Offline.runtime (__init__ None Offline.gemini)
      (VDict [("location", VDict [("city", VStr "x' OR '1'='1")])]) = Ok sql /\
    str_in "WHERE city = 'x' OR '1'='1'" sql = true.
Proof.
  apply (proj1 (fallback_sql_city_filter Offline.runtime
                  (__init__ None Offline.gemini)
                  [("location", VDict [("city", VStr "x' OR '1'='1")])]
                  [("city", VStr "x' OR '1'='1")] eq_refl)
           "x' OR '1'='1" eq_refl).
  discriminate.
Defined.

(** X11.  Without an LLM the SQL text of a query filters by city exactly
    when the query names Porto Alegre, in any letter case, and the city it
    then filters by is Porto Alegre. *)
Theorem fallback_sql_names_porto_alegre
    (rt : Runtime) (self : t) (query : string) :
  exists sql,
    _fallback_sql_query rt self (_fallback_interpretation self query) = Ok sql /\
    str_in "WHERE" sql = str_in "porto alegre" (lower query) /\
    str_in "WHERE city = 'Porto Alegre'" sql = str_in "porto alegre" (lower query).
Proof.
  destruct (fallback_fields self query) as (d & -> & _ & _ & Hloc & _).
  unfold _fallback_sql_query. cbn [py_get]. rewrite Hloc. cbn [bind py_get lookup].
  change (String.eqb "city" "city") with true. cbn iota.
  destruct (str_in "porto alegre" (lower query)); cbn [bind truthy format];
    eexists; (split; [reflexivity|]); vm_compute; split; reflexivity.
Qed.

End Sql.

(** ** Code fences in the reply of the model *)

Lemma prefix_nil (m : string) : prefix "" m = true.
Proof. destruct m; reflexivity. Qed.

Lemma replace_fence_step (c : ascii) (s : string) :
  prefix "```" (String c s) = false ->
  replace "```" "" (String c s) = String c (replace "```" "" s).
Proof. unfold replace. cbn [replace_from]. intros ->. reflexivity. Qed.

Lemma replace_fence_match (t : string) :
  replace "```" "" ("```" ++ t) = replace "```" "" t.
Proof.
  unfold replace. cbn [append replace_from prefix].
  repeat match goal with
         | |- context [ascii_dec ?a ?a] => destruct (ascii_dec a a); [|congruence]
         end.
  rewrite prefix_nil. reflexivity.
Qed.

Lemma prefix_fence_inv (s : string) :
  prefix "```" s = true -> exists t, s = "```" ++ t.
Proof.
  destruct s as [|a [|b [|c t]]]; cbn [prefix];
    repeat match goal with
           | |- context [ascii_dec ?x ?y] => destruct (ascii_dec x y); subst
           end; try discriminate.
  intros _. exists t. reflexivity.
Qed.

(** What is left of a text that does not open with two backticks does not
    open with two backticks either. *)
Lemma replace_fence_two (u : string) :
  prefix "``" u = false -> prefix "``" (replace "```" "" u) = false.
Proof.
  destruct u as [|c1 u]; [reflexivity|]. intros H.
  assert (H1 : prefix "```" (String c1 u) = false).
  { cbn [prefix] in *. destruct (ascii_dec "`" c1) as [_|_]; [|reflexivity].
    destruct u as [|c2 u]; [reflexivity|]. cbn [prefix] in *.
    destruct (ascii_dec "`" c2) as [_|_]; [|reflexivity].
    rewrite prefix_nil in H. discriminate. }
  rewrite (replace_fence_step _ _ H1). cbn [prefix] in *.
  destruct (ascii_dec "`" c1) as [_|_]; [|reflexivity].
  destruct u as [|c2 u]; [reflexivity|].
  assert (H2 : prefix "```" (String c2 u) = false).
  { cbn [prefix] in *. destruct (ascii_dec "`" c2) as [_|_]; [|reflexivity].
    rewrite prefix_nil in H. discriminate. }
  rewrite (replace_fence_step _ _ H2). cbn [prefix] in *.
  destruct (ascii_dec "`" c2) as [_|_]; [|reflexivity].
  rewrite prefix_nil in H. discriminate.
Qed.

Lemma replace_fence_free (s : string) :
  str_in "```" (replace "```" "" s) = false.
Proof.
  remember (String.length s) as n eqn:Hn.
  assert (Hle : String.length s <= n) by lia. clear Hn.
  revert s Hle. induction n as [|n IH]; intros s Hle.
  - destruct s; [reflexivity | cbn in Hle; lia].
  - destruct s as [|c s]; [reflexivity|].
    destruct (prefix "```" (String c s)) eqn:Hp.
    + destruct (prefix_fence_inv _ Hp) as [t Ht]. rewrite Ht.
      rewrite replace_fence_match. apply IH.
      apply (f_equal String.length) in Ht. cbn in Ht, Hle. lia.
    + rewrite (replace_fence_step _ _ Hp).
      cbn [str_in]. rewrite (IH s) by (cbn in Hle; lia).
      assert (Hfirst : prefix "```" (String c (replace "```" "" s)) = false).
      { cbn [prefix] in *. destruct (ascii_dec "`" c) as [_|_]; [|reflexivity].
        apply replace_fence_two. exact Hp. }
      rewrite Hfirst. reflexivity.
Qed.

Lemma of_bytes_app (x y : list nat) : of_bytes (x ++ y) = of_bytes x ++ of_bytes y.
Proof.
  unfold of_bytes. rewrite map_app.
  induction (map ascii_of_nat x) as [|c l IH]; [reflexivity|].
  cbn [app string_of_list_ascii append]. rewrite IH. reflexivity.
Qed.

Lemma of_bytes_of (s : string) : of_bytes (bytes_of s) = s.
Proof.
  unfold of_bytes, bytes_of. rewrite map_map.
  rewrite (map_ext _ (fun c => c)) by (intros; apply ascii_nat_embedding).
  rewrite map_id. apply string_of_list_ascii_of_string.
Qed.

Lemma starts_with_app (p l rest : list nat) :
  starts_with p l = Some rest -> l = (p ++ rest)%list.
Proof.
  revert l. induction p as [|a p IH]; intros l H; cbn [starts_with] in H.
  - injection H as <-. reflexivity.
  - destruct l as [|b l]; [discriminate|].
    destruct (Nat.eqb_spec a b); [|discriminate]. subst.
    rewrite (IH _ H). reflexivity.
Qed.

Lemma first_some_some {A B : Type} (f : A -> option B) (l : list A) (b : B) :
  first_some f l = Some b -> exists a, f a = Some b.
Proof.
  induction l as [|a l IH]; cbn [first_some]; [discriminate|].
  destruct (f a) eqn:Hfa; [intros [= <-]; eauto | exact IH].
Qed.

(** Stripping from the left leaves an end of the text. *)
Lemma lstrip_bytes_suffix (spaces : list (list nat)) (fuel : nat) :
  forall l, exists pre, l = (pre ++ lstrip_bytes spaces fuel l)%list.
Proof.
  induction fuel as [|fuel IH]; intros l; cbn [lstrip_bytes].
  - exists []. reflexivity.
  - destruct l as [|b l]; [exists []; reflexivity|].
    destruct (is_space_byte (ascii_of_nat b)).
    + destruct (IH l) as [pre Hpre]. exists (b :: pre).
      cbn [app]. rewrite <- Hpre. reflexivity.
    + destruct (first_some _ spaces) as [rest|] eqn:Hfirst;
        [|exists []; reflexivity].
      destruct (first_some_some _ _ _ Hfirst) as [p Hp].
      apply starts_with_app in Hp.
      destruct (IH rest) as [pre Hpre]. exists (p ++ pre)%list.
      rewrite <- app_assoc, <- Hpre. exact Hp.
Qed.

(** [s.strip()] is a stretch of [s]. *)
Lemma strip_infix (s : string) : exists a b, s = a ++ strip s ++ b.
Proof.
  unfold strip.
  destruct (lstrip_bytes_suffix wide_spaces (List.length (bytes_of s)) (bytes_of s))
    as [pre1 H1].
  set (l1 := lstrip_bytes wide_spaces _ (bytes_of s)) in *.
  destruct (lstrip_bytes_suffix (map (@rev nat) wide_spaces) (List.length l1) (rev l1))
    as [pre2 H2].
  set (r := lstrip_bytes _ _ (rev l1)) in *.
  exists (of_bytes pre1), (of_bytes (rev pre2)).
  rewrite <- !of_bytes_app, <- rev_app_distr, <- H2, rev_involutive, <- H1.
  symmetry. apply of_bytes_of.
Qed.

Lemma strip_keeps_absent (n s : string) :
  str_in n s = false -> str_in n (strip s) = false.
Proof.
  intros H. destruct (str_in n (strip s)) eqn:Hin; [|reflexivity].
  destruct (strip_infix s) as (a & b & Hs).
  rewrite Hs in H. rewrite str_in_app_r in H; [discriminate|].
  apply str_in_app_l. exact Hin.
Qed.

Section Fences.

Import LLMService.

(** X12.  When the model replies, the SQL text [generate_sql_query]
    returns holds no code fence: no three backticks in a row are left of
    the reply, however many it had and wherever they stood. *)
Theorem generated_sql_has_no_code_fence
    (rt : Runtime) (self : t) (interpretation : value) (text : string) :
  enabled self = true ->
  call_model self (sql_prompt rt interpretation) = Ok text ->
  exists sql,
    generate_sql_query rt self interpretation = Ok sql /\
    str_in "```" sql = false.
Proof.
  intros Hon Hcall. unfold generate_sql_query. rewrite Hon, Hcall.
  cbn [negb bind try_except]. eexists. split; [reflexivity|].
  apply strip_keeps_absent, replace_fence_free.
Qed.

End Fences.

Lemma generated_sql_has_no_code_fence_witness :
  exists sql,
    LLMService.generate_sql_query Offline.runtime Online.llm_service VNone
    = Ok sql /\
    str_in "```" sql = false.
Proof.
  apply (generated_sql_has_no_code_fence Offline.runtime Online.llm_service VNone
           "```sql
SELECT id, name FROM demographics LIMIT 5;
```
"); reflexivity.
Defined.

(** ** Scores *)



Section Scores.

Import MultiCityComparisonService.




End Scores.

Section MeetingPoint.

Import RoutingService.


Lemma div_len_between (total lo hi : Q) (n : nat) :
  n <> 0 ->
  (inject_Z (Z.of_nat n) * lo <= total)%Q ->
  (total <= inject_Z (Z.of_nat n) * hi)%Q ->
  exists mean, div_len total n = Ok mean /\ (lo <= mean <= hi)%Q.
Proof.
  intros Hn Hlo Hhi. unfold div_len. destruct n as [|n]; [contradiction|].
  eexists. split; [reflexivity|].
  assert (Hpos : (0 < inject_Z (Z.of_nat (S n)))%Q)
    by (change 0%Q with (inject_Z 0); rewrite <- Zlt_Qlt; lia).
  split.
  - apply Qle_shift_div_l; [exact Hpos|]. rewrite Qmult_comm. exact Hlo.
  - apply Qle_shift_div_r; [exact Hpos|]. rewrite Qmult_comm. exact Hhi.
Qed.



End MeetingPoint.

(** ** The comparison of cities *)

Section Sorting.

Import GeospatialService.

Lemma insert_desc_perm (x : Q * dict) (l : list (Q * dict)) :
  Permutation (insert_desc x l) (x :: l).
Proof.
  induction l as [|y l IH]; cbn [insert_desc]; [reflexivity|].
  destruct (fst y ?= fst x)%Q; try reflexivity.
  rewrite IH. apply perm_swap.
Qed.

Lemma sort_desc_perm (l : list (Q * dict)) :
  Permutation (fold_right insert_desc [] l) l.
Proof.
  induction l as [|x l IH]; cbn [fold_right]; [reflexivity|].
  rewrite insert_desc_perm, IH. reflexivity.
Qed.

Lemma insert_desc_sorted (x : Q * dict) (l : list (Q * dict)) :
  StronglySorted (fun a b => (fst b <= fst a)%Q) l ->
  StronglySorted (fun a b => (fst b <= fst a)%Q) (insert_desc x l).
Proof.
  induction l as [|y l IH]; intros Hs; cbn [insert_desc].
  - repeat constructor.
  - inversion Hs as [|? ? Hl Hy]; subst.
    destruct (Qcompare_spec (fst y) (fst x)) as [Heq|Hlt|Hgt].
    + constructor; [exact Hs|]. constructor; [rewrite Heq; apply Qle_refl|].
      eapply Forall_impl; [|exact Hy]. intros z Hz. cbn beta in *.
      rewrite <- Heq. exact Hz.
    + constructor; [exact Hs|]. constructor; [apply Qlt_le_weak; exact Hlt|].
      eapply Forall_impl; [|exact Hy]. intros z Hz. cbn beta in *.
      eapply Qle_trans; [exact Hz|]. apply Qlt_le_weak. exact Hlt.
    + constructor; [apply IH; exact Hl|].
      eapply Permutation_Forall; [symmetry; apply insert_desc_perm|].
      constructor; [apply Qlt_le_weak; exact Hgt | exact Hy].
Qed.

Lemma sort_desc_sorted (l : list (Q * dict)) :
  StronglySorted (fun a b => (fst b <= fst a)%Q) (fold_right insert_desc [] l).
Proof.
  induction l as [|x l IH]; cbn [fold_right]; [constructor|].
  apply insert_desc_sorted, IH.
Qed.

Lemma score_keys (rows : list dict) :
  Forall scored rows ->
  mapM (fun row => s <- getitem (VDict row) "score" ;; as_number s) rows =
  Ok (map score_key rows).
Proof.
  induction 1 as [|row rows (city & score & _ & Hscore) _ IH]; [reflexivity|].
  cbn [mapM map]. rewrite IH. cbn [getitem]. rewrite Hscore.
  cbn [bind as_number]. unfold score_key. rewrite Hscore. reflexivity.
Qed.

(** Sorting entries that carry a score gives the same entries, the greater
    score first. *)
Lemma sort_by_score_desc_scored (rows : list dict) :
  Forall scored rows ->
  exists sorted,
    sort_by_score_desc rows = Ok sorted /\
    Permutation sorted rows /\
    StronglySorted (fun a b => (score_key b <= score_key a)%Q) sorted.
Proof.
  intros Hall. unfold sort_by_score_desc. rewrite (score_keys _ Hall).
  cbn [bind]. eexists. split; [reflexivity|].
  set (pairs := combine (map score_key rows) rows).
  assert (Hpairs : Forall (fun p => fst p = score_key (snd p)) pairs).
  { subst pairs. clear. induction rows; constructor; auto. }
  assert (Hsnd : map snd pairs = rows).
  { subst pairs. clear. induction rows; cbn; congruence. }
  split.
  - eapply Permutation_trans; [apply Permutation_map, sort_desc_perm|].
    rewrite Hsnd. reflexivity.
  - pose proof (sort_desc_sorted pairs) as Hsorted.
    assert (Hkeys : Forall (fun p => fst p = score_key (snd p))
                      (fold_right insert_desc [] pairs))
      by (eapply Permutation_Forall; [symmetry; apply sort_desc_perm | exact Hpairs]).
    clear - Hsorted Hkeys.
    induction Hsorted as [|p l Hl IH Hp]; cbn [map]; [constructor|].
    inversion Hkeys as [|? ? Hk Hks]; subst.
    constructor; [exact (IH Hks)|].
    clear - Hp Hk Hks. induction Hp as [|q l Hq Hp IH]; cbn [map]; [constructor|].
    inversion Hks as [|? ? Hkq Hks']; subst.
    constructor; [rewrite <- Hk, <- Hkq; exact Hq | exact (IH Hks')].
Qed.

End Sorting.

Section Comparison.

Import MultiCityComparisonService.

Lemma city_result_scored (self : t) (city : string) (data criteria : value)
    (business_type : string) (entry : dict) :
  city_result self city data criteria business_type = Ok entry ->
  lookup "city" entry = Some (VStr city) /\
  exists score, lookup "score" entry = Some (VFloat score).
Proof.
  unfold city_result. intros H. repeat bind_ok H. injection H as <-.
  split; [reflexivity|]. eexists. reflexivity.
Qed.

Lemma table_city_result (self : t) (city : string) (data criteria : value)
    (business_type : string) :
  lookup city (_get_city_database self) = Some data ->
  exists entry, city_result self city data criteria business_type = Ok entry.
Proof.
  unfold _get_city_database. cbn [lookup].
  repeat match goal with
         | |- context [String.eqb city ?k] => destruct (String.eqb city k)
         end;
    try discriminate; intros [= <-]; vm_compute; eexists; reflexivity.
Qed.

Lemma collect_results_known (self : t) (criteria : value)
    (business_type : string) (cities : list string) :
  forall results,
    exists out,
      collect_results self (_get_city_database self) criteria business_type
        cities results = Ok out /\
      map (lookup "city") out =
        (map (lookup "city") results ++
         map (fun city => Some (VStr city))
           (filter (fun city => has_key city (_get_city_database self)) cities))%list /\
      (Forall scored results -> Forall scored out).
Proof.
  induction cities as [|city rest IH]; intros results;
    cbn [collect_results filter].
  - exists results. rewrite app_nil_r. auto.
  - destruct (has_key city (_get_city_database self)) eqn:Hkey; [|apply IH].
    unfold has_key in Hkey. cbn [getitem].
    destruct (lookup city (_get_city_database self)) as [data|] eqn:Hdata;
      [|discriminate].
    cbn [bind].
    destruct (table_city_result self city data criteria business_type Hdata)
      as [entry Hentry].
    rewrite Hentry. cbn [bind].
    destruct (city_result_scored _ _ _ _ _ _ Hentry) as (Hcity & score & Hscore).
    destruct (IH (results ++ [entry])%list) as (out & -> & Hnames & Hall).
    exists out. split; [reflexivity|]. split.
    + rewrite Hnames, map_app, <- app_assoc. cbn [map app]. rewrite Hcity.
      reflexivity.
    + intros Hres. apply Hall, Forall_app. split; [exact Hres|].
      constructor; [|constructor]. exists city, score. auto.
Qed.

Lemma add_rankings_length (i : nat) (results : list dict) :
  List.length (add_rankings i results) = List.length results.
Proof.
  revert i. induction results as [|entry rest IH]; intros i; cbn; congruence.
Qed.

Lemma add_rankings_keeps (k : string) (results : list dict) :
  String.eqb k "rank" = false -> String.eqb k "medal" = false ->
  forall i, map (lookup k) (add_rankings i results) = map (lookup k) results.
Proof.
  intros Hrank Hmedal.
  induction results as [|entry rest IH]; intros i; cbn [add_rankings map];
    [reflexivity|].
  rewrite IH, !lookup_dict_set_other by assumption. reflexivity.
Qed.

Lemma add_rankings_rank (results : list dict) :
  forall i,
    map (lookup "rank") (add_rankings i results) =
    map (fun j => Some (VInt (Z.of_nat j + 1))) (seq i (List.length results)).
Proof.
  induction results as [|entry rest IH]; intros i;
    cbn [add_rankings map seq List.length]; [reflexivity|].
  rewrite IH, lookup_dict_set_other by reflexivity.
  rewrite lookup_dict_set_same. reflexivity.
Qed.

Lemma add_rankings_medal (results : list dict) :
  forall i,
    map (lookup "medal") (add_rankings i results) =
    map (fun j => Some (VStr (medal j))) (seq i (List.length results)).
Proof.
  induction results as [|entry rest IH]; intros i;
    cbn [add_rankings map seq List.length]; [reflexivity|].
  rewrite IH, lookup_dict_set_same. reflexivity.
Qed.

Lemma scored_score_key (entries : list dict) :
  Forall scored entries ->
  map (lookup "score") entries =
  map (fun x => Some (VFloat x)) (map score_key entries).
Proof.
  induction 1 as [|entry rest (city & score & _ & Hscore) _ IH]; [reflexivity|].
  cbn [map]. unfold score_key at 1. rewrite IH, Hscore. reflexivity.
Qed.

Lemma sorted_scores (entries : list dict) :
  StronglySorted (fun a b => (score_key b <= score_key a)%Q) entries ->
  StronglySorted (fun a b => (b <= a)%Q) (map score_key entries).
Proof.
  induction 1 as [|entry rest _ IH Hall]; cbn [map]; constructor;
    [exact IH|].
  clear - Hall. induction Hall; cbn [map]; constructor; auto.
Qed.

Lemma known_cities_length (self : t) (cities : list string) :
  List.length (known_cities self cities) <= 10.
Proof.
  unfold known_cities.
  eapply Nat.le_trans; [apply filter_length_le|]. apply firstn_le_length.
Qed.

Lemma generate_summary_scored (rt : Runtime) (self : t) (results : list dict)
    (business_type : string) :
  (forall entry, In entry results ->
     has_key "city" entry = true /\ has_key "score" entry = true) ->
  exists summary,
    _generate_summary rt self results business_type = Ok summary /\
    (results = [] -> summary = "No cities to compare").
Proof.
  intros Hall. destruct results as [|first rest]; cbn [_generate_summary].
  - eauto.
  - destruct (Hall first (or_introl eq_refl)) as [Hcity Hscore].
    unfold has_key in *. cbn [getitem py_get].
    destruct (lookup "city" first); [|discriminate].
    destruct (lookup "score" first); [|discriminate].
    destruct (lookup "recommendation" first); cbn [bind];
      eexists; (split; [reflexivity | discriminate]).
Qed.

(** What [compare_cities] returns, in full *)
Lemma compare_cities_outcome (rt : Runtime) (self : t) (cities : list string)
    (criteria : value) (business_type : string) :
  exists results summary,
    compare_cities rt self cities criteria business_type =
    Ok (comparison business_type criteria results summary) /\
    Permutation (map (lookup "city") results)
      (map (fun city => Some (VStr city)) (known_cities self cities)) /\
    (results = [] -> summary = "No cities to compare") /\
    map (lookup "score") results =
      map (fun x => Some (VFloat x)) (map score_key results) /\
    StronglySorted (fun a b => (b <= a)%Q) (map score_key results) /\
    map (lookup "rank") results =
      map (fun i => Some (VInt (Z.of_nat i + 1))) (seq 0 (List.length results)) /\
    map (lookup "medal") results =
      map (fun i => Some (VStr (medal i))) (seq 0 (List.length results)).
Proof.
  unfold compare_cities.
  destruct (collect_results_known self criteria business_type (firstn 10 cities) [])
    as (found & -> & Hnames & Hscored).
  specialize (Hscored (Forall_nil _)). cbn [bind map app] in *.
  destruct (sort_by_score_desc_scored found Hscored)
    as (sorted & -> & Hperm & Hsorted).
  cbn [bind].
  set (ranked := add_rankings 0 sorted).
  assert (Hcity : map (lookup "city") ranked = map (lookup "city") sorted)
    by (apply add_rankings_keeps; reflexivity).
  assert (Hscore : map (lookup "score") ranked = map (lookup "score") sorted)
    by (apply add_rankings_keeps; reflexivity).
  assert (Hsorted_scored : Forall scored sorted)
    by (eapply Permutation_Forall; [symmetry; exact Hperm | exact Hscored]).
  assert (Hkeys : map score_key ranked = map score_key sorted).
  { unfold score_key.
    rewrite <- (map_map (lookup "score")
                  (fun o => match o with Some (VFloat x) => x | _ => 0%Q end)).
    rewrite Hscore, map_map. reflexivity. }
  destruct (generate_summary_scored rt self ranked business_type)
    as (summary & -> & Hnone).
  { intros entry Hin. unfold has_key.
    assert (Hc : In (lookup "city" entry) (map (lookup "city") ranked))
      by (apply in_map; exact Hin).
    assert (Hs : In (lookup "score" entry) (map (lookup "score") ranked))
      by (apply in_map; exact Hin).
    rewrite Hcity in Hc. rewrite Hscore in Hs.
    apply in_map_iff in Hc. destruct Hc as (e1 & <- & He1).
    apply in_map_iff in Hs. destruct Hs as (e2 & <- & He2).
    rewrite Forall_forall in Hsorted_scored.
    destruct (Hsorted_scored e1 He1) as (c1 & s1 & -> & _).
    destruct (Hsorted_scored e2 He2) as (c2 & s2 & _ & ->). auto. }
  cbn [bind]. exists ranked, summary. split; [reflexivity|]. split.
  - unfold known_cities. rewrite Hcity, <- Hnames. apply Permutation_map.
    exact Hperm.
  - split; [exact Hnone|]. split.
    + rewrite Hkeys, Hscore. apply scored_score_key. exact Hsorted_scored.
    + split; [rewrite Hkeys; apply sorted_scores; exact Hsorted|].
      subst ranked. rewrite add_rankings_length.
      split; [apply add_rankings_rank | apply add_rankings_medal].
Qed.

(** X16.  [compare_cities] never raises.  Its entries are the cities of
    the table among the first ten asked for, each as often as it was
    asked for; a name that is not in the table is passed over without a
    word, and when none is left the summary says that there is nothing to
    compare. *)
Theorem compare_cities_lists_known_cities
    (rt : Runtime) (self : t) (cities : list string) (criteria : value)
    (business_type : string) :
  exists results summary,
    compare_cities rt self cities criteria business_type =
    Ok (comparison business_type criteria results summary) /\
    Permutation (map (lookup "city") results)
      (map (fun city => Some (VStr city)) (known_cities self cities)) /\
    List.length results <= 10 /\
    (known_cities self cities = [] ->
     results = [] /\ summary = "No cities to compare").
Proof.
  destruct (compare_cities_outcome rt self cities criteria business_type)
    as (results & summary & Hrun & Hperm & Hnone & _).
  exists results, summary. split; [exact Hrun|]. split; [exact Hperm|].
  pose proof (Permutation_length Hperm) as Hlen. rewrite !length_map in Hlen.
  split; [rewrite Hlen; apply known_cities_length|].
  intros Hknown. rewrite Hknown in Hlen.
  destruct results; [auto | discriminate].
Qed.

(** X17.  The entries [compare_cities] returns stand in the order of
    their scores, the greatest first; their ranks count 1, 2, 3, ... in
    that order, and the first three carry the medals. *)
Theorem compare_cities_ranks_by_score
    (rt : Runtime) (self : t) (cities : list string) (criteria : value)
    (business_type : string) :
  exists results summary scores,
    compare_cities rt self cities criteria business_type =
    Ok (comparison business_type criteria results summary) /\
    map (lookup "score") results = map (fun x => Some (VFloat x)) scores /\
    StronglySorted (fun a b => (b <= a)%Q) scores /\
    map (lookup "rank") results =
      map (fun i => Some (VInt (Z.of_nat i + 1))) (seq 0 (List.length results)) /\
    map (lookup "medal") results =
      map (fun i => Some (VStr (medal i))) (seq 0 (List.length results)).
Proof.
  destruct (compare_cities_outcome rt self cities criteria business_type)
    as (results & summary & Hrun & _ & _ & Hscores & Hsorted & Hrank & Hmedal).
  exists results, summary, (map score_key results). auto.
Qed.

End Comparison.

(** ** The historical comparison *)

Section TimeTravel.

Import TimeTravelService.






End TimeTravel.

(** ** Accessibility and isochrones without a maps key *)

Section Accessibility.

Import RoutingService.

(** X19.  An accessibility analysis asked for an empty list of types
    divides by zero: with no maps key, or when the live analysis fails,
    [analyze_accessibility] raises [ZeroDivisionError] whatever the
    location and the time limit, and the endpoint answers HTTP 500. *)
Theorem accessibility_of_no_types_divides_by_zero
    (title : string -> string) (live : Live) (app : main.Services)
    (request : AccessibilityRequest.t) :
  AccessibilityRequest.poi_types request = Some [] ->
  enabled (main.routing_service app) = false \/
  (exists e, accessibility_live live (AccessibilityRequest.location request) []
               (AccessibilityRequest.max_duration_minutes request) = Raise e) ->
  analyze_accessibility (main.routing_service app) title live
    (AccessibilityRequest.location request) (Some [])
    (AccessibilityRequest.max_duration_minutes request)
  = Raise (ZeroDivisionError "division by zero") /\
  main.analyze_location_accessibility title live app request
  = main.HTTPException 500 "division by zero".
Proof.
  intros Htypes Hmock.
  assert (Hrun : analyze_accessibility (main.routing_service app) title live
                   (AccessibilityRequest.location request) (Some [])
                   (AccessibilityRequest.max_duration_minutes request)
                 = Raise (ZeroDivisionError "division by zero")).
  { unfold analyze_accessibility.
    destruct Hmock as [-> | [e ->]]; [reflexivity|].
    destruct (enabled _); reflexivity. }
  split; [exact Hrun|].
  unfold main.analyze_location_accessibility. rewrite Htypes, Hrun. reflexivity.
Qed.

Lemma accessibility_of_no_types_divides_by_zero_witness :
  main.analyze_location_accessibility (fun s => s)
    {| isochrone_live := fun _ _ _ _ => Offline.refused;
       accessibility_live := fun _ _ _ => Offline.refused |}
    Offline.services
    {| AccessibilityRequest.location := [("lat", (-30 # 1)%Q); ("lng", (-51 # 1)%Q)];
       AccessibilityRequest.poi_types := Some [];
       AccessibilityRequest.max_duration_minutes := Some 15%Z |}
  = main.HTTPException 500 "division by zero".
Proof.
  apply (accessibility_of_no_types_divides_by_zero (fun s => s)
           {| isochrone_live := fun _ _ _ _ => Offline.refused;
              accessibility_live := fun _ _ _ => Offline.refused |}
           Offline.services
           {| AccessibilityRequest.location :=
                [("lat", (-30 # 1)%Q); ("lng", (-51 # 1)%Q)];
              AccessibilityRequest.poi_types := Some [];
              AccessibilityRequest.max_duration_minutes := Some 15%Z |}
           eq_refl).
  left. reflexivity.
Defined.

Lemma mock_poi_entry_in_range (title : string -> string) (location : coords)
    (max_duration : Z) (i : nat) (poi_type : string) (lat lng : Q) :
  (0 < max_duration)%Z ->
  coord "lat" location = Ok lat -> coord "lng" location = Ok lng ->
  exists entry score x,
    mock_poi_entry title location (Some max_duration) i poi_type = Ok entry /\
    getitem entry "score" = Ok score /\
    as_number score = Ok x /\ (0 <= x <= 10)%Q.
Proof.
  intros Hmax Hlat Hlng. unfold mock_poi_entry, true_div, le_optional.
  destruct (Z.eqb_spec max_duration 0) as [Hz|_]; [lia|].
  cbn [bind]. rewrite Hlat, Hlng. cbn [bind].
  set (ratio := (inject_Z (5 + Z.of_nat i * 3) / inject_Z max_duration)%Q).
  assert (Hratio : (0 <= ratio)%Q).
  { subst ratio. apply Qle_shift_div_l.
    - change 0%Q with (inject_Z 0). rewrite <- Zlt_Qlt. exact Hmax.
    - rewrite Qmult_0_l. change 0%Q with (inject_Z 0). rewrite <- Zle_Qle. lia. }
  clearbody ratio.
  destruct (Qle_bool (10 - ratio * 10) 0) eqn:Hle.
  - eexists _, (VInt 0), 0%Q. repeat split; try reflexivity; lra.
  - eexists _, (VFloat (10 - ratio * 10)), (10 - ratio * 10)%Q.
    repeat split; try reflexivity; [|lra].
    destruct (Qlt_le_dec 0 (10 - ratio * 10)) as [Hpos|Hneg];
      [apply Qlt_le_weak; exact Hpos|].
    apply Qle_bool_iff in Hneg. congruence.
Qed.

Lemma dict_set_in_range (k : string) (v : value) (scores : dict) :
  (exists score x, getitem v "score" = Ok score /\
                   as_number score = Ok x /\ (0 <= x <= 10)%Q) ->
  scores_in_range scores -> scores_in_range (dict_set k v scores).
Proof.
  intros Hv. unfold scores_in_range.
  induction 1 as [|[k' v'] rest Hentry Hrest IH]; cbn [dict_set].
  - constructor; [exact Hv | constructor].
  - destruct (String.eqb k k'); constructor;
      [exact Hv | exact Hrest | exact Hentry | exact IH].
Qed.

Lemma dict_set_nonempty (k : string) (v : value) (d : dict) :
  dict_set k v d <> [].
Proof.
  destruct d as [|[k' v'] d]; cbn [dict_set]; [discriminate|].
  destruct (String.eqb k k'); discriminate.
Qed.

Lemma mock_scores_in_range (title : string -> string) (location : coords)
    (max_duration : Z) (lat lng : Q) (poi_types : list string) :
  (0 < max_duration)%Z ->
  coord "lat" location = Ok lat -> coord "lng" location = Ok lng ->
  forall i scores,
    scores_in_range scores ->
    exists out,
      mock_scores title location (Some max_duration) i poi_types scores = Ok out /\
      scores_in_range out /\
      (poi_types <> [] \/ scores <> [] -> out <> []).
Proof.
  intros Hmax Hlat Hlng.
  induction poi_types as [|poi_type rest IH]; intros i scores Hscores;
    cbn [mock_scores].
  - exists scores. split; [reflexivity|]. split; [exact Hscores|].
    intros [H|H]; [contradiction | exact H].
  - destruct (mock_poi_entry_in_range title location max_duration i poi_type
                lat lng Hmax Hlat Hlng) as (entry & score & x & -> & Hentry).
    cbn [bind].
    destruct (IH (S i) (dict_set poi_type entry scores)) as (out & -> & Hout & Hne).
    { apply dict_set_in_range; [eauto | exact Hscores]. }
    exists out. split; [reflexivity|]. split; [exact Hout|].
    intros _. apply Hne. right. apply dict_set_nonempty.
Qed.

Lemma sum_scores_in_range (scores : dict) :
  scores_in_range scores ->
  forall acc,
    exists total,
      sum_scores acc scores = Ok total /\
      (acc <= total)%Q /\
      (total <= acc + inject_Z (Z.of_nat (List.length scores)) * 10)%Q.
Proof.
  unfold scores_in_range.
  induction 1 as [|[k v] rest (score & x & Hscore & Hx & Hlo & Hhi) _ IH];
    intros acc; cbn [sum_scores].
  - exists acc. split; [reflexivity|]. cbn [List.length Z.of_nat].
    change (inject_Z 0) with 0%Q. split; lra.
  - cbn [snd] in Hscore. rewrite Hscore. cbn [bind]. rewrite Hx. cbn [bind].
    destruct (IH (acc + x)%Q) as (total & -> & Hlow & Hhigh).
    exists total. split; [reflexivity|].
    cbn [List.length]. rewrite Nat2Z.inj_succ, <- Z.add_1_r, inject_Z_plus.
    revert Hhigh. generalize (inject_Z (Z.of_nat (List.length rest))).
    intros q Hhigh. change (inject_Z 1) with 1%Q. split; lra.
Qed.

(** X20.  With no maps key, an accessibility analysis for a location that
    carries its coordinates, a time limit above zero and at least one
    type returns scores that all lie between 0 and 10, and an overall
    score between 0 and 10. *)
Theorem accessibility_scores_in_range
    (self : t) (title : string -> string) (live : Live) (location : coords)
    (poi_types : option (list string)) (max_duration : Z) (lat lng : Q) :
  enabled self = false ->
  coord "lat" location = Ok lat -> coord "lng" location = Ok lng ->
  (0 < max_duration)%Z ->
  poi_types <> Some [] ->
  exists payload scores overall,
    analyze_accessibility self title live location poi_types (Some max_duration)
    = Ok (VDict payload) /\
    lookup "accessibility_scores" payload = Some (VDict scores) /\
    scores_in_range scores /\
    lookup "overall_score" payload = Some (VFloat overall) /\
    (0 <= overall <= 10)%Q.
Proof.
  intros Hoff Hlat Hlng Hmax Htypes. unfold analyze_accessibility.
  rewrite Hoff. cbn [negb].
  set (types := match poi_types with Some l => l | None => _ end).
  assert (Hne : types <> [])
    by (subst types; destruct poi_types as [[|]|]; congruence).
  unfold _mock_accessibility_analysis.
  destruct (mock_scores_in_range title location max_duration lat lng types
              Hmax Hlat Hlng 0 []) as (scores & -> & Hscores & Hout);
    [constructor|].
  specialize (Hout (or_introl Hne)). cbn [bind].
  destruct (sum_scores_in_range scores Hscores 0%Q) as (total & -> & Hlow & Hhigh).
  cbn [bind]. rewrite Qplus_0_l in Hhigh.
  destruct (div_len_between total 0 10 (List.length scores))
    as (overall & -> & Hmean).
  - destruct scores; [contradiction | discriminate].
  - rewrite Qmult_0_r. exact Hlow.
  - exact Hhigh.
  - cbn [bind]. eexists _, scores, (round1 overall).
    split; [reflexivity|]. split; [reflexivity|]. split; [exact Hscores|].
    split; [reflexivity|]. split.
    + apply (Qle_trans _ (round1 0)); [vm_compute; discriminate|].
      apply round1_mono, Hmean.
    + apply (Qle_trans _ (round1 10)); [|vm_compute; discriminate].
      apply round1_mono, Hmean.
Qed.

Lemma accessibility_scores_in_range_witness :
  exists payload scores overall,
    analyze_accessibility (main.routing_service Offline.services) (fun s => s)
      {| isochrone_live := fun _ _ _ _ => Offline.refused;
         accessibility_live := fun _ _ _ => Offline.refused |}
      [("lat", (-30 # 1)%Q); ("lng", (-51 # 1)%Q)] None (Some 15%Z)
    = Ok (VDict payload) /\
    lookup "accessibility_scores" payload = Some (VDict scores) /\
    scores_in_range scores /\
    lookup "overall_score" payload = Some (VFloat overall) /\
    (0 <= overall <= 10)%Q.
Proof.
  apply (accessibility_scores_in_range (main.routing_service Offline.services)
           (fun s => s) _ _ None 15 (-30 # 1)%Q (-51 # 1)%Q);
    try reflexivity; discriminate.
Defined.

End Accessibility.

Section Isochrone.

Import RoutingService.








End Isochrone.

(** ** The service test script *)

Section Script.

Import GeospatialService.

Lemma check_connection_mentions_healthy (db : Database) (self : t) :
  str_in "healthy" (fst (fst (check_connection db self))) = true.
Proof.
  rewrite check_connection_unfold.
  destruct (fst (fst (get_pool db self))) as [p|]; [|reflexivity].
  destruct (with_connection db p _) as [v|e]; reflexivity.
Qed.

Lemma test_others_never_warns_of_database
    (rt : Runtime) (getenv : string -> option string)
    (gemini : LLMService.GenerativeModel) (gmaps : googlemaps.Client)
    (db_status : string) :
  str_in "healthy" db_status = true ->
  ~ In "   ⚠️  Database not connected (will use mock data)"
      (fst (test_api.test_others rt getenv gemini gmaps db_status)) /\
  ~ In "   - Install and configure PostgreSQL with PostGIS"
      (fst (test_api.test_others rt getenv gemini gmaps db_status)).
Proof.
  intros Hhealthy. unfold test_api.test_others. rewrite Hhealthy.
  destruct (_ <- _ ;; _) as [[query_type analysis_type]|e];
    cbn [fst negb app In append];
    repeat match goal with
           | |- context [if ?c then _ else _] => destruct c
           end;
    cbn [In app append]; split; intros H;
    repeat (destruct H as [H|H]; [discriminate H|]); exact H.
Qed.

(** X22.  The test script takes the database for connected whatever
    [check_connection] answered, since the answers "unhealthy" and
    "unhealthy: ..." hold the text "healthy" too: once the database
    service is built, the script prints that the PostGIS connection was
    successful, runs its query and counts the rows, and never prints that
    the database is not connected nor the note on installing PostgreSQL. *)
Theorem test_script_takes_database_for_connected
    (rt : Runtime) (db : Database) (getenv : string -> option string)
    (gemini : LLMService.GenerativeModel) (gmaps : googlemaps.Client)
    (geo_service : t) :
  __init__ getenv = Ok geo_service ->
  str_in "healthy" (fst (fst (check_connection db geo_service))) = true /\
  In "   ✅ PostGIS connection successful"
    (fst (test_api.test_services rt db getenv gemini gmaps)) /\
  In "   ✅ Query execution working"
    (fst (test_api.test_services rt db getenv gemini gmaps)) /\
  ~ In "   ⚠️  Database not connected (will use mock data)"
      (fst (test_api.test_services rt db getenv gemini gmaps)) /\
  ~ In "   - Install and configure PostgreSQL with PostGIS"
      (fst (test_api.test_services rt db getenv gemini gmaps)).
Proof.
  intros Hinit.
  pose proof (check_connection_mentions_healthy db geo_service) as Hhealthy.
  split; [exact Hhealthy|].
  unfold test_api.test_services. rewrite Hinit.
  destruct (check_connection db geo_service) as [[db_status geo'] log].
  cbn [fst] in Hhealthy.
  unfold test_api.test_database. rewrite Hhealthy.
  destruct (execute_query_ok rt db ""
              (VDict [("query_type", VStr "polygon");
                      ("location", VDict [("city", VStr "Porto Alegre")])])
              geo') as [results Hresults].
  destruct (execute_query rt db "" _ geo') as [[fetched geo''] log'].
  cbn [fst] in Hresults. subst fetched.
  destruct (test_others_never_warns_of_database rt getenv gemini gmaps
              db_status Hhealthy) as [Hwarn Hnote].
  destruct (test_api.test_others rt getenv gemini gmaps db_status)
    as [rest failure].
  cbn [fst] in *. cbn [app In append].
  split; [auto 10|]. split; [auto 10|].
  split; intros H;
    repeat (destruct H as [H|H]; [discriminate H|]); auto.
Qed.

Lemma test_script_takes_database_for_connected_witness :
  str_in "healthy"
    (fst (fst (check_connection Offline.database
                 (main.geospatial_service Offline.services)))) = true /\
  In "   ✅ PostGIS connection successful"
    (fst (test_api.test_services Offline.runtime Offline.database
            Offline.getenv Offline.gemini Offline.gmaps)) /\
  In "   ✅ Query execution working"
    (fst (test_api.test_services Offline.runtime Offline.database
            Offline.getenv Offline.gemini Offline.gmaps)) /\
  ~ In "   ⚠️  Database not connected (will use mock data)"
      (fst (test_api.test_services Offline.runtime Offline.database
              Offline.getenv Offline.gemini Offline.gmaps)) /\
  ~ In "   - Install and configure PostgreSQL with PostGIS"
      (fst (test_api.test_services Offline.runtime Offline.database
              Offline.getenv Offline.gemini Offline.gmaps)).
Proof.
  apply test_script_takes_database_for_connected. reflexivity.
Defined.

End Script.

(** ** [/query] with a maps key and nothing else *)

Section MapsOnly.

Import GeospatialService main.

Lemma fallback_is_readable (self : LLMService.t) (query : string) :
  readable_interpretation (LLMService._fallback_interpretation self query) = true.
Proof.
  unfold LLMService._fallback_interpretation.
  generalize (lower query). intros t.
  destruct (str_in "500" query && (str_in "meter" t || str_in "metro" t)),
    (str_in "coffee" t || str_in "cafeteria" t); reflexivity.
Qed.

Lemma mock_rows_have_centres :
  Forall (fun row => has_key "center" row = true /\ has_coordinates row = true)
    (map mock_row (range 10)).
Proof. repeat constructor. Qed.

(** X23.  With a maps key but no LLM key and no reachable database,
    [/query] still succeeds for every request, whatever the Places API
    does.  The answer has the ten mock areas in their order, drawn as
    polygons; when the query mentions coffee or a restaurant, every area
    carries a list of at most five nearby places (empty when the lookup
    failed), and otherwise the rows are the mock rows as they are. *)
Theorem query_with_maps_key_only
    (rt : Runtime) (db : Database) (app : Services) (request : QueryRequest.t) :
  LLMService.enabled (llm_service app) = false ->
  MapsService.enabled (maps_service app) = true ->
  unreachable db ->
  exists answer,
    process_query rt db app request = (Returned answer, app) /\
    QueryResponse.success answer = true /\
    QueryResponse.error answer = None /\
    QueryResponse.visualization_type answer = "polygon" /\
    map (lookup "id") (QueryResponse.results answer) =
      map (fun i => Some (VInt (i + 1))) (range 10) /\
    if str_in "coffee" (lower (QueryRequest.query request))
       || str_in "restaurant" (lower (QueryRequest.query request))
    then Forall few_places (QueryResponse.results answer)
    else QueryResponse.results answer = map mock_row (range 10).
Proof.
  intros Hllm Hmaps Hdb.
  unfold process_query, run_query, LLMService.interpret_query,
    LLMService.generate_sql_query.
  rewrite Hllm. cbn [negb].
  destruct (fallback_sql_of_fallback rt (llm_service app)
              (QueryRequest.query request)) as [sql ->].
  set (interpretation := LLMService._fallback_interpretation _ _).
  destruct (execute_query_unreachable rt db sql interpretation
              (geospatial_service app) Hdb) as [log ->].
  cbn [bind]. rewrite with_geospatial_same.
  destruct (fallback_fields (llm_service app) (QueryRequest.query request))
    as (d & Hd & _ & _ & _ & Henrich).
  fold interpretation in Hd.
  assert (Hpy : py_get interpretation "enrich_with_places" VNone =
                Ok (VBool (str_in "coffee" (lower (QueryRequest.query request))
                           || str_in "restaurant" (lower (QueryRequest.query request)))))
    by (rewrite Hd; cbn [py_get]; rewrite Henrich; reflexivity).
  rewrite Hpy. cbn [bind truthy].
  destruct (str_in "coffee" _ || str_in "restaurant" _).
  - unfold MapsService.enrich_with_places. rewrite Hmaps. cbn [negb].
    destruct (extract_place_types_readable (maps_service app) interpretation
                (fallback_is_readable _ _)) as [place_types ->].
    cbn [bind].
    destruct (enrich_rows_with_coordinates (maps_service app) place_types
                (map mock_row (range 10))) as (out & Hout & Henriched).
    { apply forallb_forall. intros row Hrow.
      pose proof mock_rows_have_centres as Hall. rewrite Forall_forall in Hall.
      apply (Hall row Hrow). }
    rewrite Hout. cbn [bind].
    pose proof (mapM_Forall2 _ _ _ Hout) as Hrows.
    assert (Hfew : Forall few_places out /\
                   map (lookup "id") out =
                   map (lookup "id") (map mock_row (range 10))).
    { pose proof mock_rows_have_centres as Hall.
      clear - Hrows Hall.
      induction Hrows as [|row row' rows rows' Hrow _ IH]; [split; constructor|].
      inversion Hall as [|? ? [Hcentre _] Hrest]; subst.
      destruct (IH Hrest) as [IH1 IH2].
      pose proof (enrich_row_few _ _ _ _ Hrow) as Hfew. rewrite Hcentre in Hfew.
      split; [constructor; assumption|].
      cbn [map]. rewrite IH2. f_equal.
      unfold MapsService.enrich_row in Hrow. rewrite Hcentre in Hrow.
      repeat bind_ok Hrow.
      destruct (MapsService.nearby_places _ _ _); injection Hrow as <-;
        apply lookup_dict_set_other; reflexivity. }
    destruct Hfew as [Hfew Hids].
    assert (Hviz : determine_visualization_type interpretation out = Ok "polygon").
    { destruct out as [|row rows]; [discriminate Hids|].
      apply visualization_of_fallback. }
    rewrite Hviz. cbn [bind]. eexists. split; [reflexivity|].
    cbn. repeat (split; [reflexivity|]). split; [|exact Hfew].
    rewrite Hids. reflexivity.
  - cbn [bind].
    assert (Hviz : determine_visualization_type interpretation
                     (map mock_row (range 10)) = Ok "polygon")
      by apply visualization_of_fallback.
    rewrite Hviz. cbn [bind]. eexists. split; [reflexivity|].
    cbn [QueryResponse.success QueryResponse.error
         QueryResponse.visualization_type QueryResponse.results].
    repeat (split; [reflexivity|]). reflexivity.
Qed.

Lemma query_with_maps_key_only_witness :
  exists answer,
    process_query Offline.runtime Offline.database
      {| llm_service := llm_service Offline.services;
         geospatial_service := geospatial_service Offline.services;
         maps_service := Online.maps_service;
         vision_service := vision_service Offline.services;
         routing_service := routing_service Offline.services |}
      {| QueryRequest.query := "Where to open a COFFEE shop?";
         QueryRequest.context := None |}
    = (Returned answer,
       {| llm_service := llm_service Offline.services;
          geospatial_service := geospatial_service Offline.services;
          maps_service := Online.maps_service;
          vision_service := vision_service Offline.services;
          routing_service := routing_service Offline.services |}) /\
    QueryResponse.success answer = true /\
    Forall few_places (QueryResponse.results answer).
Proof.
  destruct (query_with_maps_key_only Offline.runtime Offline.database
              {| llm_service := llm_service Offline.services;
                 geospatial_service := geospatial_service Offline.services;
                 maps_service := Online.maps_service;
                 vision_service := vision_service Offline.services;
                 routing_service := routing_service Offline.services |}
              {| QueryRequest.query := "Where to open a COFFEE shop?";
                 QueryRequest.context := None |}
              eq_refl eq_refl)
    as (answer & Hrun & Hsuccess & _ & _ & _ & Hfew).
  - split; intros; eexists; reflexivity.
  - exists answer. split; [exact Hrun|]. split; [exact Hsuccess|]. exact Hfew.
Defined.

End MapsOnly.

(** ** The analysis of a photo *)

Section Photo.

Import PhotoAnalysisService.

(** X24.  [analyze_uploaded_photo] answers every request with a report of
    success, from the reply of the model or, without a key or when
    decoding or the model fails, from the mock.  Either way the
    confidence score lies between 0 and 1, at most five characteristics
    are listed, and the city is absent or one of the eight names the
    service knows; the mock is marked as such. *)
Theorem photo_analysis_answer
    (self : t) (ask : string -> string -> result string)
    (image_data analysis_type : string) :
  exists payload confidence characteristics,
    analyze_uploaded_photo self ask image_data analysis_type = VDict payload /\
    lookup "success" payload = Some (VBool true) /\
    lookup "confidence_score" payload = Some (VFloat confidence) /\
    (0 <= confidence <= 1)%Q /\
    lookup "characteristics" payload = Some (VList (map VStr characteristics)) /\
    List.length characteristics <= 5 /\
    (lookup "city" payload = Some VNone \/
     exists city, In city cities /\ lookup "city" payload = Some (VStr city)) /\
    (lookup "mock" payload = Some (VBool true) <->
     enabled self = false \/
     exists e, ask image_data (_get_photo_analysis_prompt self analysis_type)
               = Raise e).
Proof.
  assert (Hmock : forall reason : Prop, reason ->
            exists payload confidence characteristics,
              _mock_photo_analysis self analysis_type = VDict payload /\
              lookup "success" payload = Some (VBool true) /\
              lookup "confidence_score" payload = Some (VFloat confidence) /\
              (0 <= confidence <= 1)%Q /\
              lookup "characteristics" payload =
                Some (VList (map VStr characteristics)) /\
              List.length characteristics <= 5 /\
              (lookup "city" payload = Some VNone \/
               exists city, In city cities /\
                            lookup "city" payload = Some (VStr city)) /\
              (lookup "mock" payload = Some (VBool true) <-> reason)).
  { intros reason Hreason. unfold _mock_photo_analysis.
    eexists _, _,
      ["commercial"; "high-end"; "busy"; "modern"; "well-maintained"].
    split; [reflexivity|]. split; [reflexivity|]. split; [reflexivity|].
    split; [split; vm_compute; discriminate|]. split; [reflexivity|].
    split; [cbn; lia|]. split.
    - right. eexists. split; [|reflexivity]. cbn. tauto.
    - split; [intros _; exact Hreason | reflexivity]. }
  unfold analyze_uploaded_photo.
  destruct (enabled self); cbn [negb]; [|apply Hmock; left; reflexivity].
  destruct (ask image_data _) as [text|e] eqn:Hask;
    [|apply Hmock; right; eauto].
  eexists _, _, (_extract_characteristics self text).
  split; [reflexivity|]. split; [reflexivity|]. split; [reflexivity|].
  split; [|split; [reflexivity|split; [|split]]].
  - unfold _calculate_confidence. split; [apply py_max_lower|].
    apply py_max_upper; [discriminate | apply py_min_upper].
  - unfold _extract_characteristics. apply firstn_le_length.
  - cbn [lookup String.eqb Ascii.eqb Bool.eqb]. unfold _extract_city.
    destruct (find _ cities) as [city|] eqn:Hfind; [|left; reflexivity].
    right. exists city. split; [|reflexivity].
    apply find_some in Hfind. apply Hfind.
  - cbn [lookup String.eqb Ascii.eqb Bool.eqb]. split; [discriminate|].
    intros [Hoff | [e' He']]; congruence.
Qed.

End Photo.

(** ** The analysis of images *)



Section Vision.

Import VisionService.



Lemma analyze_each_located (rt : Runtime) (getenv : string -> option string)
    (world : Eyes) (self : t) (locations : list dict) :
  forallb carries_coordinates locations = true ->
  exists analyses,
    analyze_each rt getenv world self locations = Ok analyses /\
    column "location" analyses = map (fun loc => Ok (VDict loc)) locations.
Proof.
  induction locations as [|loc rest IH]; cbn [forallb analyze_each]; intros H.
  - exists []. auto.
  - apply andb_prop in H. destruct H as [Hloc Hrest].
    unfold carries_coordinates, has_key in Hloc. cbn [getitem].
    destruct (lookup "lat" loc); [|discriminate].
    destruct (lookup "lng" loc); [|discriminate].
    cbn [bind]. destruct (IH Hrest) as (analyses & -> & Hcolumn).
    cbn [bind]. eexists. split; [reflexivity|].
    unfold column in *. cbn [map]. rewrite Hcolumn. reflexivity.
Qed.

Lemma analyze_each_unlocated (rt : Runtime) (getenv : string -> option string)
    (world : Eyes) (self : t) (locations : list dict) :
  forallb carries_coordinates locations = false ->
  exists e, analyze_each rt getenv world self locations = Raise e.
Proof.
  induction locations as [|loc rest IH]; cbn [forallb analyze_each]; intros H;
    [discriminate|].
  unfold carries_coordinates at 1, has_key in H. cbn [getitem].
  destruct (lookup "lat" loc); cbn [bind]; [|eauto].
  destruct (lookup "lng" loc); cbn [bind]; [|eauto].
  cbn [andb] in H. destruct (IH H) as [e ->]. cbn [bind]. eauto.
Qed.

(** X26.  [analyze_multiple_locations] looks at the first five locations
    and at no other.  When each of them carries lat and lng it reports
    success with one analysis for each, in their order; when one of them
    does not it raises and the endpoint answers HTTP 500; what stands
    after the fifth location is never read. *)
Theorem compare_locations_reads_first_five
    (rt : Runtime) (getenv : string -> option string) (world : Eyes)
    (app : main.Services) (request : MultiLocationVisionRequest.t) :
  let locations := MultiLocationVisionRequest.locations request in
  let analysis_type :=
    main.optional_str (MultiLocationVisionRequest.analysis_type request) in
  if forallb carries_coordinates (firstn 5 locations)
  then
    exists payload analyses,
      analyze_multiple_locations rt getenv world (main.vision_service app)
        locations analysis_type = Ok (VDict payload) /\
      main.compare_locations_visually rt getenv world app request
      = main.Returned (VDict payload) /\
      lookup "success" payload = Some (VBool true) /\
      lookup "individual_analyses" payload = Some (VList analyses) /\
      column "location" analyses =
        map (fun loc => Ok (VDict loc)) (firstn 5 locations)
  else
    exists e,
      analyze_multiple_locations rt getenv world (main.vision_service app)
        locations analysis_type = Raise e /\
      main.compare_locations_visually rt getenv world app request
      = main.HTTPException 500 (str_of_exn e).
Proof.
  intros locations analysis_type.
  unfold main.compare_locations_visually. fold locations analysis_type.
  unfold analyze_multiple_locations.
  destruct (forallb carries_coordinates (firstn 5 locations)) eqn:Hall.
  - destruct (analyze_each_located rt getenv world (main.vision_service app)
                (firstn 5 locations) Hall) as (analyses & -> & Hcolumn).
    cbn [bind].
    destruct (enabled (main.vision_service app) && (1 <? List.length analyses)%nat);
      eexists _, analyses; repeat (split; [reflexivity|]); exact Hcolumn.
  - destruct (analyze_each_unlocated rt getenv world (main.vision_service app)
                (firstn 5 locations) Hall) as (e & ->).
    cbn [bind]. exists e. split; reflexivity.
Qed.

End Vision.
